(** * CEOpenOrchestrator: workflow state machine and signal store

    A shallow embedding of [src/state.ts] (signals, persisted workflow
    state, review classification, phase determination, branch sessions)
    and of the orchestrator's command handlers and key loop (the second
    part of [src/types.ts]), with the branch slugs of [src/git.ts], the
    validation of [src/config.ts], project detection and the timeline,
    followed by the properties of the specification that concern them and
    by further properties of the code.

    The file system below [.workflow/] is an explicit value of type
    [World]; every TypeScript function becomes a computation in a small
    state-and-exception monad [M], so that [try]/[catch] blocks, early
    returns and the order of the file operations read as in the source. *)

From Stdlib Require Import ZArith.
From stdpp Require Import gmap strings list fin_maps.

Local Open Scope string_scope.
Local Open Scope Z_scope.

(** ** JavaScript string primitives used by the source

    The patterns the source searches for are ASCII, so searching the
    bytes of a text finds the same occurrences as searching its UTF-16
    code units. *)

Module JsString.

(** [s.slice(n)] for [0 <= n]. *)
Fixpoint slice (n : nat) (s : string) : string :=
  match n, s with
  | O, _ => s
  | S n', String _ s' => slice n' s'
  | S _, EmptyString => EmptyString
  end.

(** [s.startsWith(pat)]. *)
Fixpoint startsWith (s pat : string) {struct pat} : bool :=
  match pat, s with
  | EmptyString, _ => true
  | String p pat', String c s' => if Ascii.eqb p c then startsWith s' pat' else false
  | String _ _, EmptyString => false
  end.

(** [s.includes(pat)]: [pat] occurs somewhere in [s]. *)
Fixpoint includes (s pat : string) : bool :=
  startsWith s pat ||
  match s with
  | EmptyString => false
  | String _ s' => includes s' pat
  end.

(** [s.endsWith(suf)]: some tail of [s] is [suf]. *)
Fixpoint endsWith (s suf : string) : bool :=
  String.eqb s suf ||
  match s with
  | EmptyString => false
  | String _ s' => endsWith s' suf
  end.

(** [s.replace(pat, "")] with a string pattern: only the FIRST
    occurrence of [pat] is removed. *)
Fixpoint replace (s pat : string) : string :=
  if startsWith s pat then slice (String.length pat) s
  else match s with
       | EmptyString => EmptyString
       | String c s' => String c (replace s' pat)
       end.

End JsString.

(** ** Core types ([src/types.ts]) *)

Inductive Phase : Set :=
  | init | planning | implementing | reviewing | refining | compounding | complete.

Inductive ReviewStatus : Set :=
  | PASS | PASS_WITH_WARNINGS | FAIL | PENDING.

Inductive WorkerRole : Set :=
  | planner | backend | frontend | tests | reviewer.

#[global] Instance Phase_eq_dec : EqDecision Phase.
Proof. solve_decision. Defined.
#[global] Instance ReviewStatus_eq_dec : EqDecision ReviewStatus.
Proof. solve_decision. Defined.
#[global] Instance WorkerRole_eq_dec : EqDecision WorkerRole.
Proof. solve_decision. Defined.

(** A [Record<string, boolean>]: the own properties of the object.  Reading
    a property that is not set gives [undefined], which is falsy.  (Names
    that [Object.prototype] defines are not used as signal names.) *)
Abbreviation SignalSet := (gmap string bool).

Definition truthy (signals : SignalSet) (name : string) : bool :=
  default false (signals !! name).

Record WorkflowState : Type := mkState {
  phase : Phase;
  iteration : Z;
  featureName : option string;
  branchName : option string;
  commitCount : Z;
  signals : SignalSet;
  lastUpdated : string;
}.

Definition set_phase (p : Phase) (s : WorkflowState) : WorkflowState :=
  mkState p (iteration s) (featureName s) (branchName s) (commitCount s)
          (signals s) (lastUpdated s).
Definition set_iteration (i : Z) (s : WorkflowState) : WorkflowState :=
  mkState (phase s) i (featureName s) (branchName s) (commitCount s)
          (signals s) (lastUpdated s).
Definition set_branchName (b : option string) (s : WorkflowState) : WorkflowState :=
  mkState (phase s) (iteration s) (featureName s) b (commitCount s)
          (signals s) (lastUpdated s).
Definition set_signals (g : SignalSet) (s : WorkflowState) : WorkflowState :=
  mkState (phase s) (iteration s) (featureName s) (branchName s) (commitCount s)
          g (lastUpdated s).
Definition set_lastUpdated (t : string) (s : WorkflowState) : WorkflowState :=
  mkState (phase s) (iteration s) (featureName s) (branchName s) (commitCount s)
          (signals s) t.

(** The configuration is only handed on to the prompt generator of the
    dispatch executor; the handlers modelled here read nothing else of it. *)
Record Config : Type := mkConfig { auto_commit : bool; branch_prefix : string }.

Record TimelineEvent : Type := mkEvent { ev_type : string; ev_message : string }.

(** ** The file system below [.workflow/] *)

(** The text of a state file, up to JSON encoding: either the serialisation
    of a record ([JSON.stringify] of it) or text on which [JSON.parse]
    throws.  A file cut short in the middle of a write is of the second
    kind.  Text that parses to a value of another shape is not
    represented: the source casts the parsed value without checking it. *)
Inductive StateText : Type :=
  | Serialized (s : WorkflowState)
  | Malformed (raw : string).

(** A path that may hold a regular file.  [Unreadable] is a path that
    exists ([existsSync] is true) but on which [readFileSync] throws.
    Writing a file directly below [.workflow/] is taken to succeed and to
    leave a readable file: the workflow directory is writable. *)
Inductive Node (A : Type) : Type :=
  | Absent
  | Unreadable
  | File (content : A).
Arguments Absent {A}.
Arguments Unreadable {A}.
Arguments File {A} content.

(** A path that may hold a directory of marker files (file name to
    content; the entries are regular files).  A directory that is not
    [listable] exists, but [readdirSync] throws on it; files can still be
    written to it and removed from it by name.

    The directory is flat and its keys are names of entries.  The source
    joins the names it is given into a path, so a key stands for the
    entry the source reaches only when it is the name of one entry (no
    separator, not [.] or [..]); such names are singled out by
    [isEntryName] below, and the statements about caller-supplied names
    are made for them. *)
Inductive DirNode : Type :=
  | NoDir
  | Dir (listable : bool) (files : gmap string string).

(** [.workflow/sessions/<branch>/]: the saved state file and the saved
    [signals] directory of one branch. *)
Record Session : Type := mkSession {
  sessState : Node StateText;
  sessSignals : DirNode;
}.

(** The world.  Branch names are used as directory names as they are (the
    source does not sanitise them in [state.ts]); the sessions map is keyed
    by them.  A key stands for the directory the source reaches when the
    branch is a relative path that stays below [sessions/] ([isBranchPath]
    below).  [wNow] is what [new Date().toISOString()] returns.
    [wDispatched] records the dispatch requests the handlers make, one per
    worker window; what [tmux] does with a request is outside the world. *)
Record World : Type := mkWorld {
  wNow : string;
  wStateFile : Node StateText;        (* .workflow/state.json *)
  wStateTmp : Node StateText;         (* .workflow/state.json.tmp *)
  wSignalsDir : DirNode;              (* .workflow/signals/ *)
  wReviewFile : Node string;          (* .workflow/REVIEW.md *)
  wPlanFile : bool;                   (* existsSync(.workflow/PLAN.md) *)
  wErrors : DirNode;                  (* .workflow/errors/ *)
  wSessions : gmap string Session;    (* .workflow/sessions/ *)
  wTimeline : list TimelineEvent;     (* timeline of the current branch *)
  wDispatched : list (WorkerRole * bool);  (* dispatch requests made *)
}.

Definition with_stateFile (n : Node StateText) (w : World) : World :=
  mkWorld (wNow w) n (wStateTmp w) (wSignalsDir w) (wReviewFile w) (wPlanFile w)
          (wErrors w) (wSessions w) (wTimeline w) (wDispatched w).
Definition with_stateTmp (n : Node StateText) (w : World) : World :=
  mkWorld (wNow w) (wStateFile w) n (wSignalsDir w) (wReviewFile w) (wPlanFile w)
          (wErrors w) (wSessions w) (wTimeline w) (wDispatched w).
Definition with_signalsDir (d : DirNode) (w : World) : World :=
  mkWorld (wNow w) (wStateFile w) (wStateTmp w) d (wReviewFile w) (wPlanFile w)
          (wErrors w) (wSessions w) (wTimeline w) (wDispatched w).
Definition with_errors (d : DirNode) (w : World) : World :=
  mkWorld (wNow w) (wStateFile w) (wStateTmp w) (wSignalsDir w) (wReviewFile w)
          (wPlanFile w) d (wSessions w) (wTimeline w) (wDispatched w).
Definition with_sessions (m : gmap string Session) (w : World) : World :=
  mkWorld (wNow w) (wStateFile w) (wStateTmp w) (wSignalsDir w) (wReviewFile w)
          (wPlanFile w) (wErrors w) m (wTimeline w) (wDispatched w).
Definition with_timeline (l : list TimelineEvent) (w : World) : World :=
  mkWorld (wNow w) (wStateFile w) (wStateTmp w) (wSignalsDir w) (wReviewFile w)
          (wPlanFile w) (wErrors w) (wSessions w) l (wDispatched w).
Definition with_dispatched (l : list (WorkerRole * bool)) (w : World) : World :=
  mkWorld (wNow w) (wStateFile w) (wStateTmp w) (wSignalsDir w) (wReviewFile w)
          (wPlanFile w) (wErrors w) (wSessions w) (wTimeline w) l.

(** ** Computations: state passing with exceptions *)

Inductive Exn : Set := ENOENT | EACCES | SyntaxError.

Inductive Outcome (A : Type) : Type :=
  | Ret (a : A)
  | Throw (e : Exn).
Arguments Ret {A} a.
Arguments Throw {A} e.

(** The world is threaded through normal and exceptional exits alike: what
    a function wrote before it threw stays written. *)
Definition M (A : Type) : Type := World -> Outcome A * World.

Definition ret {A} (a : A) : M A := fun w => (Ret a, w).
Definition throw {A} (e : Exn) : M A := fun w => (Throw e, w).
Definition bind {A B} (m : M A) (k : A -> M B) : M B :=
  fun w => match m w with
           | (Ret a, w') => k a w'
           | (Throw e, w') => (Throw e, w')
           end.
(** [try { m } catch { h }]. *)
Definition try_catch {A} (m : M A) (h : M A) : M A :=
  fun w => match m w with
           | (Ret a, w') => (Ret a, w')
           | (Throw _, w') => h w'
           end.
Definition gets {A} (f : World -> A) : M A := fun w => (Ret (f w), w).
Definition modify (f : World -> World) : M unit := fun w => (Ret tt, f w).

Declare Scope m_scope.
Delimit Scope m_scope with M.
Notation "x <- m ;; k" := (bind m (fun x => k))
  (at level 100, m at next level, right associativity) : m_scope.
Notation "m ;; k" := (bind m (fun _ => k))
  (at level 100, right associativity) : m_scope.
Local Open Scope m_scope.

(** [for (const x of l) body(x)]. *)
Fixpoint for_of {A} (l : list A) (body : A -> M unit) : M unit :=
  match l with
  | [] => ret tt
  | x :: l' => body x ;; for_of l' body
  end.

(** The value a computation returns, and the world it leaves. *)
Definition result {A} (m : M A) (w : World) : Outcome A := fst (m w).
Definition after {A} (m : M A) (w : World) : World := snd (m w).

(** ** [node:fs] on the nodes of the world *)

Module Fs.

Definition existsNode {A} (n : Node A) : bool :=
  match n with Absent => false | _ => true end.

Definition readNode {A} (n : Node A) : Outcome A :=
  match n with
  | Absent => Throw ENOENT
  | Unreadable => Throw EACCES
  | File c => Ret c
  end.

Definition existsDir (d : DirNode) : bool :=
  match d with NoDir => false | Dir _ _ => true end.

(** [readdirSync]: the names of the entries, in the order the directory
    yields them. *)
Definition listDir (d : DirNode) : Outcome (list string) :=
  match d with
  | NoDir => Throw ENOENT
  | Dir false _ => Throw EACCES
  | Dir true files => Ret (map_to_list files).*1
  end.

(** [mkdirSync(dir, { recursive: true })] on a path that does not exist. *)
Definition mkdir (d : DirNode) : DirNode :=
  match d with NoDir => Dir true ∅ | _ => d end.

(** [writeFileSync(join(dir, file), content)]. *)
Definition writeIn (file content : string) (d : DirNode) : Outcome DirNode :=
  match d with
  | NoDir => Throw ENOENT
  | Dir l files => Ret (Dir l (<[file := content]> files))
  end.

(** [unlinkSync(join(dir, file))]. *)
Definition unlinkIn (file : string) (d : DirNode) : Outcome DirNode :=
  match d with
  | NoDir => Throw ENOENT
  | Dir l files =>
      match files !! file with
      | Some _ => Ret (Dir l (delete file files))
      | None => Throw ENOENT
      end
  end.

(** [existsSync(join(dir, file))]. *)
Definition existsIn (file : string) (d : DirNode) : bool :=
  match d with
  | NoDir => false
  | Dir _ files => bool_decide (is_Some (files !! file))
  end.

End Fs.

(** ** [src/state.ts] *)

Definition getInitialState : M WorkflowState :=
  now <- gets wNow ;;
  ret (mkState init 1 None None 0 ∅ now).

(** [JSON.parse(content) as WorkflowState]. *)
Definition JSON_parse (content : StateText) : M WorkflowState :=
  match content with
  | Serialized s => ret s
  | Malformed _ => throw SyntaxError
  end.

(** [JSON.stringify(state, null, 2)]. *)
Definition JSON_stringify (s : WorkflowState) : StateText := Serialized s.

Definition loadState : M WorkflowState :=
  ex <- gets (fun w => Fs.existsNode (wStateFile w)) ;;
  if negb ex then getInitialState
  else
    try_catch
      (content <- (fun w => (Fs.readNode (wStateFile w), w)) ;;
       JSON_parse content)
      getInitialState.

Definition saveState (state : WorkflowState) : M unit :=
  (* Ensure directories exist *)
  ex <- gets (fun w => Fs.existsDir (wSignalsDir w)) ;;
  (if negb ex then modify (fun w => with_signalsDir (Fs.mkdir (wSignalsDir w)) w)
   else ret tt) ;;
  (* Update timestamp *)
  now <- gets wNow ;;
  let updatedState := set_lastUpdated now state in
  (* "Atomic write" *)
  modify (with_stateTmp (File (JSON_stringify updatedState))) ;;
  tmp <- (fun w => (Fs.readNode (wStateTmp w), w)) ;;
  modify (with_stateFile (File tmp)) ;;
  try_catch (modify (with_stateTmp Absent)) (ret tt).

(** The loop body of [getSignals], on the object built so far. *)
Definition addSignal (signals : SignalSet) (file : string) : SignalSet :=
  if JsString.endsWith file ".done"
  then <[JsString.replace file ".done" := true]> signals
  else signals.

(** The signal names a directory of markers denotes. *)
Definition readSignals (d : DirNode) : SignalSet :=
  if negb (Fs.existsDir d) then ∅
  else match Fs.listDir d with
       | Ret files => foldl addSignal ∅ files
       | Throw _ => ∅       (* Directory might not exist or be readable *)
       end.

Definition getSignals : M SignalSet := gets (fun w => readSignals (wSignalsDir w)).

(** The marker is the entry [name + ".done"] of the signals directory
    (the source joins it into the path). *)
Definition createSignal (name : string) : M unit :=
  ex <- gets (fun w => Fs.existsDir (wSignalsDir w)) ;;
  (if negb ex then modify (fun w => with_signalsDir (Fs.mkdir (wSignalsDir w)) w)
   else ret tt) ;;
  now <- gets wNow ;;
  d <- (fun w => (Fs.writeIn (name +:+ ".done") now (wSignalsDir w), w)) ;;
  modify (with_signalsDir d).

(** The same entry, looked up and removed by its name. *)
Definition clearSignal (name : string) : M unit :=
  ex <- gets (fun w => Fs.existsIn (name +:+ ".done") (wSignalsDir w)) ;;
  if ex then
    d <- (fun w => (Fs.unlinkIn (name +:+ ".done") (wSignalsDir w), w)) ;;
    modify (with_signalsDir d)
  else ret tt.

Definition clearAllSignals : M unit :=
  ex <- gets (fun w => Fs.existsDir (wSignalsDir w)) ;;
  if negb ex then ret tt
  else
    try_catch
      (files <- (fun w => (Fs.listDir (wSignalsDir w), w)) ;;
       for_of files (fun file =>
         if JsString.endsWith file ".done" then
           d <- (fun w => (Fs.unlinkIn file (wSignalsDir w), w)) ;;
           modify (with_signalsDir d)
         else ret tt))
      (ret tt).

(** The classification of the text of [REVIEW.md]. *)
Definition classify (content : string) : ReviewStatus :=
  if JsString.includes content "STATUS: PASS" then
    if JsString.includes content "PASS_WITH_WARNINGS"
       || (JsString.includes content "Warnings"
           && JsString.includes content "Non-blocking")
    then PASS_WITH_WARNINGS
    else PASS
  else if JsString.includes content "STATUS: FAIL" then FAIL
  else PENDING.

Definition getReviewStatus : M ReviewStatus :=
  ex <- gets (fun w => Fs.existsNode (wReviewFile w)) ;;
  if negb ex then ret PENDING
  else
    (* Check if review signal exists *)
    signals <- getSignals ;;
    if negb (truthy signals "review") then ret PENDING
    else
      try_catch
        (content <- (fun w => (Fs.readNode (wReviewFile w), w)) ;;
         ret (classify content))
        (ret PENDING).

Definition refineSignals : list string :=
  ["backend-refine"; "frontend-refine"; "tests-refine"].

Definition determinePhase (signals : SignalSet) : M Phase :=
  (* Check if workflow is complete *)
  if truthy signals "compound" || truthy signals "pr" then ret complete
  else
    reviewStatus <- getReviewStatus ;;
    (* Check if compounding is done *)
    if truthy signals "compound" then ret compounding
    (* Check if review passed *)
    else if truthy signals "review"
            && (bool_decide (reviewStatus = PASS)
                || bool_decide (reviewStatus = PASS_WITH_WARNINGS))
    then ret compounding
    else
      (* Check if refine is complete *)
      let allRefinesDone := forallb (truthy signals) refineSignals in
      if truthy signals "review" && bool_decide (reviewStatus = FAIL) then
        if allRefinesDone then ret reviewing   (* ready for re-review *)
        else ret refining                      (* still refining *)
      (* Check if implementation is complete *)
      else if truthy signals "backend" && truthy signals "frontend"
              && truthy signals "tests"
      then ret reviewing
      else
        (* Check if planning is done *)
        plan <- gets wPlanFile ;;
        if truthy signals "plan" || plan then
          if truthy signals "plan" then ret implementing else ret planning
        else ret init.

Definition updateStateFromSignals : M WorkflowState :=
  state <- loadState ;;
  signals <- getSignals ;;
  newPhase <- determinePhase signals ;;
  (* Only update phase if it changed *)
  let state := if bool_decide (newPhase <> phase state)
               then set_phase newPhase state else state in
  let state := set_signals signals state in
  saveState state ;;
  ret state.

Definition clearWorkflow : M unit :=
  clearAllSignals ;;
  (* Clear state *)
  initialState <- getInitialState ;;
  saveState initialState ;;
  (* Clear error logs *)
  ex <- gets (fun w => Fs.existsDir (wErrors w)) ;;
  if ex then
    try_catch
      (files <- (fun w => (Fs.listDir (wErrors w), w)) ;;
       for_of files (fun file =>
         if JsString.endsWith file ".json" then
           d <- (fun w => (Fs.unlinkIn file (wErrors w), w)) ;;
           modify (with_errors d)
         else ret tt))
      (ret tt)
  else ret tt.

(** *** Branch sessions *)

Definition sessionExists (branch : string) (w : World) : bool :=
  bool_decide (is_Some (wSessions w !! branch)).

Definition branchStateNode (branch : string) (w : World) : Node StateText :=
  match wSessions w !! branch with
  | Some s => sessState s
  | None => Absent
  end.

Definition branchSignalsDir (branch : string) (w : World) : DirNode :=
  match wSessions w !! branch with
  | Some s => sessSignals s
  | None => NoDir
  end.

(** A write below [sessions/<branch>/] needs the session directory. *)
Definition updateSession (branch : string) (f : Session -> Session) : M unit :=
  fun w => match wSessions w !! branch with
           | Some s => (Ret tt, with_sessions (<[branch := f s]> (wSessions w)) w)
           | None => (Throw ENOENT, w)
           end.

Definition saveSessionToBranch (branch : string) : M unit :=
  currentState <- loadState ;;
  (* Create session directory if it doesn't exist *)
  ex <- gets (sessionExists branch) ;;
  (if negb ex
   then modify (fun w => with_sessions
                           (<[branch := mkSession Absent NoDir]> (wSessions w)) w)
   else ret tt) ;;
  (* Save state to branch-specific session *)
  now <- gets wNow ;;
  let stateWithBranch :=
    set_lastUpdated now (set_branchName (Some branch) currentState) in
  updateSession branch
    (fun s => mkSession (File (JSON_stringify stateWithBranch)) (sessSignals s)) ;;
  (* Copy signals if they exist *)
  currentSignals <- getSignals ;;
  if bool_decide (0 < size currentSignals)%nat then
    exs <- gets (fun w => Fs.existsDir (branchSignalsDir branch w)) ;;
    (if negb exs
     then updateSession branch
            (fun s => mkSession (sessState s) (Fs.mkdir (sessSignals s)))
     else ret tt) ;;
    for_of (map_to_list currentSignals).*1 (fun signalName =>
      stamp <- gets wNow ;;
      d <- (fun w => (Fs.writeIn (signalName +:+ ".done") stamp
                                 (branchSignalsDir branch w), w)) ;;
      updateSession branch (fun s => mkSession (sessState s) d))
  else ret tt.

Definition loadSessionFromBranch (branch : string) : M (option WorkflowState) :=
  ex <- gets (fun w => Fs.existsNode (branchStateNode branch w)) ;;
  if negb ex then ret None
  else
    try_catch
      (content <- (fun w => (Fs.readNode (branchStateNode branch w), w)) ;;
       branchState <- JSON_parse content ;;
       (* Restore to main workflow state *)
       saveState branchState ;;
       (* Restore signals *)
       exs <- gets (fun w => Fs.existsDir (branchSignalsDir branch w)) ;;
       (if exs then
          clearAllSignals ;;
          try_catch
            (signalFiles <- (fun w => (Fs.listDir (branchSignalsDir branch w), w)) ;;
             for_of signalFiles (fun file =>
               if JsString.endsWith file ".done"
               then createSignal (JsString.replace file ".done")
               else ret tt))
            (ret tt)   (* Ignore signal restore errors *)
        else ret tt) ;;
       ret (Some branchState))
      (ret None).

(** ** Collaborators of the handlers ([src/workers.ts] and the timeline) *)

Definition phaseName (p : Phase) : string :=
  match p with
  | init => "init" | planning => "planning" | implementing => "implementing"
  | reviewing => "reviewing" | refining => "refining"
  | compounding => "compounding" | complete => "complete"
  end.

(** [dispatchAllWorkers(config, isRefine)]: one dispatch request for each
    of the three domain workers (the source schedules them with
    [setTimeout]; a failing [tmux] command is caught and logged).  Nothing
    below [.workflow/] is touched, and whether a prompt reaches a worker
    is not part of the world. *)
Definition dispatchAllWorkers (config : Config) (isRefine : bool) : M unit :=
  modify (fun w => with_dispatched
    (wDispatched w ++ [(backend, isRefine); (frontend, isRefine); (tests, isRefine)]) w).

(** [logPhaseChange(phase)]: one event appended to the timeline. *)
Definition logPhaseChange (p : Phase) : M unit :=
  modify (fun w => with_timeline
    (wTimeline w ++ [mkEvent "phase_change" ("Phase changed to: " +:+ phaseName p)]) w).

(** ** Dispatch handlers (the orchestrator part of [src/types.ts])

    A handler mutates the [state] object it is given and the caller keeps
    using that object: the handler returns it here. *)

Definition handleDispatchRefine (config : Config) (state : WorkflowState)
  : M WorkflowState :=
  reviewStatus <- getReviewStatus ;;
  if bool_decide (reviewStatus <> FAIL) then
    ret state            (* "Review hasn't failed - no need to refine" *)
  else if bool_decide (3 <= iteration state) then
    ret state            (* "Max iterations reached. Manual intervention required." *)
  else
    let state := set_iteration (iteration state + 1) state in
    dispatchAllWorkers config true ;;
    logPhaseChange refining ;;
    let state := set_phase refining state in
    saveState state ;;
    ret state.

Definition handleDispatchCompound (config : Config) (state : WorkflowState)
  : M WorkflowState :=
  reviewStatus <- getReviewStatus ;;
  if bool_decide (reviewStatus <> PASS)
     && bool_decide (reviewStatus <> PASS_WITH_WARNINGS) then
    ret state            (* "Review hasn't passed - cannot compound" *)
  else
    createSignal "compound" ;;
    logPhaseChange compounding ;;
    let state := set_phase compounding state in
    saveState state ;;
    ret state.

(** ** What a concurrent reader can see during [saveState]

    [writeFileSync(path, data)] opens [path] with flag ['w'], which creates
    or truncates the file, and then writes [data] into it: between the two
    the file exists and is empty.  [saveState_trace] lists the worlds that
    follow one another while [saveState] runs, one per file-system effect;
    no step of it is a rename. *)

Definition truncated : StateText := Malformed "".

Definition saveState_trace (state : WorkflowState) (w0 : World) : list World :=
  let w1 := if negb (Fs.existsDir (wSignalsDir w0))
            then with_signalsDir (Fs.mkdir (wSignalsDir w0)) w0 else w0 in
  let updatedState := set_lastUpdated (wNow w1) state in
  (* writeFileSync(tempPath, ...) *)
  let w2 := with_stateTmp (File truncated) w1 in
  let w3 := with_stateTmp (File (JSON_stringify updatedState)) w2 in
  (* writeFileSync(statePath, readFileSync(tempPath)) *)
  match Fs.readNode (wStateTmp w3) with
  | Throw _ => [w1; w2; w3]
  | Ret buffer =>
      let w4 := with_stateFile (File truncated) w3 in
      let w5 := with_stateFile (File buffer) w4 in
      (* unlinkSync(tempPath) *)
      let w6 := with_stateTmp Absent w5 in
      [w1; w2; w3; w4; w5; w6]
  end.

(** ** More of [src/state.ts]: worker completion *)

Definition roleName (role : WorkerRole) : string :=
  match role with
  | planner => "planner" | backend => "backend" | frontend => "frontend"
  | tests => "tests" | reviewer => "reviewer"
  end.

(** [l.every(p)]: stops at the first element on which [p] is false. *)
Fixpoint every {A} (l : list A) (p : A -> M bool) : M bool :=
  match l with
  | [] => ret true
  | x :: l' => b <- p x ;; if b then every l' p else ret false
  end.

Definition isWorkerDone (role : WorkerRole) (isRefine : bool) : M bool :=
  signals <- getSignals ;;
  let signalName := if isRefine then roleName role +:+ "-refine" else roleName role in
  ret (truthy signals signalName).

Definition areAllWorkersDone (isRefine : bool) : M bool :=
  every [backend; frontend; tests] (fun role => isWorkerDone role isRefine).

(** ** The timeline ([timeline.ts], as far as the handlers use it) *)

(** [arr.slice(start)]: a negative [start] counts from the end. *)
Definition slice_from {A} (start : Z) (l : list A) : list A :=
  let len := Z.of_nat (length l) in
  let k := if start <? 0 then Z.max (len + start) 0 else Z.min start len in
  drop (Z.to_nat k) l.

Definition addTimelineEvent (type message : string) : M unit :=
  modify (fun w => with_timeline (wTimeline w ++ [mkEvent type message]) w).

(** ** The timeline file ([timeline.ts])

    The file on its own, with the ways reading it can fail.  In the world
    the timeline of the current branch is kept as the list of events this
    file parses to. *)

Module Timeline.

(** The text of [timeline.json], up to JSON encoding: an array of events,
    or text on which [JSON.parse] throws.  (Text that parses to something
    that is no array is not represented.) *)
Inductive TimelineText : Type :=
  | Events (events : list TimelineEvent)
  | Garbage (raw : string).

Definition loadTimeline (file : Node TimelineText) : list TimelineEvent :=
  if negb (Fs.existsNode file) then []
  else match Fs.readNode file with
       | Ret (Events events) => events
       | Ret (Garbage _) => []      (* JSON.parse throws *)
       | Throw _ => []
       end.

(** [saveTimeline(events)] creates the directory when needed and rewrites
    the whole file with [writeFileSync].  On a path that exists and cannot
    be read the write either throws (no permission, a directory;
    [EACCES] stands for any such failure) or, when the file is
    [writeOnly], goes through and leaves a file that still cannot be
    read.  Which of the two happens is an answer of the file system. *)
Definition saveTimeline (writeOnly : bool) (events : list TimelineEvent)
           (file : Node TimelineText) : Outcome unit * Node TimelineText :=
  match file with
  | Unreadable => (if writeOnly then Ret tt else Throw EACCES, Unreadable)
  | _ => (Ret tt, File (Events events))
  end.

(** [addTimelineEvent(type, message)]: the outcome, and the file after
    the call.  Nothing catches what [saveTimeline] throws. *)
Definition addTimelineEvent (writeOnly : bool) (type message : string)
           (file : Node TimelineText) : Outcome unit * Node TimelineText :=
  let events := loadTimeline file in
  saveTimeline writeOnly (events ++ [mkEvent type message]) file.

(** [getRecentEvents(limit)] is [events.slice(-limit)]. *)
Definition getRecentEvents (limit : Z) (file : Node TimelineText) : list TimelineEvent :=
  slice_from (- limit) (loadTimeline file).

End Timeline.

(** ** The other command handlers and the key loop

    What the version-control collaborator ([src/git.ts]) answers while one
    command runs: the title found in [PLAN.md], the branch
    [createFeatureBranch] ends on ([None] when it fails), whether
    [commitChanges] and [createPullRequest] succeed, and the commit count.
    Its commands run [git] and [gh]; [commitChanges] unstages [.workflow/],
    and none of them writes below it. *)
Record VersionControl : Type := mkVersionControl {
  planTitle : string;
  featureBranch : option string;
  commitSuccess : bool;
  commitCountNow : Z;
  pullRequestSuccess : bool;
}.

Definition set_featureName (n : option string) (s : WorkflowState) : WorkflowState :=
  mkState (phase s) (iteration s) n (branchName s) (commitCount s)
          (signals s) (lastUpdated s).
Definition set_commitCount (c : Z) (s : WorkflowState) : WorkflowState :=
  mkState (phase s) (iteration s) (featureName s) (branchName s) c
          (signals s) (lastUpdated s).

(** [dispatchReviewer(config)]: one dispatch request for the reviewer
    window, as in [dispatchAllWorkers]. *)
Definition dispatchReviewer (config : Config) : M unit :=
  modify (fun w => with_dispatched (wDispatched w ++ [(reviewer, false)]) w).

Definition handlePlanApproved (vc : VersionControl) (config : Config)
           (state : WorkflowState) : M WorkflowState :=
  plan <- gets wPlanFile ;;
  if negb plan then ret state            (* "No PLAN.md found. Create a plan first." *)
  else
    (* Get feature name *)
    let featureName := planTitle vc in
    let state := set_featureName (Some featureName) state in
    (* Create feature branch *)
    match featureBranch vc with
    | None => ret state                  (* "Failed to create branch" *)
    | Some branch =>
        let state := set_branchName (Some branch) state in
        (* Commit planning docs *)
        let state := if auto_commit config
                     then if commitSuccess vc
                          then set_commitCount (commitCountNow vc) state else state
                     else state in
        (* Create plan signal *)
        createSignal "plan" ;;
        addTimelineEvent "session_start" ("Session started: " +:+ featureName) ;;
        (* Dispatch workers *)
        dispatchAllWorkers config false ;;
        (* Update state *)
        let state := set_phase implementing state in
        signals <- getSignals ;;
        let state := set_signals signals state in
        saveState state ;;
        ret state
    end.

Definition handleDispatchReview (vc : VersionControl) (config : Config)
           (state : WorkflowState) : M WorkflowState :=
  (* Commit implementation if auto-commit enabled *)
  let state := if auto_commit config && bool_decide (phase state = implementing)
               then if commitSuccess vc
                    then set_commitCount (commitCountNow vc) state else state
               else state in
  dispatchReviewer config ;;
  logPhaseChange reviewing ;;
  let state := set_phase reviewing state in
  saveState state ;;
  ret state.

Definition handleCreatePR (vc : VersionControl) (config : Config)
           (state : WorkflowState) : M WorkflowState :=
  if negb (truthy (signals state) "compound") then
    ret state            (* "Compound not complete - cannot create PR" *)
  else if pullRequestSuccess vc then
    createSignal "pr" ;;
    let state := set_phase complete state in
    saveState state ;;
    ret state
  else ret state.

Definition handleManualCommit (vc : VersionControl) (config : Config)
           (state : WorkflowState) : M WorkflowState :=
  if bool_decide (phase state = init) then
    ret state            (* "Nothing to commit yet - start planning first" *)
  else
    let state := if commitSuccess vc
                 then set_commitCount (commitCountNow vc) state else state in
    saveState state ;;
    ret state.

(** Seven of the thirteen cases of the [switch] of the key loop: the
    commands that need no further input and that go through the handlers
    above.  The loop maps the key pressed to a command through
    [config.keybindings].  The other six cases are not commands of this
    type: new feature and clear session (which reset the workflow through
    [clearWorkflow]), branch management, export, the web dashboard and
    quit. *)
Inductive Command : Set :=
  | DispatchPlan | DispatchReview | DispatchRefine | DispatchCompound
  | CreatePr | CommitCheckpoint | RefreshStatus.

(** One turn of the [keypress] handler of [startOrchestrator]: the state
    is reloaded, its signals are refreshed, and the command runs.  The
    value returned is the state the loop renders and then drops: the next
    turn reloads it from [state.json]. *)
Definition keypress (vc : VersionControl) (config : Config) (cmd : Command)
  : M WorkflowState :=
  (* Update state from signals *)
  state <- loadState ;;
  signals <- getSignals ;;
  let state := set_signals signals state in
  match cmd with
  | DispatchPlan =>
      if bool_decide (phase state = planning) || negb (truthy (signals) "plan")
      then handlePlanApproved vc config state else ret state
  | DispatchReview =>
      if bool_decide (phase state = implementing) || bool_decide (phase state = refining)
      then handleDispatchReview vc config state else ret state
  | DispatchRefine => handleDispatchRefine config state
  | DispatchCompound => handleDispatchCompound config state
  | CreatePr => handleCreatePR vc config state
  | CommitCheckpoint => handleManualCommit vc config state
  | RefreshStatus =>
      state <- loadState ;;
      signals <- getSignals ;;
      ret (set_commitCount (commitCountNow vc) (set_signals signals state))
  end.

(** A session at the keyboard: one answer of the collaborator and one
    command per turn. *)
Fixpoint keypresses (config : Config) (turns : list (VersionControl * Command))
  : M unit :=
  match turns with
  | [] => ret tt
  | (vc, cmd) :: turns' => keypress vc config cmd ;; keypresses config turns'
  end.

(** ** [src/git.ts]: branch slugs *)

Module Git.

Definition isUpper (c : Ascii.ascii) : bool :=
  (65 <=? Ascii.nat_of_ascii c)%nat && (Ascii.nat_of_ascii c <=? 90)%nat.

(** [a-z0-9] *)
Definition isSlugChar (c : Ascii.ascii) : bool :=
  ((97 <=? Ascii.nat_of_ascii c)%nat && (Ascii.nat_of_ascii c <=? 122)%nat)
  || ((48 <=? Ascii.nat_of_ascii c)%nat && (Ascii.nat_of_ascii c <=? 57)%nat).

(** The character [-]. *)
Definition dash : Ascii.ascii := Ascii.ascii_of_nat 45.

Definition isDash (c : Ascii.ascii) : bool := Ascii.eqb c dash.

(** [s.toLowerCase()] on ASCII text; bytes above 127 are left alone and
    are not in [a-z0-9] (names whose characters have an ASCII lower case
    without being ASCII, such as the Kelvin sign, are not covered). *)
Fixpoint toLowerCase (s : string) : string :=
  match s with
  | EmptyString => EmptyString
  | String c s' =>
      String (if isUpper c then Ascii.ascii_of_nat (Ascii.nat_of_ascii c + 32) else c)
             (toLowerCase s')
  end.

(** [s.replace(/[^a-z0-9]+/g, "-")]: every maximal run of other characters
    becomes one dash; [inRun] says that the run has begun. *)
Fixpoint collapse (inRun : bool) (s : string) : string :=
  match s with
  | EmptyString => EmptyString
  | String c s' =>
      if isSlugChar c then String c (collapse false s')
      else if inRun then collapse true s'
      else String dash (collapse true s')
  end.

(** [s.replace(/^-|-$/g, "")]: a dash at the start goes, then a dash at
    the end of what is left. *)
Definition stripLeading (s : string) : string :=
  match s with
  | String c s' => if isDash c then s' else s
  | EmptyString => EmptyString
  end.

Fixpoint stripTrailing (s : string) : string :=
  match s with
  | EmptyString => EmptyString
  | String c EmptyString => if isDash c then EmptyString else s
  | String c s' => String c (stripTrailing s')
  end.

(** [s.slice(0, n)] *)
Fixpoint take (n : nat) (s : string) : string :=
  match n, s with
  | S n', String c s' => String c (take n' s')
  | _, _ => EmptyString
  end.

Definition generateSlug (name : string) : string :=
  take 40 (stripTrailing (stripLeading (collapse false (toLowerCase name)))).

End Git.

(** ** [src/config.ts]: validation and per-worker settings *)

Module ConfigTs.

(** A value found under [timeouts]: a number, or a value of another type,
    of which only the truthiness matters.  Numbers are integers. *)
Inductive TimeoutValue : Type :=
  | Number (n : Z)
  | NotNumber (truthy : bool).

(** A value found under [scopes]: an array, or anything else. *)
Inductive ScopeValue : Type :=
  | Patterns (patterns : list string)
  | NotArray.

(** The part of [Config] these functions read.  An object is the list of
    its entries in insertion order, which is the order of
    [Object.entries] for keys that are not array indices (role and scope
    names are not); its keys are distinct. *)
Record Settings : Type := mkSettings {
  models : list (string * string);
  timeouts : list (string * TimeoutValue);
  scopes : list (string * ScopeValue);
  poll_interval_ms : Z;
}.

(** [o[key]]: the value of the entry, [undefined] when there is none. *)
Fixpoint property {A} (key : string) (o : list (string * A)) : option A :=
  match o with
  | [] => None
  | (k, v) :: o' => if String.eqb k key then Some v else property key o'
  end.

(** [DEFAULT_CONFIG.models[role]] and [DEFAULT_CONFIG.timeouts[role]] are
    the same for the five roles. *)
Definition defaultModel : string := "kimi-k2.5-free".


(** [config.models[role] || DEFAULT_CONFIG.models[role]]: a missing entry
    and the empty string are falsy. *)
Definition getModelForWorker (config : Settings) (role : WorkerRole) : string :=
  match property (roleName role) (models config) with
  | Some model => if String.eqb model "" then defaultModel else model
  | None => defaultModel
  end.



End ConfigTs.

(** ** Project detection (first part of [src/unnamed/part_000]) *)

Module Detect.

Record PackageJson : Type := mkPackageJson {
  dependencies : option (gmap string string);
  devDependencies : option (gmap string string);
  scripts : option (gmap string string);
}.

(** The text of [package.json], up to JSON encoding: an object, the
    literal [null], or text on which [JSON.parse] throws. *)
Inductive PackageText : Type :=
  | ParsedObject (p : PackageJson)
  | ParsedNull
  | BadJson (raw : string).

(** The files of the project directory that detection looks at. *)
Record Project : Type := mkProject {
  packageJsonFile : Node PackageText;
  requirementsTxt : Node string;
  cargoToml : bool;
  goMod : bool;
  gemfile : Node string;
}.

(** A string read from an object is truthy when it is there and not empty. *)
Definition truthyString (o : option string) : bool :=
  match o with
  | Some s => negb (String.eqb s "")
  | None => false
  end.

Definition loadPackageJson (pr : Project) : option PackageJson :=
  if negb (Fs.existsNode (packageJsonFile pr)) then None
  else match Fs.readNode (packageJsonFile pr) with
       | Ret (ParsedObject p) => Some p
       | Ret ParsedNull => None
       | Ret (BadJson _) => None       (* JSON.parse throws *)
       | Throw _ => None
       end.

Definition hasDependency (pkg : option PackageJson) (name : string) : bool :=
  match pkg with
  | None => false
  | Some p =>
      truthyString (dependencies p ≫= (fun d => d !! name))
      || truthyString (devDependencies p ≫= (fun d => d !! name))
  end.

Definition hasScript (pkg : option PackageJson) (name : string) : bool :=
  match pkg with
  | None => false
  | Some p => truthyString (scripts p ≫= (fun d => d !! name))
  end.

(** The tail of [detectFramework], after the [package.json] block. *)
Definition detectByFiles (pr : Project) : Outcome string :=
  (* Rust *)
  if cargoToml pr then Ret "rust"
  (* Go *)
  else if goMod pr then Ret "go"
  (* Ruby on Rails *)
  else if Fs.existsNode (gemfile pr) then
    match Fs.readNode (gemfile pr) with
    | Throw e => Throw e
    | Ret text => if JsString.includes text "rails" then Ret "rails" else Ret "unknown"
    end
  else Ret "unknown".

Definition detectFramework (pr : Project) : Outcome string :=
  let pkg := loadPackageJson pr in
  match pkg with
  | Some _ =>
      if hasDependency pkg "next" then Ret "nextjs"
      else if hasDependency pkg "react" && negb (hasDependency pkg "next") then Ret "react"
      else if hasDependency pkg "express" then Ret "express"
      else if hasDependency pkg "fastify" then Ret "fastify"
      else if hasDependency pkg "hono" then Ret "hono"
      else if hasDependency pkg "vue" then Ret "vue"
      else if hasDependency pkg "svelte" then Ret "svelte"
      (* Django *)
      else if Fs.existsNode (requirementsTxt pr) then
        match Fs.readNode (requirementsTxt pr) with
        | Throw e => Throw e
        | Ret req =>
            if JsString.includes req "django" then Ret "django"
            else if JsString.includes req "flask" then Ret "flask"
            else if JsString.includes req "fastapi" then Ret "fastapi"
            else detectByFiles pr
        end
      else detectByFiles pr
  | None => detectByFiles pr
  end.

Definition script (pkg : PackageJson) (name : string) : option string :=
  default ∅ (scripts pkg) !! name.

Definition detectTestCommand (pr : Project) (pkg : option PackageJson) : option string :=
  match pkg with
  | None => None
  | Some p =>
      (* Direct test script *)
      if truthyString (script p "test") then script p "test"
      (* Check for common test runners *)
      else if hasDependency pkg "vitest" then Some "vitest"
      else if hasDependency pkg "jest" then Some "jest"
      else if hasDependency pkg "mocha" then Some "mocha"
      else if hasDependency pkg "tap" then Some "tap"
      else if hasDependency pkg "ava" then Some "ava"
      else if hasDependency pkg "playwright" then Some "playwright test"
      else if hasDependency pkg "cypress" then Some "cypress run"
      (* Fallback *)
      else if Fs.existsNode (packageJsonFile pr) then Some "bun test"
      else None
  end.

Definition detectLintCommand (pkg : option PackageJson) : option string :=
  match pkg with
  | None => None
  | Some p =>
      (* Check for lint scripts *)
      if truthyString (script p "lint") then script p "lint"
      else if truthyString (script p "lint:check") then script p "lint:check"
      else if truthyString (script p "check:lint") then script p "check:lint"
      else if truthyString (script p "eslint") then script p "eslint"
      (* Check for installed linters *)
      else if hasDependency pkg "biome" then Some "biome check ."
      else if hasDependency pkg "eslint" then Some "eslint ."
      else if hasDependency pkg "prettier" then Some "prettier --check ."
      else if hasDependency pkg "standard" then Some "standard"
      else if hasDependency pkg "xo" then Some "xo"
      else None
  end.

Definition detectTypecheckCommand (pkg : option PackageJson) : option string :=
  match pkg with
  | None => None
  | Some p =>
      (* Check for typecheck scripts *)
      if truthyString (script p "typecheck") then script p "typecheck"
      else if truthyString (script p "check:types") then script p "check:types"
      else if truthyString (script p "tsc") then script p "tsc"
      (* Check for TypeScript *)
      else if hasDependency pkg "typescript" then Some "tsc --noEmit"
      else None
  end.

Record CommandsConfig : Type := mkCommands {
  test : option string;
  lint : option string;
  typecheck : option string;
}.

Definition detectCommands (pr : Project) : CommandsConfig :=
  let pkg := loadPackageJson pr in
  mkCommands (detectTestCommand pr pkg) (detectLintCommand pkg)
             (detectTypecheckCommand pkg).

End Detect.

(** ** Names that denote one entry, and paths that stay below a directory *)

(** The character [/]. *)
Definition slash : Ascii.ascii := Ascii.ascii_of_nat 47.

(** The name of one directory entry (POSIX): not empty, not [.] or [..],
    no separator and no NUL byte, at most 255 bytes.  [join(dir, name)]
    is then the entry [name] of [dir]. *)
Definition isEntryName (name : string) : bool :=
  negb (String.eqb name "") && negb (String.eqb name ".") && negb (String.eqb name "..")
  && negb (JsString.includes name (String slash ""))
  && negb (JsString.includes name (String (Ascii.ascii_of_nat 0) ""))
  && (String.length name <=? 255)%nat.

(** The components of a path: [s.split("/")]. *)
Fixpoint components (s : string) : list string :=
  match s with
  | EmptyString => [""]
  | String c s' =>
      if Ascii.eqb c slash then "" :: components s'
      else match components s' with
           | first :: rest => String c first :: rest
           | [] => [String c ""]
           end
  end.

(** A relative path whose components are all names of entries:
    [join(dir, branch)] then lies strictly below [dir]. *)
Definition isBranchPath (branch : string) : bool :=
  forallb isEntryName (components branch).

(** ** Relations between two worlds used in the statements below *)

(** No file of the signals directory is lost between [w] and [w']. *)
Definition markers_kept (w w' : World) : Prop :=
  forall file, Fs.existsIn file (wSignalsDir w) = true ->
               Fs.existsIn file (wSignalsDir w') = true.

(** The review artifact, the planning artifact and the set of signals
    [getSignals] reports are the same in [w] and [w']. *)
Definition review_inputs_kept (w w' : World) : Prop :=
  wReviewFile w' = wReviewFile w /\
  wPlanFile w' = wPlanFile w /\
  readSignals (wSignalsDir w') = readSignals (wSignalsDir w).

(** The record after the commit count is taken over from a successful
    commit. *)
Definition commitCounted (vc : VersionControl) (state : WorkflowState) : WorkflowState :=
  if commitSuccess vc then set_commitCount (commitCountNow vc) state else state.

(** What every command handler does with the state [st] it is given in
    the world [w]: it returns, and either leaves the world as it is or
    ends by saving the state it returns, in a world [wm] that has lost no
    marker; the iteration never goes down, and goes up only below 3. *)
Definition handled (st : WorkflowState) (w : World)
           (out : Outcome WorkflowState * World) : Prop :=
  exists (st' : WorkflowState) (w' : World),
    out = (Ret st', w') /\
    (w' = w \/
     exists wm : World,
       w' = after (saveState st') wm /\
       markers_kept w wm /\
       wNow wm = wNow w /\
       iteration st <= iteration st' <= Z.max (iteration st) 3).

(** ** Shapes of a slug, used to state and prove the slug properties *)

(** The string begins with a dash. *)
Definition headDash (s : string) : bool :=
  match s with
  | String c _ => Git.isDash c
  | EmptyString => false
  end.

(** The string ends with a dash. *)
Fixpoint lastDash (s : string) : bool :=
  match s with
  | EmptyString => false
  | String c EmptyString => Git.isDash c
  | String _ s' => lastDash s'
  end.

(** No dash of the string is followed by a dash. *)
Fixpoint noDoubleDash (s : string) : bool :=
  match s with
  | EmptyString => true
  | String c s' => negb (Git.isDash c && headDash s') && noDoubleDash s'
  end.

(** The characters a slug is made of. *)
Definition slugAlphabet (c : Ascii.ascii) : Prop :=
  Git.isSlugChar c = true \/ c = Git.dash.

(** * Sample worlds and stated properties *)

(** ** Sample worlds *)

Definition stamp0 : string := "2024-05-01T10:00:00.000Z".

(** A freshly created workflow directory. *)
Definition emptyWorld : World :=
  mkWorld stamp0 Absent Absent NoDir Absent false NoDir ∅ [] [].

(** The marker files of a list of signal names. *)
Definition markers (names : list string) : gmap string string :=
  list_to_map (map (fun n => (n +:+ ".done", stamp0)) names).

(** [w] with a readable [REVIEW.md] holding [text] and a signals
    directory holding the markers of [names]. *)
Definition withReview (text : string) (names : list string) (w : World) : World :=
  mkWorld (wNow w) (wStateFile w) (wStateTmp w) (Dir true (markers names))
          (File text) (wPlanFile w) (wErrors w) (wSessions w) (wTimeline w)
          (wDispatched w).

(** The signal object in which exactly [names] are set. *)
Definition present (names : list string) : SignalSet :=
  list_to_map (map (fun n => (n, true)) names).

(** A persisted record at phase [p] and iteration [i]. *)
Definition stateAt (p : Phase) (i : Z) : WorkflowState :=
  mkState p i (Some "login form") (Some "feature/login-form") 2 ∅ stamp0.

(** The precedence scenario of the specification: compound, the three
    implementation signals and review are present, the review says FAIL. *)
Definition racingSignals : SignalSet :=
  present ["compound"; "backend"; "frontend"; "tests"; "review"].

Definition racingWorld : World :=
  withReview "STATUS: FAIL" ["compound"; "backend"; "frontend"; "tests"; "review"]
             emptyWorld.

(** A failed review with two of the three refine signals. *)
Definition refiningWorld : World :=
  withReview "STATUS: FAIL" ["review"; "backend-refine"; "frontend-refine"] emptyWorld.

(** A failed review after the implementation, before any refine. *)
Definition failedReviewWorld : World :=
  withReview "STATUS: FAIL" ["plan"; "backend"; "frontend"; "tests"; "review"] emptyWorld.

(** A second refine round: the review failed again, and the three refine
    markers of the first round are still there (nothing clears them). *)
Definition secondRoundWorld : World :=
  withReview "STATUS: FAIL"
    ["plan"; "backend"; "frontend"; "tests"; "review";
     "backend-refine"; "frontend-refine"; "tests-refine"] emptyWorld.

(** A session saved on [feature/a] before any signal exists, and a [plan]
    signal created afterwards. *)
Definition savedEarlyWorld : World :=
  after (createSignal "plan")
        (after (saveSessionToBranch "feature/a")
               (after (saveState (stateAt init 1)) emptyWorld)).

(** A session saved on [feature/a] with the signals plan and backend; the
    live signals are then cleared and a review signal is created. *)
Definition savedLateWorld : World :=
  after (createSignal "review")
        (after clearAllSignals
               (after (saveSessionToBranch "feature/a")
                      (after (createSignal "backend")
                             (after (createSignal "plan")
                                    (after (saveState (stateAt implementing 1))
                                           emptyWorld))))).

(** ** Project fixtures *)

(** [package.json] with one more entry in [dependencies]. *)
Definition addDependency (name version : string) (p : Detect.PackageJson)
  : Detect.PackageJson :=
  Detect.mkPackageJson
    (Some (<[name := version]> (default ∅ (Detect.dependencies p))))
    (Detect.devDependencies p) (Detect.scripts p).

(** The project with another parsed [package.json]. *)
Definition withPackage (p : Detect.PackageJson) (pr : Detect.Project) : Detect.Project :=
  Detect.mkProject (File (Detect.ParsedObject p)) (Detect.requirementsTxt pr)
                   (Detect.cargoToml pr) (Detect.goMod pr) (Detect.gemfile pr).

(** The dependencies [detectFramework] looks for. *)
Definition frameworkDependencies : list string :=
  ["next"; "react"; "express"; "fastify"; "hono"; "vue"; "svelte"].

(** A Django project that also has a [package.json] for its assets. *)
Definition djangoProject : Detect.Project :=
  Detect.mkProject
    (File (Detect.ParsedObject
             (Detect.mkPackageJson (Some {[ "tailwindcss" := "^3.4.0" ]}) None None)))
    (File "django==5.0
gunicorn") false false Absent.

(** ** Further sample worlds and answers *)

(** A workflow directory in which [PLAN.md] has been written and nothing
    else has happened. *)
Definition plannedWorld : World :=
  mkWorld stamp0 Absent Absent NoDir Absent true NoDir ∅ [] [].

(** The collaborator creates the branch and the commit goes through. *)
Definition branchCreated : VersionControl :=
  mkVersionControl "Login form" (Some "feature/login-form") true 1 false.

(** The collaborator cannot create the branch. *)
Definition branchRefused : VersionControl :=
  mkVersionControl "Login form" None false 0 false.

(** A timeline of three events. *)
Definition threeEvents : list TimelineEvent :=
  [mkEvent "session_start" "Session started: Login form";
   mkEvent "phase_change" "Phase changed to: reviewing";
   mkEvent "review" "Review completed: FAIL"].



(** ** Statements of the specification that are tested below *)

(** The statement of C6: the phase is determined by the signals passed,
    the review artifact and the presence of the review marker. *)
Definition phase_determined_by_triple : Prop :=
  forall (signals : SignalSet) (w1 w2 : World),
    wReviewFile w1 = wReviewFile w2 ->
    truthy (readSignals (wSignalsDir w1)) "review"
      = truthy (readSignals (wSignalsDir w2)) "review" ->
    result (determinePhase signals) w1 = result (determinePhase signals) w2.

(** The invariant of C5 on a world: the phase of the record in
    [state.json] is the phase [determinePhase] derives from the signals. *)
Definition persisted_phase_derived (w : World) : Prop :=
  forall s : WorkflowState,
    wStateFile w = File (Serialized s) ->
    result (determinePhase (readSignals (wSignalsDir w))) w = Ret (phase s).

(** The statement of C7 about the signals: whenever a restore succeeds,
    the live signal set is the signal set of the snapshot. *)
Definition restore_replaces_signals : Prop :=
  forall (branch : string) (w : World) (state : WorkflowState),
    result (loadSessionFromBranch branch) w = Ret (Some state) ->
    result getSignals (after (loadSessionFromBranch branch) w)
      = Ret (readSignals (branchSignalsDir branch w)).

(** * Properties *)

(** ** Reading the monad *)

Ltac run :=
  unfold result, after, bind, ret, gets, modify, throw, try_catch in *;
  cbv beta in *.

Lemma getSignals_eq (w : World) :
  getSignals w = (Ret (readSignals (wSignalsDir w)), w).
Proof. reflexivity. Qed.

Lemma getInitialState_eq (w : World) :
  getInitialState w = (Ret (mkState init 1 None None 0 ∅ (wNow w)), w).
Proof. reflexivity. Qed.

(** [getReviewStatus] always returns, and writes nothing. *)
Lemma getReviewStatus_pure (w : World) :
  exists r, getReviewStatus w = (Ret r, w).
Proof.
  unfold getReviewStatus, getSignals. run.
  destruct (wReviewFile w) as [| |text] eqn:E; cbn; eauto;
    destruct (truthy _ "review"); cbn; rewrite ?E; cbn; eauto.
Qed.

(** The value of [getReviewStatus], read off the world. *)
Lemma getReviewStatus_eq (w : World) :
  getReviewStatus w =
    (Ret match wReviewFile w with
         | File text =>
             if truthy (readSignals (wSignalsDir w)) "review"
             then classify text else PENDING
         | _ => PENDING
         end, w).
Proof.
  unfold getReviewStatus, getSignals. run.
  destruct (wReviewFile w) as [| |text] eqn:E; cbn; eauto;
    destruct (truthy _ "review"); cbn; rewrite ?E; cbn; eauto.
Qed.

Lemma getReviewStatus_result (w : World) :
  getReviewStatus w = (result getReviewStatus w, w).
Proof.
  destruct (getReviewStatus_pure w) as [r Hr]. unfold result. rewrite Hr. reflexivity.
Qed.

(** The two exits of the first test of [determinePhase]. *)
Lemma determinePhase_terminal (signals : SignalSet) (w : World) :
  truthy signals "compound" || truthy signals "pr" = true ->
  determinePhase signals w = (Ret complete, w).
Proof. intros H. unfold determinePhase. rewrite H. reflexivity. Qed.

(** [determinePhase] always returns a phase, and writes nothing. *)
Lemma determinePhase_pure (signals : SignalSet) (w : World) :
  exists p, determinePhase signals w = (Ret p, w).
Proof.
  unfold determinePhase.
  destruct (truthy signals "compound" || truthy signals "pr"); [eexists; reflexivity|].
  unfold bind at 1. destruct (getReviewStatus_pure w) as [r ->].
  repeat first
    [ progress (run; cbn)
    | match goal with
      | |- context [if ?b then _ else _] => destruct b
      end ]; eauto.
Qed.

(** Two worlds that agree on the review artifact, on the review marker
    and on the planning artifact give the same phase. *)
Lemma determinePhase_frame (signals : SignalSet) (w1 w2 : World) :
  wReviewFile w1 = wReviewFile w2 ->
  truthy (readSignals (wSignalsDir w1)) "review"
    = truthy (readSignals (wSignalsDir w2)) "review" ->
  wPlanFile w1 = wPlanFile w2 ->
  exists p : Phase,
    determinePhase signals w1 = (Ret p, w1) /\
    determinePhase signals w2 = (Ret p, w2).
Proof.
  intros Hrev Hsig Hplan.
  assert (Hstatus : result getReviewStatus w1 = result getReviewStatus w2).
  { unfold result. rewrite !getReviewStatus_eq, <- Hrev, <- Hsig. reflexivity. }
  unfold determinePhase.
  destruct (truthy signals "compound" || truthy signals "pr");
    [exists complete; split; reflexivity|].
  unfold bind at 1 3.
  rewrite (getReviewStatus_result w1), (getReviewStatus_result w2), <- Hstatus.
  destruct (getReviewStatus_pure w1) as [r Hr].
  unfold result at 1 2. rewrite Hr. cbn [fst].
  repeat first
    [ progress (run; cbn)
    | rewrite <- Hplan
    | match goal with
      | |- context [if ?b then _ else _] => destruct b
      end ]; eauto.
Qed.

(** ** C1: the compound signal without the pr signal *)

(** C1, evaluated on the signal set of the specification's precedence
    scenario: signals compound, backend, frontend, tests and review are all
    present, pr is absent and the review outcome is FAIL.  The
    specification asks for [compounding]; the first test of [determinePhase]
    answers [complete] as soon as compound is present, and the later
    [compounding] branch for the compound signal is never reached. *)
Theorem determinePhase_compound_without_pr :
  result getSignals racingWorld = Ret racingSignals /\
  truthy racingSignals "pr" = false /\
  result getReviewStatus racingWorld = Ret FAIL /\
  determinePhase racingSignals racingWorld = (Ret complete, racingWorld).
Proof. split; [|split; [|split]]; vm_compute; reflexivity. Qed.

(** For every signal set with compound present the answer is [complete],
    whatever pr and the review outcome are. *)
Lemma determinePhase_compound_always_complete (signals : SignalSet) (w : World) :
  truthy signals "compound" = true ->
  determinePhase signals w = (Ret complete, w).
Proof. intros H. apply determinePhase_terminal. rewrite H. reflexivity. Qed.

(** ** C2: the refine completion gate *)

(** C2: with compound and pr absent, review present and the review outcome
    FAIL, [determinePhase] answers [reviewing] when the three refine signals
    are all present and [refining] otherwise. *)
Theorem determinePhase_refine_gate (signals : SignalSet) (w : World) :
  truthy signals "compound" = false ->
  truthy signals "pr" = false ->
  truthy signals "review" = true ->
  result getReviewStatus w = Ret FAIL ->
  determinePhase signals w =
    (Ret (if truthy signals "backend-refine" && truthy signals "frontend-refine"
             && truthy signals "tests-refine"
          then reviewing else refining), w).
Proof.
  intros Hc Hp Hr Hfail. unfold determinePhase.
  rewrite Hc, Hp, Hr. simpl. unfold bind.
  rewrite getReviewStatus_result, Hfail. simpl.
  rewrite andb_true_r, andb_assoc.
  destruct (truthy signals "backend-refine" && truthy signals "frontend-refine"
            && truthy signals "tests-refine"); reflexivity.
Qed.

(** Two of the three refine signals give [refining]; the third one flips
    the phase to [reviewing]. *)
Lemma determinePhase_refine_gate_witness :
  determinePhase (present ["review"; "backend-refine"; "frontend-refine"]) refiningWorld
    = (Ret refining, refiningWorld) /\
  determinePhase (present ["review"; "backend-refine"; "frontend-refine"; "tests-refine"])
                 refiningWorld
    = (Ret reviewing, refiningWorld).
Proof.
  split.
  - apply (determinePhase_refine_gate
             (present ["review"; "backend-refine"; "frontend-refine"]) refiningWorld);
      vm_compute; reflexivity.
  - apply (determinePhase_refine_gate
             (present ["review"; "backend-refine"; "frontend-refine"; "tests-refine"])
             refiningWorld);
      vm_compute; reflexivity.
Defined.

(** ** C3: the review classifier *)

(** C3: [getReviewStatus] never throws and writes nothing.  It answers
    [PENDING] when the review signal is absent, when [REVIEW.md] does not
    exist and when it cannot be read.  Otherwise the text decides, first
    match first: [STATUS: PASS] with a warnings marker gives
    [PASS_WITH_WARNINGS], [STATUS: PASS] without one gives [PASS], else
    [STATUS: FAIL] gives [FAIL], and any other text gives [PENDING]. *)
Theorem getReviewStatus_classifies (w : World) :
  exists r : ReviewStatus,
    getReviewStatus w = (Ret r, w) /\
    (truthy (readSignals (wSignalsDir w)) "review" = false \/
     wReviewFile w = Absent \/ wReviewFile w = Unreadable -> r = PENDING) /\
    (forall text : string,
       truthy (readSignals (wSignalsDir w)) "review" = true ->
       wReviewFile w = File text ->
       let pass := JsString.includes text "STATUS: PASS" in
       let warnings :=
         JsString.includes text "PASS_WITH_WARNINGS"
         || (JsString.includes text "Warnings" && JsString.includes text "Non-blocking") in
       let fail := JsString.includes text "STATUS: FAIL" in
       (pass = true -> warnings = true -> r = PASS_WITH_WARNINGS) /\
       (pass = true -> warnings = false -> r = PASS) /\
       (pass = false -> fail = true -> r = FAIL) /\
       (pass = false -> fail = false -> r = PENDING)).
Proof.
  unfold getReviewStatus, getSignals. run.
  destruct (wReviewFile w) as [| |text] eqn:E; cbn.
  - exists PENDING. split; [reflexivity|]. split; [reflexivity|]. discriminate.
  - destruct (truthy _ "review") eqn:Hrev; cbn; rewrite ?E; cbn;
      (exists PENDING; split; [reflexivity|]; split; [reflexivity|]; discriminate).
  - destruct (truthy _ "review") eqn:Hrev; cbn; rewrite ?E; cbn.
    + exists (classify text). split; [reflexivity|]. split.
      * intros [H|[H|H]]; discriminate.
      * intros text' _ [= <-]. unfold classify.
        destruct (JsString.includes text "STATUS: PASS");
          destruct (JsString.includes text "PASS_WITH_WARNINGS"
                    || JsString.includes text "Warnings"
                       && JsString.includes text "Non-blocking");
          destruct (JsString.includes text "STATUS: FAIL");
          cbn; repeat split; intros; congruence.
    + exists PENDING. split; [reflexivity|]. split; [reflexivity|]. discriminate.
Qed.

(** The four outcomes on concrete review documents. *)
Lemma getReviewStatus_classifies_witness :
  result getReviewStatus (withReview "# Review  STATUS: PASS" ["review"] emptyWorld)
    = Ret PASS /\
  result getReviewStatus
         (withReview "STATUS: PASS_WITH_WARNINGS (2 Warnings)" ["review"] emptyWorld)
    = Ret PASS_WITH_WARNINGS /\
  result getReviewStatus (withReview "STATUS: FAIL" ["review"] emptyWorld) = Ret FAIL /\
  result getReviewStatus (withReview "STATUS: PASS" ["backend"] emptyWorld) = Ret PENDING.
Proof.
  split; [|split; [|split]].
  - destruct (getReviewStatus_classifies
                (withReview "# Review  STATUS: PASS" ["review"] emptyWorld))
      as (r & Hr & _ & Htext).
    unfold result. rewrite Hr. cbn. f_equal.
    apply (Htext "# Review  STATUS: PASS"); vm_compute; reflexivity.
  - destruct (getReviewStatus_classifies
                (withReview "STATUS: PASS_WITH_WARNINGS (2 Warnings)" ["review"] emptyWorld))
      as (r & Hr & _ & Htext).
    unfold result. rewrite Hr. cbn. f_equal.
    apply (Htext "STATUS: PASS_WITH_WARNINGS (2 Warnings)"); vm_compute; reflexivity.
  - destruct (getReviewStatus_classifies (withReview "STATUS: FAIL" ["review"] emptyWorld))
      as (r & Hr & _ & Htext).
    unfold result. rewrite Hr. cbn. f_equal.
    apply (Htext "STATUS: FAIL"); vm_compute; reflexivity.
  - destruct (getReviewStatus_classifies (withReview "STATUS: PASS" ["backend"] emptyWorld))
      as (r & Hr & Hpending & _).
    unfold result. rewrite Hr. cbn. f_equal.
    apply Hpending. left. vm_compute. reflexivity.
Defined.

(** ** C6: what [determinePhase] depends on *)

(** C6 fails as stated: with no signal and no review artifact, the phase
    is [planning] when [PLAN.md] exists and [init] when it does not. *)
Lemma determinePhase_reads_plan_artifact : ~ phase_determined_by_triple.
Proof.
  intros H.
  specialize (H ∅ emptyWorld
                (mkWorld stamp0 Absent Absent NoDir Absent true NoDir ∅ [] [])
                eq_refl eq_refl).
  vm_compute in H. discriminate H.
Qed.

(** C6, amended: [determinePhase] always returns a phase and leaves the
    world as it was; the phase is a function of the signals passed, of the
    review artifact, of the presence of the review marker, and of the
    existence of the planning artifact. *)
Theorem determinePhase_deterministic (signals : SignalSet) (w1 w2 : World) :
  wReviewFile w1 = wReviewFile w2 ->
  truthy (readSignals (wSignalsDir w1)) "review"
    = truthy (readSignals (wSignalsDir w2)) "review" ->
  wPlanFile w1 = wPlanFile w2 ->
  exists p : Phase,
    determinePhase signals w1 = (Ret p, w1) /\
    determinePhase signals w2 = (Ret p, w2).
Proof.
  intros Hrev Hsig Hplan.
  assert (Hstatus : result getReviewStatus w1 = result getReviewStatus w2).
  { unfold result. rewrite !getReviewStatus_eq, <- Hrev, <- Hsig. reflexivity. }
  unfold determinePhase.
  destruct (truthy signals "compound" || truthy signals "pr");
    [exists complete; split; reflexivity|].
  unfold bind at 1 3.
  rewrite (getReviewStatus_result w1), (getReviewStatus_result w2), <- Hstatus.
  destruct (getReviewStatus_pure w1) as [r Hr].
  unfold result at 1 2. rewrite Hr. cbn [fst].
  repeat first
    [ progress (run; cbn)
    | rewrite <- Hplan
    | match goal with
      | |- context [if ?b then _ else _] => destruct b
      end ]; eauto.
Qed.

Lemma determinePhase_deterministic_witness :
  exists p : Phase,
    determinePhase (present ["plan"]) emptyWorld = (Ret p, emptyWorld) /\
    determinePhase (present ["plan"]) (with_timeline [mkEvent "git" "commit"] emptyWorld)
      = (Ret p, with_timeline [mkEvent "git" "commit"] emptyWorld).
Proof.
  apply (determinePhase_deterministic (present ["plan"]) emptyWorld
           (with_timeline [mkEvent "git" "commit"] emptyWorld));
    reflexivity.
Defined.

(** ** C9: loading the state *)

(** C9: when [state.json] does not exist, cannot be read, or holds text
    that does not parse, [loadState] returns the initial record and
    throws nothing. *)
Theorem loadState_initial (w : World) :
  wStateFile w = Absent \/ wStateFile w = Unreadable
  \/ (exists raw, wStateFile w = File (Malformed raw)) ->
  loadState w = (Ret (mkState init 1 None None 0 ∅ (wNow w)), w) /\
  phase (mkState init 1 None None 0 ∅ (wNow w)) = init /\
  iteration (mkState init 1 None None 0 ∅ (wNow w)) = 1 /\
  commitCount (mkState init 1 None None 0 ∅ (wNow w)) = 0 /\
  signals (mkState init 1 None None 0 ∅ (wNow w)) = ∅.
Proof.
  intros H. split; [|repeat split].
  unfold loadState, getInitialState. run.
  destruct H as [H|[H|[raw H]]]; rewrite H; cbn; rewrite ?H; reflexivity.
Qed.

Lemma loadState_initial_witness :
  loadState (with_stateFile (File (Malformed "{ phase: ")) emptyWorld)
    = (Ret (mkState init 1 None None 0 ∅ stamp0),
       with_stateFile (File (Malformed "{ phase: ")) emptyWorld).
Proof.
  apply (loadState_initial (with_stateFile (File (Malformed "{ phase: ")) emptyWorld)).
  right. right. exists "{ phase: ". reflexivity.
Defined.

(** [loadState] never throws and writes nothing. *)
Lemma loadState_pure (w : World) : exists s, loadState w = (Ret s, w).
Proof.
  unfold loadState, getInitialState. run.
  destruct (wStateFile w) as [| |[s|raw]] eqn:E; cbn; rewrite ?E; cbn; eauto.
Qed.

(** ** Saving the state *)

Lemma readSignals_mkdir (d : DirNode) : readSignals (Fs.mkdir d) = readSignals d.
Proof. destruct d as [|l files]; [|reflexivity]. cbn. rewrite map_to_list_empty. reflexivity. Qed.

Lemma existsIn_mkdir (file : string) (d : DirNode) :
  Fs.existsIn file (Fs.mkdir d) = Fs.existsIn file d.
Proof. destruct d as [|l files]; [|reflexivity]. cbn. rewrite lookup_empty. reflexivity. Qed.

(** [saveState] returns; it creates the signals directory when missing,
    stamps the record and leaves it in [state.json], with no temporary
    file left behind. *)
Lemma saveState_eq (state : WorkflowState) (w : World) :
  saveState state w =
    (Ret tt,
     mkWorld (wNow w) (File (Serialized (set_lastUpdated (wNow w) state))) Absent
             (Fs.mkdir (wSignalsDir w)) (wReviewFile w) (wPlanFile w) (wErrors w)
             (wSessions w) (wTimeline w) (wDispatched w)).
Proof.
  unfold saveState. run.
  destruct (wSignalsDir w) as [|l files] eqn:E; cbn; rewrite ?E;
    unfold with_stateTmp, with_stateFile, with_signalsDir; cbn; rewrite ?E; reflexivity.
Qed.

(** ** C4: the refine request *)

(** C4: [handleDispatchRefine] advances exactly when the review outcome is
    FAIL and the iteration is below 3; it then adds one to the iteration,
    records [refining], persists the record and removes no marker.  In
    every other case it returns the state it was given and leaves the
    world untouched. *)
Theorem handleDispatchRefine_bounded (config : Config) (state : WorkflowState) (w : World) :
  (result getReviewStatus w = Ret FAIL /\ iteration state < 3 ->
   exists (state' : WorkflowState) (w' : World),
     handleDispatchRefine config state w = (Ret state', w') /\
     iteration state' = iteration state + 1 /\
     phase state' = refining /\
     wStateFile w' = File (Serialized (set_lastUpdated (wNow w) state')) /\
     readSignals (wSignalsDir w') = readSignals (wSignalsDir w) /\
     (forall file, Fs.existsIn file (wSignalsDir w') = Fs.existsIn file (wSignalsDir w)))
  /\
  (result getReviewStatus w <> Ret FAIL \/ 3 <= iteration state ->
   handleDispatchRefine config state w = (Ret state, w)).
Proof.
  destruct (getReviewStatus_pure w) as [r Hr].
  unfold handleDispatchRefine, result. rewrite Hr. cbn [fst].
  split.
  - intros [[= ->] Hlt].
    unfold bind at 1. rewrite Hr.
    rewrite bool_decide_false by (intros H; apply H; reflexivity).
    rewrite bool_decide_false by lia.
    eexists _, _. split.
    + unfold dispatchAllWorkers, logPhaseChange, bind, modify, ret.
      cbv beta iota. rewrite saveState_eq. reflexivity.
    + cbn. repeat split.
      * apply readSignals_mkdir.
      * intros file. apply existsIn_mkdir.
  - intros Hrefuse. unfold bind at 1. rewrite Hr.
    destruct Hrefuse as [Hne | Hge].
    + rewrite bool_decide_true by congruence. reflexivity.
    + destruct (bool_decide (r <> FAIL)); [reflexivity|].
      rewrite bool_decide_true by lia. reflexivity.
Qed.

(** At iteration 2 the request goes through and the iteration becomes 3;
    at iteration 3 it is refused. *)
Lemma handleDispatchRefine_bounded_witness :
  (exists (state' : WorkflowState) (w' : World),
     handleDispatchRefine (mkConfig true "feature/") (stateAt reviewing 2) failedReviewWorld
       = (Ret state', w') /\
     iteration state' = 3 /\
     readSignals (wSignalsDir w') = readSignals (wSignalsDir failedReviewWorld)) /\
  handleDispatchRefine (mkConfig true "feature/") (stateAt reviewing 3) failedReviewWorld
    = (Ret (stateAt reviewing 3), failedReviewWorld).
Proof.
  split.
  - destruct (handleDispatchRefine_bounded (mkConfig true "feature/") (stateAt reviewing 2)
                                           failedReviewWorld) as [Hadv _].
    destruct Hadv as (state' & w' & Hrun & Hit & _ & _ & Hsig & _).
    + split; [vm_compute; reflexivity | cbn; lia].
    + exists state', w'. repeat split; assumption.
  - destruct (handleDispatchRefine_bounded (mkConfig true "feature/") (stateAt reviewing 3)
                                           failedReviewWorld) as [_ Hrefuse].
    apply Hrefuse. right. cbn. lia.
Defined.

(** ** C5: the persisted phase and the derived phase *)

(** C5 fails as stated: the refine handler persists the phase it assigns,
    [refining], while [determinePhase] on the signals of that moment
    derives [reviewing]. *)
Lemma handleDispatchRefine_persists_assigned_phase :
  ~ persisted_phase_derived
      (after (handleDispatchRefine (mkConfig true "feature/") (stateAt reviewing 2))
             secondRoundWorld).
Proof.
  intros H.
  specialize (H (set_lastUpdated stamp0
                   (set_phase refining (set_iteration 3 (stateAt reviewing 2)))) eq_refl).
  vm_compute in H. discriminate H.
Qed.

(** The same handler-style assignment in the compound handler: it persists
    [compounding] next to a compound marker for which [determinePhase]
    answers [complete]. *)
Lemma handleDispatchCompound_persists_assigned_phase :
  ~ persisted_phase_derived
      (after (handleDispatchCompound (mkConfig true "feature/") (stateAt reviewing 1))
             (withReview "STATUS: PASS" ["plan"; "backend"; "frontend"; "tests"; "review"]
                         emptyWorld)).
Proof.
  intros H.
  specialize (H (set_lastUpdated stamp0 (set_phase compounding (stateAt reviewing 1)))
                eq_refl).
  vm_compute in H. discriminate H.
Qed.

(** C5, amended: [updateStateFromSignals] always returns; the record it
    persists carries the signals read at that moment and the phase
    [determinePhase] derives from them, and the derivation still gives that
    phase on the world the save leaves. *)
Theorem updateStateFromSignals_persists_derived_phase (w : World) :
  exists (state : WorkflowState) (w' : World),
    updateStateFromSignals w = (Ret state, w') /\
    wStateFile w' = File (Serialized (set_lastUpdated (wNow w) state)) /\
    signals state = readSignals (wSignalsDir w) /\
    determinePhase (readSignals (wSignalsDir w)) w = (Ret (phase state), w) /\
    persisted_phase_derived w'.
Proof.
  unfold updateStateFromSignals.
  destruct (loadState_pure w) as [s0 Hload].
  destruct (determinePhase_pure (readSignals (wSignalsDir w)) w) as [p Hp].
  unfold bind at 1. rewrite Hload.
  unfold bind at 1. rewrite getSignals_eq.
  unfold bind at 1. rewrite Hp.
  unfold bind at 1. rewrite saveState_eq. unfold ret.
  eexists _, _. split; [reflexivity|].
  assert (Hphase : phase (set_signals (readSignals (wSignalsDir w))
                            (if bool_decide (p <> phase s0)
                             then set_phase p s0 else s0)) = p).
  { case_bool_decide as Hd; cbn; [reflexivity|].
    destruct (decide (p = phase s0)) as [->|Hne]; [reflexivity|contradiction]. }
  split; [reflexivity|]. split; [reflexivity|]. split.
  - rewrite Hphase. reflexivity.
  - intros s [= <-]. cbn [wSignalsDir phase set_lastUpdated].
    rewrite readSignals_mkdir. cbn [phase] in Hphase. rewrite Hphase.
    destruct (determinePhase_frame (readSignals (wSignalsDir w)) w
                (mkWorld (wNow w)
                   (File (Serialized (set_lastUpdated (wNow w)
                      (set_signals (readSignals (wSignalsDir w))
                         (if bool_decide (p <> phase s0) then set_phase p s0 else s0)))))
                   Absent (Fs.mkdir (wSignalsDir w)) (wReviewFile w) (wPlanFile w)
                   (wErrors w) (wSessions w) (wTimeline w) (wDispatched w)))
      as (q & Hq1 & Hq2).
    + reflexivity.
    + cbn [wSignalsDir]. rewrite readSignals_mkdir. reflexivity.
    + reflexivity.
    + unfold result. rewrite Hq2. rewrite Hp in Hq1. injection Hq1 as ->. reflexivity.
Qed.

(** ** C8: publishing the state record *)

(** Run to its end, the trace is the world [saveState] leaves. *)
Lemma saveState_trace_last (state : WorkflowState) (w : World) :
  last (saveState_trace state w) = Some (after (saveState state) w).
Proof.
  unfold after. rewrite saveState_eq. unfold saveState_trace.
  destruct (wSignalsDir w) as [|l files] eqn:E; cbn; rewrite ?E;
    unfold with_stateTmp, with_stateFile, with_signalsDir; cbn; rewrite ?E; reflexivity.
Qed.

(** C8, on the code: [saveState] publishes with a second [writeFileSync]
    on [state.json], not with a rename.  Whatever record is saved and
    whatever was persisted before, the run passes through a world in which
    [state.json] exists and is empty; a reader that calls [loadState] there
    gets the initial record, which is neither the old nor the new one. *)
Theorem saveState_torn_read (state : WorkflowState) (w : World) :
  exists wmid : World,
    wmid ∈ saveState_trace state w /\
    wStateFile wmid = File truncated /\
    wStateTmp wmid = File (JSON_stringify (set_lastUpdated (wNow w) state)) /\
    loadState wmid = (Ret (mkState init 1 None None 0 ∅ (wNow w)), wmid).
Proof.
  unfold saveState_trace. cbn.
  eexists. split.
  - do 3 (apply elem_of_cons; right). apply elem_of_cons. left. reflexivity.
  - destruct (wSignalsDir w) as [|l files] eqn:E; cbn; repeat split; reflexivity.
Qed.

(** ** Marker names *)

Lemma endsWith_refl (s : string) : JsString.endsWith s s = true.
Proof.
  destruct s as [|c s]; [reflexivity|].
  change (String.eqb (String c s) (String c s) || JsString.endsWith s (String c s) = true).
  rewrite String.eqb_refl. reflexivity.
Qed.

(** A marker file name ends in [.done]. *)
Lemma endsWith_app (s suf : string) : JsString.endsWith (s +:+ suf) suf = true.
Proof.
  induction s as [|c s IH].
  - apply endsWith_refl.
  - change (String.eqb (String c (s +:+ suf)) suf
            || JsString.endsWith (s +:+ suf) suf = true).
    rewrite IH. apply orb_true_r.
Qed.

#[local] Arguments Ascii.eqb : simpl never.

Lemma append_cons (c : Ascii.ascii) (s t : string) :
  String c s +:+ t = String c (s +:+ t).
Proof. reflexivity. Qed.

Lemma append_nil (t : string) : "" +:+ t = t.
Proof. reflexivity. Qed.

(** [.done] cannot begin inside a name and end inside the suffix. *)
Lemma startsWith_marker (name : string) :
  name <> "" ->
  JsString.startsWith name ".done" = false ->
  JsString.startsWith (name +:+ ".done") ".done" = false.
Proof.
  intros Hne H.
  destruct name as [|c1 name]; [contradiction|].
  rewrite append_cons. cbn in *. destruct (Ascii.eqb _ c1); [|reflexivity].
  destruct name as [|c2 name]; [reflexivity|].
  rewrite append_cons. cbn in *. destruct (Ascii.eqb _ c2); [|reflexivity].
  destruct name as [|c3 name]; [reflexivity|].
  rewrite append_cons. cbn in *. destruct (Ascii.eqb _ c3); [|reflexivity].
  destruct name as [|c4 name]; [reflexivity|].
  rewrite append_cons. cbn in *. destruct (Ascii.eqb _ c4); [|reflexivity].
  destruct name as [|c5 name]; [reflexivity|].
  rewrite append_cons. cbn in *. destruct (Ascii.eqb _ c5); [discriminate|reflexivity].
Qed.

(** A name in which [.done] does not occur is read back from its marker. *)
Lemma replace_marker (name : string) :
  JsString.includes name ".done" = false ->
  JsString.replace (name +:+ ".done") ".done" = name.
Proof.
  induction name as [|c name IH]; intros H; [reflexivity|].
  change (JsString.includes (String c name) ".done")
    with (JsString.startsWith (String c name) ".done" || JsString.includes name ".done") in H.
  apply orb_false_iff in H as [Hstart Hincl].
  change (JsString.replace (String c name +:+ ".done") ".done")
    with (if JsString.startsWith (String c name +:+ ".done") ".done"
          then JsString.slice (String.length ".done") (String c name +:+ ".done")
          else String c (JsString.replace (name +:+ ".done") ".done")).
  rewrite startsWith_marker by (assumption || discriminate).
  rewrite IH by assumption. reflexivity.
Qed.

(** ** C10: a signal name and its marker *)

(** C10, evaluated on the name [task.done.v2]: [createSignal] writes the
    marker [task.done.v2.done]; [getSignals] removes the first [.done] of
    that file name, not its suffix, and reports the signal [task.v2.done].
    The name that was created is not in the set. *)
Theorem createSignal_name_not_read_back :
  createSignal "task.done.v2" emptyWorld
    = (Ret tt, with_signalsDir (Dir true {[ "task.done.v2.done" := stamp0 ]}) emptyWorld) /\
  result getSignals (after (createSignal "task.done.v2") emptyWorld)
    = Ret {[ "task.v2.done" := true ]} /\
  readSignals (wSignalsDir (after (createSignal "task.done.v2") emptyWorld))
    !! "task.done.v2" = None.
Proof. split; [|split]; vm_compute; reflexivity. Qed.

(** ** Reading a directory of markers *)

Lemma foldl_addSignal_true (files : list string) :
  forall (acc : SignalSet) (n : string) (b : bool),
    (forall n' b', acc !! n' = Some b' -> b' = true) ->
    foldl addSignal acc files !! n = Some b -> b = true.
Proof.
  induction files as [|f files IH]; intros acc n b Hacc; cbn.
  - apply Hacc.
  - apply IH. intros n' b'. unfold addSignal.
    destruct (JsString.endsWith f ".done"); [|apply Hacc].
    rewrite lookup_insert. case_decide; [congruence|apply Hacc].
Qed.

Lemma foldl_addSignal_lookup (files : list string) :
  forall (acc : SignalSet) (n : string),
    foldl addSignal acc files !! n = Some true <->
    acc !! n = Some true \/
    exists f, f ∈ files /\ JsString.endsWith f ".done" = true
              /\ JsString.replace f ".done" = n.
Proof.
  induction files as [|f files IH]; intros acc n; cbn.
  - split; [auto|]. intros [H|(f & Hf & _)]; [assumption|].
    apply elem_of_nil in Hf. contradiction.
  - rewrite IH. unfold addSignal.
    destruct (JsString.endsWith f ".done") eqn:Hend.
    + rewrite lookup_insert. case_decide as Hd.
      * split; intros _; [|left; reflexivity].
        right. exists f. rewrite elem_of_cons. auto.
      * split.
        -- intros [H|(g & Hg & He & Hr)]; [auto|].
           right. exists g. rewrite elem_of_cons. auto.
        -- intros [H|(g & Hg & He & Hr)]; [auto|].
           apply elem_of_cons in Hg as [->|Hg]; [contradiction|].
           right. exists g. auto.
    + split.
      * intros [H|(g & Hg & He & Hr)]; [auto|].
        right. exists g. rewrite elem_of_cons. auto.
      * intros [H|(g & Hg & He & Hr)]; [auto|].
        apply elem_of_cons in Hg as [->|Hg]; [congruence|].
        right. exists g. auto.
Qed.

(** Every name [getSignals] reports is mapped to [true]. *)
Lemma readSignals_true (d : DirNode) (n : string) (b : bool) :
  readSignals d !! n = Some b -> b = true.
Proof.
  destruct d as [|[] files]; cbn; rewrite ?lookup_empty; try discriminate.
  apply foldl_addSignal_true. intros n' b'. rewrite lookup_empty. discriminate.
Qed.

(** The names a listable directory denotes: one per file ending in
    [.done], with the first [.done] of the file name removed. *)
Lemma readSignals_lookup (files : gmap string string) (n : string) :
  readSignals (Dir true files) !! n = Some true <->
  exists f, is_Some (files !! f) /\ JsString.endsWith f ".done" = true
            /\ JsString.replace f ".done" = n.
Proof.
  unfold readSignals. cbn. rewrite foldl_addSignal_lookup, lookup_empty. split.
  - intros [H|(f & Hf & He & Hr)]; [discriminate|].
    exists f. split; [|auto].
    apply list_elem_of_fmap in Hf as ([k v] & -> & Hkv).
    apply elem_of_map_to_list in Hkv. cbn. eauto.
  - intros (f & [v Hv] & He & Hr). right. exists f. split; [|auto].
    apply list_elem_of_fmap. exists (f, v). split; [reflexivity|].
    apply elem_of_map_to_list. assumption.
Qed.

Lemma signalSet_eq (m1 m2 : SignalSet) :
  (forall n b, m1 !! n = Some b -> b = true) ->
  (forall n b, m2 !! n = Some b -> b = true) ->
  (forall n, m1 !! n = Some true <-> m2 !! n = Some true) ->
  m1 = m2.
Proof.
  intros H1 H2 H. apply map_eq. intros n.
  destruct (m1 !! n) as [b1|] eqn:E1; destruct (m2 !! n) as [b2|] eqn:E2.
  - rewrite (H1 _ _ E1), (H2 _ _ E2). reflexivity.
  - pose proof (H1 _ _ E1) as ->. apply H in E1. congruence.
  - pose proof (H2 _ _ E2) as ->. apply H in E2. congruence.
  - reflexivity.
Qed.

(** ** Stepping through a computation *)

Lemma bind_ret_step {A B} (m : M A) (k : A -> M B) (w w' : World) (a : A) :
  m w = (Ret a, w') -> bind m k w = k a w'.
Proof. intros H. unfold bind. rewrite H. reflexivity. Qed.

Lemma try_catch_ret {A} (m h : M A) (w w' : World) (a : A) :
  m w = (Ret a, w') -> try_catch m h w = (Ret a, w').
Proof. intros H. unfold try_catch. rewrite H. reflexivity. Qed.

Lemma try_catch_throw {A} (m h : M A) (w w' : World) (e : Exn) :
  m w = (Throw e, w') -> try_catch m h w = h w'.
Proof. intros H. unfold try_catch. rewrite H. reflexivity. Qed.

Lemma with_signalsDir_same (w : World) : with_signalsDir (wSignalsDir w) w = w.
Proof. destruct w. reflexivity. Qed.

(** ** Creating and clearing markers *)

Lemma createSignal_eq (name : string) (w : World) (lst : bool) (files : gmap string string) :
  wSignalsDir w = Dir lst files ->
  createSignal name w =
    (Ret tt, with_signalsDir (Dir lst (<[name +:+ ".done" := wNow w]> files)) w).
Proof.
  intros Hdir. unfold createSignal. run. rewrite Hdir. cbn. rewrite Hdir. reflexivity.
Qed.

(** The loop of [clearAllSignals] over a list of distinct entries that
    are all in the directory: it throws nothing and removes exactly the
    entries of the list that end in [.done]. *)
Lemma clear_loop (l : list string) :
  forall (w : World) (lst : bool) (files : gmap string string),
    wSignalsDir w = Dir lst files ->
    NoDup l ->
    (forall f, f ∈ l -> is_Some (files !! f)) ->
    exists files' : gmap string string,
      for_of l (fun file =>
                  if JsString.endsWith file ".done" then
                    d <- (fun w => (Fs.unlinkIn file (wSignalsDir w), w)) ;;
                    modify (with_signalsDir d)
                  else ret tt) w
        = (Ret tt, with_signalsDir (Dir lst files') w) /\
      forall g, files' !! g =
                if decide (g ∈ l /\ JsString.endsWith g ".done" = true)
                then None else files !! g.
Proof.
  induction l as [|f l IH]; intros w lst files Hdir Hnd Hin.
  - exists files. split.
    + cbn. unfold ret. rewrite <- Hdir, with_signalsDir_same. reflexivity.
    + intros g. case_decide as Hd; [|reflexivity].
      destruct Hd as [Hd _]. apply elem_of_nil in Hd. contradiction.
  - apply NoDup_cons in Hnd as [Hnotin Hnd].
    cbn [for_of]. destruct (JsString.endsWith f ".done") eqn:Hend.
    + destruct (Hin f) as [v Hv]; [apply elem_of_cons; auto|].
      destruct (IH (with_signalsDir (Dir lst (delete f files)) w) lst (delete f files))
        as (files' & Hrun & Hlook); [reflexivity|assumption| |].
      { intros g Hg. rewrite lookup_delete_ne by (intros ->; contradiction).
        apply Hin. apply elem_of_cons. auto. }
      exists files'. split.
      * erewrite bind_ret_step; [exact Hrun|].
        run. rewrite Hdir. cbn. rewrite Hv. reflexivity.
      * intros g. rewrite Hlook. rewrite lookup_delete.
        repeat case_decide; subst; try reflexivity;
          rewrite ?elem_of_cons in *; try tauto; try congruence;
          exfalso; intuition congruence.
    + destruct (IH w lst files) as (files' & Hrun & Hlook); [assumption|assumption| |].
      { intros g Hg. apply Hin. apply elem_of_cons. auto. }
      exists files'. split.
      * erewrite bind_ret_step; [exact Hrun|reflexivity].
      * intros g. rewrite Hlook.
        repeat case_decide; subst; try reflexivity;
          rewrite ?elem_of_cons in *; try tauto; try congruence;
          exfalso; intuition congruence.
Qed.

(** [clearAllSignals] on a listable directory removes every file that ends
    in [.done] and nothing else. *)
Lemma clearAllSignals_listable (w : World) (files : gmap string string) :
  wSignalsDir w = Dir true files ->
  exists files' : gmap string string,
    clearAllSignals w = (Ret tt, with_signalsDir (Dir true files') w) /\
    forall g, files' !! g =
              if decide (JsString.endsWith g ".done" = true) then None else files !! g.
Proof.
  intros Hdir.
  destruct (clear_loop (map_to_list files).*1 w true files Hdir)
    as (files' & Hrun & Hlook).
  { apply NoDup_fst_map_to_list. }
  { intros f Hf. apply list_elem_of_fmap in Hf as ([k v] & -> & Hkv).
    apply elem_of_map_to_list in Hkv. cbn. eauto. }
  exists files'. split.
  - unfold clearAllSignals.
    erewrite bind_ret_step by (unfold gets; rewrite Hdir; reflexivity).
    cbn [negb Fs.existsDir].
    erewrite try_catch_ret; [reflexivity|].
    erewrite bind_ret_step by (rewrite Hdir; reflexivity).
    exact Hrun.
  - intros g. rewrite Hlook.
    destruct (decide (JsString.endsWith g ".done" = true)) as [He|He].
    + destruct (files !! g) as [v|] eqn:Hg.
      * rewrite decide_True; [reflexivity|]. split; [|assumption].
        apply list_elem_of_fmap. exists (g, v). split; [reflexivity|].
        apply elem_of_map_to_list. assumption.
      * case_decide; reflexivity.
    + rewrite decide_False by tauto. reflexivity.
Qed.

(** On a directory that cannot be listed, [clearAllSignals] gives up
    silently. *)
Lemma clearAllSignals_unlistable (w : World) (files : gmap string string) :
  wSignalsDir w = Dir false files -> clearAllSignals w = (Ret tt, w).
Proof.
  intros Hdir. unfold clearAllSignals. run. rewrite Hdir. cbn. rewrite Hdir. reflexivity.
Qed.

(** The restore loop of [loadSessionFromBranch]: every snapshot file that
    ends in [.done] adds the marker of the name read from it. *)
Lemma restore_loop (l : list string) :
  forall (w : World) (lst : bool) (files : gmap string string),
    wSignalsDir w = Dir lst files ->
    exists files' : gmap string string,
      for_of l (fun file =>
                  if JsString.endsWith file ".done"
                  then createSignal (JsString.replace file ".done")
                  else ret tt) w
        = (Ret tt, with_signalsDir (Dir lst files') w) /\
      forall g, is_Some (files' !! g) <->
                is_Some (files !! g) \/
                exists f, f ∈ l /\ JsString.endsWith f ".done" = true
                          /\ g = JsString.replace f ".done" +:+ ".done".
Proof.
  induction l as [|f l IH]; intros w lst files Hdir.
  - exists files. split.
    + cbn. unfold ret. rewrite <- Hdir, with_signalsDir_same. reflexivity.
    + intros g. split; [auto|]. intros [H|(f & Hf & _)]; [assumption|].
      apply elem_of_nil in Hf. contradiction.
  - cbn [for_of]. destruct (JsString.endsWith f ".done") eqn:Hend.
    + destruct (IH (with_signalsDir
                      (Dir lst (<[JsString.replace f ".done" +:+ ".done" := wNow w]> files)) w)
                   lst (<[JsString.replace f ".done" +:+ ".done" := wNow w]> files))
        as (files' & Hrun & Hlook); [reflexivity|].
      exists files'. split.
      * erewrite bind_ret_step; [exact Hrun|].
        apply createSignal_eq. assumption.
      * intros g. rewrite Hlook, lookup_insert_is_Some'. split.
        -- intros [[<-|H]|(h & Hh & He & Hg)].
           ++ right. exists f. rewrite elem_of_cons. auto.
           ++ auto.
           ++ right. exists h. rewrite elem_of_cons. auto.
        -- intros [H|(h & Hh & He & Hg)]; [auto|].
           apply elem_of_cons in Hh as [->|Hh]; [auto|].
           right. exists h. auto.
    + destruct (IH w lst files Hdir) as (files' & Hrun & Hlook).
      exists files'. split.
      * erewrite bind_ret_step; [exact Hrun|reflexivity].
      * intros g. rewrite Hlook. split.
        -- intros [H|(h & Hh & He & Hg)]; [auto|].
           right. exists h. rewrite elem_of_cons. auto.
        -- intros [H|(h & Hh & He & Hg)]; [auto|].
           apply elem_of_cons in Hh as [->|Hh]; [congruence|].
           right. exists h. auto.
Qed.

(** ** C7: restoring a branch session *)

Lemma readSignals_no_markers (files : gmap string string) :
  (forall g, is_Some (files !! g) -> JsString.endsWith g ".done" = false) ->
  readSignals (Dir true files) = ∅.
Proof.
  intros H. apply signalSet_eq.
  - apply readSignals_true.
  - intros n b. rewrite lookup_empty. discriminate.
  - intros n. rewrite readSignals_lookup, lookup_empty. split; [|discriminate].
    intros (f & Hf & He & _). rewrite (H f Hf) in He. discriminate.
Qed.

(** The block of [loadSessionFromBranch] that restores the signals, run
    on a listable live directory with a snapshot that has a [signals]
    directory: the live markers are replaced by those of the snapshot. *)
Lemma restore_signals (branch : string) (w1 : World)
      (lfiles : gmap string string) (slst : bool) (sfiles : gmap string string) :
  wSignalsDir w1 = Dir true lfiles ->
  branchSignalsDir branch w1 = Dir slst sfiles ->
  (forall n, is_Some (readSignals (Dir slst sfiles) !! n) ->
             JsString.includes n ".done" = false) ->
  exists files : gmap string string,
    (clearAllSignals ;;
     try_catch
       (signalFiles <- (fun w => (Fs.listDir (branchSignalsDir branch w), w)) ;;
        for_of signalFiles (fun file =>
          if JsString.endsWith file ".done"
          then createSignal (JsString.replace file ".done")
          else ret tt))
       (ret tt)) w1
      = (Ret tt, with_signalsDir (Dir true files) w1) /\
    readSignals (Dir true files) = readSignals (Dir slst sfiles).
Proof.
  intros Hlive Hsnap Hnames.
  destruct (clearAllSignals_listable w1 lfiles Hlive) as (cf & Hclear & Hcf).
  assert (Hcleared : forall g, is_Some (cf !! g) -> JsString.endsWith g ".done" = false).
  { intros g [v Hv]. rewrite Hcf in Hv. case_decide as Hd; [discriminate|].
    destruct (JsString.endsWith g ".done"); [contradiction|reflexivity]. }
  erewrite bind_ret_step by exact Hclear.
  destruct slst.
  - destruct (restore_loop (map_to_list sfiles).*1
                (with_signalsDir (Dir true cf) w1) true cf eq_refl)
      as (rf & Hrun & Hrf).
    assert (Hkeys : forall f, f ∈ (map_to_list sfiles).*1 <-> is_Some (sfiles !! f)).
    { intros f. rewrite list_elem_of_fmap. split.
      - intros ([k v] & -> & Hkv). apply elem_of_map_to_list in Hkv. cbn. eauto.
      - intros [v Hv]. exists (f, v). split; [reflexivity|].
        apply elem_of_map_to_list. assumption. }
    exists rf. split.
    + erewrite try_catch_ret; [reflexivity|].
      erewrite bind_ret_step; [exact Hrun|].
      cbv beta.
      change (branchSignalsDir branch (with_signalsDir (Dir true cf) w1))
        with (branchSignalsDir branch w1).
      rewrite Hsnap. reflexivity.
    + apply signalSet_eq; [apply readSignals_true|apply readSignals_true|].
      intros n. rewrite !readSignals_lookup. split.
      * intros (g & Hg & He & Hr). apply Hrf in Hg as [Hg|(f & Hf & Hfe & ->)].
        { rewrite (Hcleared g Hg) in He. discriminate. }
        exists f. split; [apply Hkeys; assumption|]. split; [assumption|].
        rewrite replace_marker in Hr; [assumption|].
        apply Hnames. exists true. apply readSignals_lookup.
        exists f. split; [apply Hkeys; assumption|auto].
      * intros (f & Hf & Hfe & Hr).
        exists (JsString.replace f ".done" +:+ ".done"). split; [|split].
        { apply Hrf. right. exists f. split; [apply Hkeys; assumption|auto]. }
        { apply endsWith_app. }
        rewrite replace_marker; [assumption|].
        apply Hnames. exists true. apply readSignals_lookup. exists f. auto.
  - exists cf. split.
    + erewrite try_catch_throw; [reflexivity|].
      unfold bind. cbv beta.
      change (branchSignalsDir branch (with_signalsDir (Dir true cf) w1))
        with (branchSignalsDir branch w1).
      rewrite Hsnap. reflexivity.
    + apply readSignals_no_markers. assumption.
Qed.

(** C7, evaluated on a session saved on [feature/a] while no signal was
    set, with a [plan] signal created afterwards: the snapshot denotes the
    empty signal set and the restore succeeds, but the live signal set
    after it is still [{plan}].  The clearing that the restore performs
    for a snapshot with a [signals] directory is skipped here, because it
    sits inside the test for that directory, and [saveSessionToBranch]
    creates the directory only when a signal is set. *)
Theorem loadSessionFromBranch_leaks_live_signals :
  readSignals (branchSignalsDir "feature/a" savedEarlyWorld) = ∅ /\
  result (loadSessionFromBranch "feature/a") savedEarlyWorld
    = Ret (Some (set_lastUpdated stamp0
                   (set_branchName (Some "feature/a") (stateAt init 1)))) /\
  result getSignals (after (loadSessionFromBranch "feature/a") savedEarlyWorld)
    = Ret (present ["plan"]).
Proof.
  split; [|split]; vm_compute; reflexivity.
Qed.

(** Hence the statement of the specification about the restore does not
    hold of the code. *)
Lemma loadSessionFromBranch_keeps_live_signals : ~ restore_replaces_signals.
Proof.
  intros H.
  assert (Hok : result (loadSessionFromBranch "feature/a") savedEarlyWorld
                = Ret (Some (set_lastUpdated stamp0
                               (set_branchName (Some "feature/a") (stateAt init 1)))))
    by (vm_compute; reflexivity).
  apply H in Hok. vm_compute in Hok. discriminate Hok.
Qed.

(** The two paths of the restore.  For every saved snapshot it succeeds
    and persists the restored record as the main workflow state.  When
    the snapshot has a [signals] directory, the live signal set afterwards
    is exactly the signal set of the snapshot (clear, then recreate); when
    it has none, the clearing is skipped and the live signals stay.  The
    live directory is taken to be listable and the snapshot's signal names
    to be free of [.done]. *)
Theorem loadSessionFromBranch_restores (branch : string) (w : World) (state : WorkflowState) :
  branchStateNode branch w = File (Serialized state) ->
  (forall files, wSignalsDir w <> Dir false files) ->
  (forall n, is_Some (readSignals (branchSignalsDir branch w) !! n) ->
             JsString.includes n ".done" = false) ->
  exists w' : World,
    loadSessionFromBranch branch w = (Ret (Some state), w') /\
    wStateFile w' = File (Serialized (set_lastUpdated (wNow w) state)) /\
    (Fs.existsDir (branchSignalsDir branch w) = true ->
     readSignals (wSignalsDir w') = readSignals (branchSignalsDir branch w)) /\
    (Fs.existsDir (branchSignalsDir branch w) = false ->
     readSignals (wSignalsDir w') = readSignals (wSignalsDir w)).
Proof.
  intros Hst Hlive Hnames. unfold loadSessionFromBranch.
  erewrite bind_ret_step by (unfold gets; rewrite Hst; reflexivity).
  cbn [negb Fs.existsNode].
  pose proof (saveState_eq state w) as Hsave.
  set (w1 := mkWorld (wNow w) (File (Serialized (set_lastUpdated (wNow w) state))) Absent
                     (Fs.mkdir (wSignalsDir w)) (wReviewFile w) (wPlanFile w) (wErrors w)
                     (wSessions w) (wTimeline w) (wDispatched w)) in *.
  assert (Hread : (fun w0 : World => (Fs.readNode (branchStateNode branch w0), w0)) w
                  = (Ret (Serialized state), w)).
  { cbv beta. rewrite Hst. reflexivity. }
  assert (Hexs : gets (fun w0 : World => Fs.existsDir (branchSignalsDir branch w0)) w1
                 = (Ret (Fs.existsDir (branchSignalsDir branch w)), w1)) by reflexivity.
  destruct (branchSignalsDir branch w) as [|slst sfiles] eqn:Hsnap.
  - exists w1. split; [|split; [reflexivity|split]].
    + erewrite try_catch_ret; [reflexivity|].
      erewrite bind_ret_step by exact Hread.
      erewrite bind_ret_step by reflexivity.
      erewrite bind_ret_step by exact Hsave.
      erewrite bind_ret_step by exact Hexs.
      reflexivity.
    + discriminate.
    + intros _. apply readSignals_mkdir.
  - assert (Hlive1 : exists lfiles, wSignalsDir w1 = Dir true lfiles).
    { subst w1. cbn. destruct (wSignalsDir w) as [|[] lfiles] eqn:E; cbn; eauto.
      exfalso. exact (Hlive lfiles eq_refl). }
    destruct Hlive1 as [lfiles Hlive1].
    destruct (restore_signals branch w1 lfiles slst sfiles Hlive1 Hsnap Hnames)
      as (files & Hrestore & Hsignals).
    exists (with_signalsDir (Dir true files) w1). split; [|split; [reflexivity|split]].
    + erewrite try_catch_ret; [reflexivity|].
      erewrite bind_ret_step by exact Hread.
      erewrite bind_ret_step by reflexivity.
      erewrite bind_ret_step by exact Hsave.
      erewrite bind_ret_step by exact Hexs.
      cbn [Fs.existsDir].
      erewrite bind_ret_step by exact Hrestore.
      reflexivity.
    + intros _. exact Hsignals.
    + discriminate.
Qed.

Lemma loadSessionFromBranch_restores_witness :
  result getSignals savedLateWorld = Ret (present ["review"]) /\
  exists w' : World,
    loadSessionFromBranch "feature/a" savedLateWorld
      = (Ret (Some (set_lastUpdated stamp0
                      (set_branchName (Some "feature/a") (stateAt implementing 1)))), w') /\
    readSignals (wSignalsDir w') = present ["plan"; "backend"].
Proof.
  split; [vm_compute; reflexivity|].
  destruct (loadSessionFromBranch_restores "feature/a" savedLateWorld
              (set_lastUpdated stamp0
                 (set_branchName (Some "feature/a") (stateAt implementing 1))))
    as (w' & Hrun & _ & Hsig & _).
  - vm_compute. reflexivity.
  - intros files. vm_compute. discriminate.
  - intros n [b Hn]. apply elem_of_map_to_list in Hn.
    assert (Hl : map_to_list (readSignals (branchSignalsDir "feature/a" savedLateWorld))
                 = [("backend", true); ("plan", true)]) by (vm_compute; reflexivity).
    rewrite Hl in Hn.
    apply elem_of_cons in Hn as [[= -> _]|Hn]; [reflexivity|].
    apply elem_of_cons in Hn as [[= -> _]|Hn]; [reflexivity|].
    apply elem_of_nil in Hn. contradiction.
  - exists w'. split; [exact Hrun|].
    rewrite Hsig by (vm_compute; reflexivity). vm_compute. reflexivity.
Defined.

(** ** Names that do round-trip *)

(** Where the signals directory can be listed, a name in which [.done]
    does not occur is reported by [getSignals] after [createSignal]. *)
Lemma createSignal_read_back (name : string) (w : World) :
  (forall files, wSignalsDir w <> Dir false files) ->
  JsString.includes name ".done" = false ->
  exists w' : World,
    createSignal name w = (Ret tt, w') /\
    readSignals (wSignalsDir w') !! name = Some true.
Proof.
  intros Hlive Hname.
  assert (Hmarker : forall files : gmap string string,
             readSignals (Dir true (<[name +:+ ".done" := wNow w]> files)) !! name
             = Some true).
  { intros files. apply readSignals_lookup. exists (name +:+ ".done").
    split; [rewrite lookup_insert_eq; eauto|].
    split; [apply endsWith_app|apply replace_marker; assumption]. }
  destruct (wSignalsDir w) as [|[] files] eqn:Hdir.
  - eexists. split.
    + unfold createSignal. run. rewrite Hdir. cbn. rewrite Hdir. cbn. reflexivity.
    + cbn. apply Hmarker.
  - eexists. split; [apply createSignal_eq; eassumption|]. cbn. apply Hmarker.
  - exfalso. exact (Hlive files eq_refl).
Qed.

(** * Further properties of the code *)

(** ** The state store *)

Lemma loadState_serialized (w : World) (s : WorkflowState) :
  wStateFile w = File (Serialized s) -> loadState w = (Ret s, w).
Proof.
  intros H. unfold loadState, getInitialState. run. rewrite H. cbn. rewrite H. reflexivity.
Qed.

(** ** The signal store *)

Lemma existsIn_true (file : string) (d : DirNode) :
  Fs.existsIn file d = true <->
  exists l files, d = Dir l files /\ is_Some (files !! file).
Proof.
  destruct d as [|l files]; cbn.
  - split; [discriminate|]. intros (l & files & H & _). discriminate.
  - rewrite bool_decide_eq_true. split.
    + intros H. exists l, files. auto.
    + intros (l' & files' & [= -> ->] & H). assumption.
Qed.

(** What [createSignal] does to the directory, whether it existed or not. *)
Lemma createSignal_any (name : string) (w : World) :
  exists (l : bool) (files : gmap string string),
    Fs.mkdir (wSignalsDir w) = Dir l files /\
    createSignal name w =
      (Ret tt, with_signalsDir (Dir l (<[name +:+ ".done" := wNow w]> files)) w).
Proof.
  destruct (wSignalsDir w) as [|l files] eqn:Hdir.
  - exists true, ∅. split; [reflexivity|].
    unfold createSignal. run. rewrite Hdir. cbn. rewrite Hdir. reflexivity.
  - exists l, files. split; [reflexivity|]. apply createSignal_eq. assumption.
Qed.

Lemma readSignals_unlistable (files : gmap string string) :
  readSignals (Dir false files) = ∅.
Proof. reflexivity. Qed.

(** The signals a directory denotes depend on the names of its files
    only, not on what the files hold. *)
Lemma readSignals_same_names (l : bool) (files1 files2 : gmap string string) :
  (forall f, is_Some (files1 !! f) <-> is_Some (files2 !! f)) ->
  readSignals (Dir l files1) = readSignals (Dir l files2).
Proof.
  intros Hnames. destruct l; [|rewrite !readSignals_unlistable; reflexivity].
  apply signalSet_eq; try apply readSignals_true.
  intros n. rewrite !readSignals_lookup.
  split; intros (f & Hf & He & Hr); exists f; (split; [apply Hnames; exact Hf|auto]).
Qed.

(** X2: for a name whose marker is the name of one directory entry,
    [createSignal] returns and never makes a signal disappear: every name
    [getSignals] reported before is still reported after, and every file
    of the directory is still there.  Creating the same signal again, at
    any later time, adds no file and no signal. *)
Theorem createSignal_monotone (name : string) (w : World) :
  isEntryName (name +:+ ".done") = true ->
  exists w' : World,
    createSignal name w = (Ret tt, w') /\
    (forall n, readSignals (wSignalsDir w) !! n = Some true ->
               readSignals (wSignalsDir w') !! n = Some true) /\
    (forall file, Fs.existsIn file (wSignalsDir w) = true ->
                  Fs.existsIn file (wSignalsDir w') = true) /\
    (forall later : World,
       wSignalsDir later = wSignalsDir w' ->
       exists w'' : World,
         createSignal name later = (Ret tt, w'') /\
         readSignals (wSignalsDir w'') = readSignals (wSignalsDir w') /\
         forall file, Fs.existsIn file (wSignalsDir w'')
                      = Fs.existsIn file (wSignalsDir w')).
Proof.
  intros _.
  destruct (createSignal_any name w) as (l & files & Hmk & Hrun).
  eexists. split; [exact Hrun|]. cbn [wSignalsDir with_signalsDir].
  split; [|split].
  - intros n Hn. rewrite <- readSignals_mkdir, Hmk in Hn.
    destruct l; [|rewrite readSignals_unlistable, lookup_empty in Hn; discriminate].
    apply readSignals_lookup in Hn as (f & Hf & He & Hr).
    apply readSignals_lookup. exists f. split; [|auto].
    apply lookup_insert_is_Some'. auto.
  - intros file Hfile. rewrite <- existsIn_mkdir, Hmk in Hfile.
    cbn in *. apply bool_decide_eq_true. apply bool_decide_eq_true in Hfile.
    apply lookup_insert_is_Some'. auto.
  - intros later Hlater.
    assert (Hnames : forall f,
               is_Some (<[name +:+ ".done" := wNow later]>
                          (<[name +:+ ".done" := wNow w]> files) !! f)
               <-> is_Some (<[name +:+ ".done" := wNow w]> files !! f)).
    { intros f. rewrite !lookup_insert_is_Some'. tauto. }
    eexists. split; [apply (createSignal_eq name later l _ Hlater)|].
    cbn [wSignalsDir with_signalsDir]. split.
    + apply readSignals_same_names. exact Hnames.
    + intros file. cbn. apply bool_decide_ext. apply Hnames.
Qed.

Lemma createSignal_monotone_witness :
  exists w' : World,
    createSignal "backend-refine" failedReviewWorld = (Ret tt, w') /\
    readSignals (wSignalsDir w') !! "review" = Some true /\
    Fs.existsIn "plan.done" (wSignalsDir w') = true.
Proof.
  destruct (createSignal_monotone "backend-refine" failedReviewWorld)
    as (w' & Hrun & Hsignals & Hfiles & _); [vm_compute; reflexivity|].
  exists w'. split; [exact Hrun|]. split.
  - apply Hsignals. vm_compute. reflexivity.
  - apply Hfiles. vm_compute. reflexivity.
Defined.

(** What [clearSignal] does: the marker goes if it is there. *)
Lemma clearSignal_eq (name : string) (w : World) :
  clearSignal name w =
    (Ret tt,
     match wSignalsDir w with
     | NoDir => w
     | Dir l files =>
         match files !! (name +:+ ".done") with
         | Some _ => with_signalsDir (Dir l (delete (name +:+ ".done") files)) w
         | None => w
         end
     end).
Proof.
  unfold clearSignal. run.
  destruct (wSignalsDir w) as [|l files] eqn:Hdir; cbn; [reflexivity|].
  destruct (files !! (name +:+ ".done")) as [v|] eqn:Hv.
  - rewrite bool_decide_true by eauto. rewrite Hdir. cbn. rewrite Hv. reflexivity.
  - rewrite bool_decide_false; [reflexivity|]. intros [v Hv']. congruence.
Qed.

(** X3: for a name whose marker is the name of one directory entry,
    [clearSignal] returns, also when the signal or the whole directory is
    missing; afterwards the marker of the name is gone and every other
    file is where it was. *)
Theorem clearSignal_removes_marker (name : string) (w : World) :
  isEntryName (name +:+ ".done") = true ->
  exists w' : World,
    clearSignal name w = (Ret tt, w') /\
    Fs.existsIn (name +:+ ".done") (wSignalsDir w') = false /\
    (forall file, file <> name +:+ ".done" ->
                  Fs.existsIn file (wSignalsDir w') = Fs.existsIn file (wSignalsDir w)) /\
    (Fs.existsIn (name +:+ ".done") (wSignalsDir w) = false -> w' = w).
Proof.
  intros _.
  eexists. split; [apply clearSignal_eq|].
  destruct (wSignalsDir w) as [|l files] eqn:Hdir.
  - rewrite Hdir. cbn. auto.
  - destruct (files !! (name +:+ ".done")) as [v|] eqn:Hv.
    + cbn. split; [|split].
      * apply bool_decide_eq_false. rewrite lookup_delete_eq. intros [? ?]. discriminate.
      * intros file Hne. rewrite lookup_delete_ne by congruence. reflexivity.
      * intros H. apply bool_decide_eq_false in H. exfalso. apply H. eauto.
    + rewrite Hdir. cbn. split; [|auto].
      apply bool_decide_eq_false. intros [? ?]. congruence.
Qed.

Lemma clearSignal_removes_marker_witness :
  exists w' : World,
    clearSignal "review" failedReviewWorld = (Ret tt, w') /\
    Fs.existsIn "review.done" (wSignalsDir w') = false /\
    Fs.existsIn "plan.done" (wSignalsDir w') = true /\
    clearSignal "pr" failedReviewWorld = (Ret tt, failedReviewWorld).
Proof.
  destruct (clearSignal_removes_marker "review" failedReviewWorld)
    as (w' & Hrun & Hgone & Hframe & _); [vm_compute; reflexivity|].
  exists w'. split; [exact Hrun|]. split; [exact Hgone|]. split.
  - rewrite Hframe by discriminate. vm_compute. reflexivity.
  - destruct (clearSignal_removes_marker "pr" failedReviewWorld)
      as (w2 & Hrun2 & _ & _ & Hsame); [vm_compute; reflexivity|].
    rewrite Hrun2. rewrite Hsame by (vm_compute; reflexivity). reflexivity.
Defined.

(** X4: for a name whose marker is the name of one directory entry and
    does not exist yet, a signal created and then cleared leaves the
    directory as it was: the same files, the same signal set. *)
Theorem createSignal_then_clearSignal (name : string) (w : World) :
  isEntryName (name +:+ ".done") = true ->
  Fs.existsIn (name +:+ ".done") (wSignalsDir w) = false ->
  exists w' : World,
    (createSignal name ;; clearSignal name) w = (Ret tt, w') /\
    (forall file, Fs.existsIn file (wSignalsDir w') = Fs.existsIn file (wSignalsDir w)) /\
    readSignals (wSignalsDir w') = readSignals (wSignalsDir w).
Proof.
  intros _ Hfresh.
  destruct (createSignal_any name w) as (l & files & Hmk & Hrun).
  assert (Hnone : files !! (name +:+ ".done") = None).
  { rewrite <- existsIn_mkdir, Hmk in Hfresh. cbn in Hfresh.
    apply bool_decide_eq_false in Hfresh.
    destruct (files !! (name +:+ ".done")) eqn:E; [|reflexivity].
    exfalso. apply Hfresh. eauto. }
  eexists. split.
  - erewrite bind_ret_step by exact Hrun. rewrite clearSignal_eq.
    cbn [wSignalsDir with_signalsDir]. rewrite lookup_insert_eq. reflexivity.
  - cbn [wSignalsDir with_signalsDir].
    rewrite delete_insert_eq, (delete_id files) by assumption.
    rewrite <- Hmk. split.
    + intros file. apply existsIn_mkdir.
    + apply readSignals_mkdir.
Qed.

Lemma createSignal_then_clearSignal_witness :
  exists w' : World,
    (createSignal "pr" ;; clearSignal "pr") failedReviewWorld = (Ret tt, w') /\
    (forall file, Fs.existsIn file (wSignalsDir w')
                  = Fs.existsIn file (wSignalsDir failedReviewWorld)) /\
    readSignals (wSignalsDir w') = readSignals (wSignalsDir failedReviewWorld).
Proof.
  apply (createSignal_then_clearSignal "pr" failedReviewWorld);
    vm_compute; reflexivity.
Defined.

(** What [clearAllSignals] leaves, in each of the three shapes of the
    signals directory; nothing but that directory is touched. *)
Lemma clearAllSignals_cleared (w : World) :
  exists w' : World,
    clearAllSignals w = (Ret tt, w') /\
    w' = with_signalsDir (wSignalsDir w') w /\
    readSignals (wSignalsDir w') = ∅ /\
    (forall file, JsString.endsWith file ".done" = false ->
                  Fs.existsIn file (wSignalsDir w') = Fs.existsIn file (wSignalsDir w)).
Proof.
  destruct (wSignalsDir w) as [|[] files] eqn:Hdir.
  - exists w. split; [|rewrite Hdir; split; [|auto]].
    + unfold clearAllSignals. run. rewrite Hdir. reflexivity.
    + rewrite <- Hdir. symmetry. apply with_signalsDir_same.
  - destruct (clearAllSignals_listable w files Hdir) as (files' & Hrun & Hlook).
    eexists. split; [exact Hrun|]. split; [reflexivity|].
    cbn [wSignalsDir with_signalsDir]. split.
    + apply readSignals_no_markers. intros g [v Hv]. rewrite Hlook in Hv.
      case_decide as Hd; [discriminate|].
      destruct (JsString.endsWith g ".done"); [contradiction|reflexivity].
    + intros file Hfile. cbn. rewrite Hlook.
      rewrite decide_False by congruence. reflexivity.
  - exists w. split; [apply (clearAllSignals_unlistable w files Hdir)|].
    rewrite Hdir. split; [|auto].
    rewrite <- Hdir. symmetry. apply with_signalsDir_same.
Qed.

(** X5: [clearAllSignals] never throws; afterwards [getSignals] reports
    nothing, and every file whose name does not end in [.done] is still in
    the directory. *)
Theorem clearAllSignals_empties (w : World) :
  exists w' : World,
    clearAllSignals w = (Ret tt, w') /\
    readSignals (wSignalsDir w') = ∅ /\
    (forall file, JsString.endsWith file ".done" = false ->
                  Fs.existsIn file (wSignalsDir w') = Fs.existsIn file (wSignalsDir w)).
Proof.
  destruct (clearAllSignals_cleared w) as (w' & Hrun & _ & Hsig & Hkept).
  exists w'. split; [exact Hrun|]. split; [exact Hsig|exact Hkept].
Qed.

Lemma with_errors_same (w : World) : with_errors (wErrors w) w = w.
Proof. destruct w. reflexivity. Qed.

(** The loop of [clearWorkflow] over the error logs, as [clear_loop]. *)
Lemma clear_errors_loop (l : list string) :
  forall (w : World) (lst : bool) (files : gmap string string),
    wErrors w = Dir lst files ->
    NoDup l ->
    (forall f, f ∈ l -> is_Some (files !! f)) ->
    exists files' : gmap string string,
      for_of l (fun file =>
                  if JsString.endsWith file ".json" then
                    d <- (fun w => (Fs.unlinkIn file (wErrors w), w)) ;;
                    modify (with_errors d)
                  else ret tt) w
        = (Ret tt, with_errors (Dir lst files') w) /\
      forall g, files' !! g =
                if decide (g ∈ l /\ JsString.endsWith g ".json" = true)
                then None else files !! g.
Proof.
  induction l as [|f l IH]; intros w lst files Hdir Hnd Hin.
  - exists files. split.
    + cbn. unfold ret. rewrite <- Hdir, with_errors_same. reflexivity.
    + intros g. case_decide as Hd; [|reflexivity].
      destruct Hd as [Hd _]. apply elem_of_nil in Hd. contradiction.
  - apply NoDup_cons in Hnd as [Hnotin Hnd].
    cbn [for_of]. destruct (JsString.endsWith f ".json") eqn:Hend.
    + destruct (Hin f) as [v Hv]; [apply elem_of_cons; auto|].
      destruct (IH (with_errors (Dir lst (delete f files)) w) lst (delete f files))
        as (files' & Hrun & Hlook); [reflexivity|assumption| |].
      { intros g Hg. rewrite lookup_delete_ne by (intros ->; contradiction).
        apply Hin. apply elem_of_cons. auto. }
      exists files'. split.
      * erewrite bind_ret_step; [exact Hrun|].
        run. rewrite Hdir. cbn. rewrite Hv. reflexivity.
      * intros g. rewrite Hlook. rewrite lookup_delete.
        repeat case_decide; subst; try reflexivity;
          rewrite ?elem_of_cons in *; try tauto; try congruence;
          exfalso; intuition congruence.
    + destruct (IH w lst files) as (files' & Hrun & Hlook); [assumption|assumption| |].
      { intros g Hg. apply Hin. apply elem_of_cons. auto. }
      exists files'. split.
      * erewrite bind_ret_step; [exact Hrun|reflexivity].
      * intros g. rewrite Hlook.
        repeat case_decide; subst; try reflexivity;
          rewrite ?elem_of_cons in *; try tauto; try congruence;
          exfalso; intuition congruence.
Qed.

(** The error-log block of [clearWorkflow]: it never throws, and on a
    listable directory no [.json] file is left. *)
Lemma clear_errors_block (w : World) :
  exists d : DirNode,
    (ex <- gets (fun w => Fs.existsDir (wErrors w)) ;;
     if ex then
       try_catch
         (files <- (fun w => (Fs.listDir (wErrors w), w)) ;;
          for_of files (fun file =>
            if JsString.endsWith file ".json" then
              d <- (fun w => (Fs.unlinkIn file (wErrors w), w)) ;;
              modify (with_errors d)
            else ret tt))
         (ret tt)
     else ret tt) w = (Ret tt, with_errors d w) /\
    (forall files, wErrors w = Dir true files ->
       forall file, JsString.endsWith file ".json" = true -> Fs.existsIn file d = false).
Proof.
  destruct (wErrors w) as [|[] files] eqn:Hdir.
  - exists NoDir. split; [|discriminate].
    run. rewrite Hdir. cbn. rewrite <- Hdir, with_errors_same. reflexivity.
  - destruct (clear_errors_loop (map_to_list files).*1 w true files Hdir)
      as (files' & Hrun & Hlook).
    { apply NoDup_fst_map_to_list. }
    { intros f Hf. apply list_elem_of_fmap in Hf as ([k v] & -> & Hkv).
      apply elem_of_map_to_list in Hkv. cbn. eauto. }
    exists (Dir true files'). split.
    + erewrite bind_ret_step by (unfold gets; rewrite Hdir; reflexivity).
      cbn [Fs.existsDir].
      erewrite try_catch_ret; [reflexivity|].
      erewrite bind_ret_step by (rewrite Hdir; reflexivity).
      exact Hrun.
    + intros files0 _ file Hfile. cbn. apply bool_decide_eq_false.
      rewrite Hlook. case_decide as Hd; [intros [? ?]; discriminate|].
      intros [v Hv]. apply Hd. split; [|assumption].
      apply list_elem_of_fmap. exists (file, v). split; [reflexivity|].
      apply elem_of_map_to_list. assumption.
  - exists (Dir false files). split; [|discriminate].
    run. rewrite Hdir. cbn. rewrite Hdir. cbn.
    rewrite <- Hdir, with_errors_same. reflexivity.
Qed.

(** X6: [clearWorkflow] never throws.  Afterwards no signal is set, the
    persisted state is the initial record, the review outcome is PENDING,
    and no [.json] error log is left in a listable errors directory.
    [PLAN.md] is not removed: the phase derived after a reset is
    [planning] when it exists and [init] only when it does not. *)
Theorem clearWorkflow_resets (w : World) :
  exists w' : World,
    clearWorkflow w = (Ret tt, w') /\
    readSignals (wSignalsDir w') = ∅ /\
    loadState w' = (Ret (mkState init 1 None None 0 ∅ (wNow w)), w') /\
    getReviewStatus w' = (Ret PENDING, w') /\
    determinePhase (readSignals (wSignalsDir w')) w'
      = (Ret (if wPlanFile w then planning else init), w') /\
    (forall files, wErrors w = Dir true files ->
       forall file, JsString.endsWith file ".json" = true ->
                    Fs.existsIn file (wErrors w') = false).
Proof.
  destruct (clearAllSignals_cleared w) as (w1 & Hclear & Hw1 & Hsig & _).
  assert (Hframe : wNow w1 = wNow w /\ wErrors w1 = wErrors w /\ wPlanFile w1 = wPlanFile w)
    by (rewrite Hw1; auto).
  destruct Hframe as (Hnow & Herr & Hplan).
  pose proof (saveState_eq (mkState init 1 None None 0 ∅ (wNow w1)) w1) as Hsave.
  set (w2 := mkWorld (wNow w1)
               (File (Serialized (set_lastUpdated (wNow w1)
                                    (mkState init 1 None None 0 ∅ (wNow w1)))))
               Absent (Fs.mkdir (wSignalsDir w1)) (wReviewFile w1) (wPlanFile w1)
               (wErrors w1) (wSessions w1) (wTimeline w1) (wDispatched w1)) in *.
  destruct (clear_errors_block w2) as (d & Herrors & Hjson).
  assert (Hsig2 : readSignals (Fs.mkdir (wSignalsDir w1)) = ∅)
    by (rewrite readSignals_mkdir; exact Hsig).
  exists (with_errors d w2). split; [|split; [|split; [|split; [|split]]]].
  - unfold clearWorkflow.
    erewrite bind_ret_step by exact Hclear.
    erewrite bind_ret_step by reflexivity.
    erewrite bind_ret_step by exact Hsave.
    exact Herrors.
  - exact Hsig2.
  - rewrite <- Hnow. apply loadState_serialized. reflexivity.
  - rewrite getReviewStatus_eq. cbn [wReviewFile wSignalsDir with_errors w2].
    rewrite Hsig2. unfold truthy. rewrite lookup_empty. cbn.
    destruct (wReviewFile w1); reflexivity.
  - cbn [wSignalsDir with_errors w2]. rewrite Hsig2.
    unfold determinePhase. unfold truthy at 1 2. rewrite !lookup_empty. cbn [default orb].
    erewrite bind_ret_step
      by (rewrite getReviewStatus_eq; cbn [wReviewFile wSignalsDir with_errors w2];
          rewrite Hsig2; reflexivity).
    unfold truthy. rewrite !lookup_empty. cbn [default andb orb forallb].
    unfold bind, gets, ret. cbn [wPlanFile with_errors w2]. rewrite Hplan.
    destruct (wPlanFile w); reflexivity.
  - intros files Hfiles file Hfile. cbn [wErrors with_errors].
    apply (Hjson files); [|assumption]. cbn [wErrors w2]. rewrite Herr. assumption.
Qed.

(** ** Worker completion and the phase engine *)

Lemma areAllWorkersDone_eq (isRefine : bool) (w : World) :
  areAllWorkersDone isRefine w =
    (Ret (let s := readSignals (wSignalsDir w) in
          if isRefine
          then truthy s "backend-refine" && truthy s "frontend-refine"
               && truthy s "tests-refine"
          else truthy s "backend" && truthy s "frontend" && truthy s "tests"), w).
Proof.
  unfold areAllWorkersDone, isWorkerDone, getSignals. cbn [every]. run.
  cbv [roleName String.append].
  destruct isRefine; cbv iota zeta;
    repeat match goal with
           | |- context [truthy ?s ?n] => destruct (truthy s n); cbn
           end; reflexivity.
Qed.

(** X7: after a failed review, [areAllWorkersDone(true)] and
    [determinePhase] on the live signals agree: the phase is [reviewing]
    exactly when all refine workers are done, and [refining] otherwise. *)
Theorem areAllWorkersDone_refine_gate (w : World) :
  truthy (readSignals (wSignalsDir w)) "compound" = false ->
  truthy (readSignals (wSignalsDir w)) "pr" = false ->
  result getReviewStatus w = Ret FAIL ->
  exists allDone : bool,
    areAllWorkersDone true w = (Ret allDone, w) /\
    determinePhase (readSignals (wSignalsDir w)) w
      = (Ret (if allDone then reviewing else refining), w).
Proof.
  intros Hc Hp Hfail. eexists. split; [apply areAllWorkersDone_eq|].
  cbv zeta iota.
  assert (Hstatus : getReviewStatus w = (Ret FAIL, w))
    by (rewrite getReviewStatus_result, Hfail; reflexivity).
  assert (Hrev : truthy (readSignals (wSignalsDir w)) "review" = true).
  { unfold result in Hfail. rewrite getReviewStatus_eq in Hfail. cbn in Hfail.
    destruct (wReviewFile w); try discriminate.
    destruct (truthy _ "review"); [reflexivity|discriminate]. }
  unfold determinePhase. rewrite Hc, Hp. cbn [orb].
  erewrite bind_ret_step by exact Hstatus.
  rewrite Hrev. cbn. rewrite andb_true_r, andb_assoc.
  destruct (truthy _ "backend-refine" && truthy _ "frontend-refine"
            && truthy _ "tests-refine"); reflexivity.
Qed.

Lemma areAllWorkersDone_refine_gate_witness :
  exists allDone : bool,
    areAllWorkersDone true secondRoundWorld = (Ret allDone, secondRoundWorld) /\
    determinePhase (readSignals (wSignalsDir secondRoundWorld)) secondRoundWorld
      = (Ret (if allDone then reviewing else refining), secondRoundWorld).
Proof.
  apply (areAllWorkersDone_refine_gate secondRoundWorld); vm_compute; reflexivity.
Defined.

(** X8: before any review (no review, compound or pr signal), the phase
    derived from the live signals is [reviewing] exactly when
    [areAllWorkersDone(false)] holds; otherwise it is [implementing] with
    a plan signal, [planning] with only [PLAN.md], and [init] with
    neither. *)
Theorem areAllWorkersDone_implementation_gate (w : World) :
  truthy (readSignals (wSignalsDir w)) "compound" = false ->
  truthy (readSignals (wSignalsDir w)) "pr" = false ->
  truthy (readSignals (wSignalsDir w)) "review" = false ->
  exists allDone : bool,
    areAllWorkersDone false w = (Ret allDone, w) /\
    determinePhase (readSignals (wSignalsDir w)) w
      = (Ret (if allDone then reviewing
              else if truthy (readSignals (wSignalsDir w)) "plan" then implementing
              else if wPlanFile w then planning else init), w).
Proof.
  intros Hc Hp Hrev. eexists. split; [apply areAllWorkersDone_eq|].
  cbv zeta iota.
  unfold determinePhase. rewrite Hc, Hp. cbn [orb].
  destruct (getReviewStatus_pure w) as [r Hr].
  erewrite bind_ret_step by exact Hr.
  rewrite Hrev. cbn [andb].
  destruct (truthy _ "backend" && truthy _ "frontend" && truthy _ "tests");
    [reflexivity|].
  unfold bind, gets, ret.
  destruct (truthy _ "plan"); cbn; [reflexivity|].
  destruct (wPlanFile w); reflexivity.
Qed.

Lemma areAllWorkersDone_implementation_gate_witness :
  exists allDone : bool,
    areAllWorkersDone false savedEarlyWorld = (Ret allDone, savedEarlyWorld) /\
    determinePhase (readSignals (wSignalsDir savedEarlyWorld)) savedEarlyWorld
      = (Ret (if allDone then reviewing
              else if truthy (readSignals (wSignalsDir savedEarlyWorld)) "plan"
                   then implementing
              else if wPlanFile savedEarlyWorld then planning else init), savedEarlyWorld).
Proof.
  apply (areAllWorkersDone_implementation_gate savedEarlyWorld); vm_compute; reflexivity.
Defined.

(** ** Branch sessions *)

Lemma with_sessions_same (w : World) : with_sessions (wSessions w) w = w.
Proof. destruct w. reflexivity. Qed.

(** The copy loop of [saveSessionToBranch]: one marker is written into the
    snapshot per name, and nothing is removed from it. *)
Lemma save_loop (branch : string) (l : list string) :
  forall (w : World) (saved : Node StateText) (lst : bool) (files : gmap string string),
    wSessions w !! branch = Some (mkSession saved (Dir lst files)) ->
    exists files' : gmap string string,
      for_of l (fun signalName =>
                  stamp <- gets wNow ;;
                  d <- (fun w => (Fs.writeIn (signalName +:+ ".done") stamp
                                             (branchSignalsDir branch w), w)) ;;
                  updateSession branch (fun s => mkSession (sessState s) d)) w
        = (Ret tt,
           with_sessions (<[branch := mkSession saved (Dir lst files')]> (wSessions w)) w) /\
      forall g, is_Some (files' !! g) <->
                is_Some (files !! g) \/ exists n, n ∈ l /\ g = n +:+ ".done".
Proof.
  induction l as [|n l IH]; intros w saved lst files Hs.
  - exists files. split.
    + cbn. unfold ret. rewrite insert_id by assumption.
      rewrite with_sessions_same. reflexivity.
    + intros g. split; [auto|]. intros [H|(n & Hn & _)]; [assumption|].
      apply elem_of_nil in Hn. contradiction.
  - cbn [for_of].
    destruct (IH (with_sessions
                    (<[branch := mkSession saved
                                   (Dir lst (<[n +:+ ".done" := wNow w]> files))]>
                       (wSessions w)) w)
                 saved lst (<[n +:+ ".done" := wNow w]> files))
      as (files' & Hrun & Hlook).
    { cbn. apply lookup_insert_eq. }
    exists files'. split.
    + erewrite bind_ret_step; [rewrite Hrun|].
      * cbn [wSessions with_sessions]. rewrite insert_insert_eq. reflexivity.
      * unfold bind, gets, updateSession, branchSignalsDir. cbv beta.
        rewrite Hs. cbn. reflexivity.
    + intros g. rewrite Hlook, lookup_insert_is_Some'. split.
      * intros [[<-|H]|(m & Hm & Hg)].
        -- right. exists n. rewrite elem_of_cons. auto.
        -- auto.
        -- right. exists m. rewrite elem_of_cons. auto.
      * intros [H|(m & Hm & Hg)]; [auto|].
        apply elem_of_cons in Hm as [->|Hm]; [auto|].
        right. exists m. auto.
Qed.

(** What [saveSessionToBranch] leaves: only the session of the branch
    changes; its state file is the current record with the branch name and
    a fresh time stamp; its markers are the old ones plus one per live
    signal. *)
Lemma saveSessionToBranch_eq (branch : string) (w : World) :
  exists (st : WorkflowState) (d : DirNode),
    loadState w = (Ret st, w) /\
    saveSessionToBranch branch w =
      (Ret tt,
       with_sessions
         (<[branch := mkSession
                        (File (Serialized (set_lastUpdated (wNow w)
                                             (set_branchName (Some branch) st)))) d]>
            (wSessions w)) w) /\
    (readSignals (wSignalsDir w) = ∅ -> d = branchSignalsDir branch w) /\
    (readSignals (wSignalsDir w) <> ∅ ->
     exists (lst : bool) (files files' : gmap string string),
       Fs.mkdir (branchSignalsDir branch w) = Dir lst files /\
       d = Dir lst files' /\
       forall g, is_Some (files' !! g) <->
                 is_Some (files !! g) \/
                 exists n, is_Some (readSignals (wSignalsDir w) !! n) /\ g = n +:+ ".done").
Proof.
  destruct (loadState_pure w) as [st Hload].
  set (saved := File (Serialized (set_lastUpdated (wNow w)
                                    (set_branchName (Some branch) st)))).
  set (old := branchSignalsDir branch w).
  (* the world once the state file of the session is written *)
  set (wb := with_sessions (<[branch := mkSession saved old]> (wSessions w)) w).
  assert (Hprefix : forall (B : Type) (k : M B),
             (currentState <- loadState ;;
              ex <- gets (sessionExists branch) ;;
              (if negb ex
               then modify (fun w => with_sessions
                                       (<[branch := mkSession Absent NoDir]> (wSessions w)) w)
               else ret tt) ;;
              now <- gets wNow ;;
              updateSession branch
                (fun s => mkSession
                            (File (JSON_stringify
                                     (set_lastUpdated now
                                        (set_branchName (Some branch) currentState))))
                            (sessSignals s)) ;;
              k) w = k wb).
  { intros B k. erewrite bind_ret_step by exact Hload.
    unfold bind, gets, modify, ret, updateSession, sessionExists. cbv beta.
    subst wb old saved. unfold branchSignalsDir.
    destruct (wSessions w !! branch) as [s|] eqn:Hs.
    - rewrite bool_decide_true by eauto. cbn. rewrite Hs. reflexivity.
    - rewrite bool_decide_false by (intros [? ?]; discriminate). cbn.
      rewrite lookup_insert_eq. cbn. rewrite insert_insert_eq. reflexivity. }
  assert (Hwb : wSessions wb !! branch = Some (mkSession saved old))
    by (subst wb; cbn; apply lookup_insert_eq).
  destruct (decide (readSignals (wSignalsDir w) = ∅)) as [Hempty|Hnonempty].
  - exists st, old. split; [exact Hload|]. split; [|split; [auto|contradiction]].
    unfold saveSessionToBranch. rewrite Hprefix.
    erewrite bind_ret_step by apply getSignals_eq.
    change (wSignalsDir wb) with (wSignalsDir w).
    rewrite Hempty. rewrite map_size_empty. cbn. reflexivity.
  - destruct (Fs.mkdir old) as [|lst files] eqn:Hmk;
      [destruct old; discriminate|].
    destruct (save_loop branch (map_to_list (readSignals (wSignalsDir w))).*1
                (with_sessions (<[branch := mkSession saved (Dir lst files)]> (wSessions w)) w)
                saved lst files) as (files' & Hrun & Hlook).
    { cbn. apply lookup_insert_eq. }
    exists st, (Dir lst files'). split; [exact Hload|]. split; [|split; [contradiction|]].
    + unfold saveSessionToBranch. rewrite Hprefix.
      erewrite bind_ret_step by apply getSignals_eq.
      change (wSignalsDir wb) with (wSignalsDir w).
      rewrite bool_decide_true
        by (apply Nat.neq_0_lt_0; intros Hz; apply map_size_empty_iff in Hz; contradiction).
      erewrite bind_ret_step by reflexivity.
      assert (Hmkdir :
                (if negb (Fs.existsDir (branchSignalsDir branch wb))
                 then updateSession branch
                        (fun s => mkSession (sessState s) (Fs.mkdir (sessSignals s)))
                 else ret tt) wb
                = (Ret tt,
                   with_sessions (<[branch := mkSession saved (Dir lst files)]> (wSessions w)) w)).
      { unfold branchSignalsDir. rewrite Hwb. cbn [sessSignals].
        destruct old as [|lst0 files0] eqn:Hold; cbn [Fs.existsDir negb].
        - unfold updateSession. rewrite Hwb. cbn [sessState sessSignals].
          rewrite Hmk. subst wb. cbn [wSessions with_sessions].
          rewrite insert_insert_eq. reflexivity.
        - cbn in Hmk. injection Hmk as <- <-. reflexivity. }
      erewrite bind_ret_step by exact Hmkdir.
      cbv beta. rewrite Hrun. cbn [wSessions with_sessions]. rewrite insert_insert_eq. reflexivity.
    + intros _. exists lst, files, files'. split; [reflexivity|]. split; [reflexivity|].
      intros g. rewrite Hlook. split.
      * intros [H|(n & Hn & Hg)]; [auto|]. right. exists n. split; [|assumption].
        apply list_elem_of_fmap in Hn as ([k v] & -> & Hkv).
        apply elem_of_map_to_list in Hkv. cbn. eauto.
      * intros [H|(n & [v Hn] & Hg)]; [auto|]. right. exists n. split; [|assumption].
        apply list_elem_of_fmap. exists (n, v). split; [reflexivity|].
        apply elem_of_map_to_list. assumption.
Qed.

(** X9: for a branch that is a relative path staying below [sessions/]
    (no empty component, no [.] or [..]), [saveSessionToBranch] returns
    and leaves the main state and the live signals untouched: it writes
    only below [sessions/].  The snapshot it leaves holds the current
    record with [branchName] set to the branch and a fresh [lastUpdated]. *)
Theorem saveSessionToBranch_snapshot (branch : string) (w : World) :
  isBranchPath branch = true ->
  exists (st : WorkflowState) (w' : World),
    loadState w = (Ret st, w) /\
    saveSessionToBranch branch w = (Ret tt, w') /\
    w' = with_sessions (wSessions w') w /\
    branchStateNode branch w'
      = File (Serialized (set_lastUpdated (wNow w) (set_branchName (Some branch) st))).
Proof.
  intros _.
  destruct (saveSessionToBranch_eq branch w) as (st & d & Hload & Hrun & _).
  eexists st, _. split; [exact Hload|]. split; [exact Hrun|].
  split; [reflexivity|].
  unfold branchStateNode. cbn. rewrite lookup_insert_eq. reflexivity.
Qed.

Lemma saveSessionToBranch_snapshot_witness :
  isBranchPath ".." = false /\
  exists w' : World,
    saveSessionToBranch "feature/login-form" failedReviewWorld = (Ret tt, w') /\
    wStateFile w' = wStateFile failedReviewWorld /\
    wSignalsDir w' = wSignalsDir failedReviewWorld /\
    branchStateNode "feature/login-form" w'
      = File (Serialized (mkState init 1 None (Some "feature/login-form") 0 ∅ stamp0)).
Proof.
  split; [vm_compute; reflexivity|].
  destruct (saveSessionToBranch_snapshot "feature/login-form" failedReviewWorld)
    as (st & w' & Hload & Hrun & Hframe & Hsnap); [vm_compute; reflexivity|].
  assert (Hst : st = mkState init 1 None None 0 ∅ stamp0).
  { assert (H0 : loadState failedReviewWorld
                 = (Ret (mkState init 1 None None 0 ∅ stamp0), failedReviewWorld))
      by (vm_compute; reflexivity).
    rewrite H0 in Hload. injection Hload as <-. reflexivity. }
  subst st.
  exists w'. split; [exact Hrun|].
  split; [rewrite Hframe; reflexivity|].
  split; [rewrite Hframe; reflexivity|].
  exact Hsnap.
Defined.

(** X10: a save adds to the snapshot and never removes from it: every
    live signal gets its marker, and every file the snapshot's signals
    directory held before is still there (markers of earlier saves
    accumulate). *)
Theorem saveSessionToBranch_accumulates (branch : string) (w : World) :
  exists w' : World,
    saveSessionToBranch branch w = (Ret tt, w') /\
    (forall n, is_Some (readSignals (wSignalsDir w) !! n) ->
               Fs.existsIn (n +:+ ".done") (branchSignalsDir branch w') = true) /\
    (forall file, Fs.existsIn file (branchSignalsDir branch w) = true ->
                  Fs.existsIn file (branchSignalsDir branch w') = true).
Proof.
  destruct (saveSessionToBranch_eq branch w) as (st & d & Hload & Hrun & Hempty & Hsome).
  eexists. split; [exact Hrun|].
  assert (Hd : branchSignalsDir branch
                 (with_sessions
                    (<[branch := mkSession
                         (File (Serialized (set_lastUpdated (wNow w)
                                              (set_branchName (Some branch) st)))) d]>
                       (wSessions w)) w) = d).
  { unfold branchSignalsDir. cbn. rewrite lookup_insert_eq. reflexivity. }
  rewrite Hd.
  destruct (decide (readSignals (wSignalsDir w) = ∅)) as [He|Hne].
  - rewrite (Hempty He). split; [|auto].
    intros n [v Hn]. rewrite He, lookup_empty in Hn. discriminate.
  - destruct (Hsome Hne) as (lst & files & files' & Hmk & -> & Hlook). split.
    + intros n Hn. cbn. apply bool_decide_eq_true. apply Hlook. right. eauto.
    + intros file Hfile. rewrite <- existsIn_mkdir, Hmk in Hfile. cbn in *.
      apply bool_decide_eq_true. apply bool_decide_eq_true in Hfile.
      apply Hlook. auto.
Qed.



(** X11: a restore that cannot read the snapshot changes nothing: for a
    branch that is a relative path staying below [sessions/], when the
    snapshot's state file is missing, cannot be read, or holds text on
    which [JSON.parse] throws, [loadSessionFromBranch] returns [null] and
    the main state and the live signals are as before.  (Text that parses
    to something that is no record is not of these three kinds.) *)
Theorem loadSessionFromBranch_failure_is_harmless (branch : string) (w : World) :
  isBranchPath branch = true ->
  branchStateNode branch w = Absent \/ branchStateNode branch w = Unreadable
  \/ (exists raw, branchStateNode branch w = File (Malformed raw)) ->
  loadSessionFromBranch branch w = (Ret None, w).
Proof.
  intros _ H. unfold loadSessionFromBranch. run.
  destruct H as [H|[H|[raw H]]]; rewrite H; cbn; rewrite ?H; reflexivity.
Qed.

Lemma loadSessionFromBranch_failure_is_harmless_witness :
  loadSessionFromBranch "feature/b" savedLateWorld = (Ret None, savedLateWorld).
Proof.
  apply (loadSessionFromBranch_failure_is_harmless "feature/b" savedLateWorld).
  - vm_compute. reflexivity.
  - left. vm_compute. reflexivity.
Defined.




(** ** The command handlers *)

Lemma markers_kept_refl (w : World) : markers_kept w w.
Proof. intros file H. exact H. Qed.

Lemma markers_kept_trans (w1 w2 w3 : World) :
  markers_kept w1 w2 -> markers_kept w2 w3 -> markers_kept w1 w3.
Proof. intros H12 H23 file H. apply H23, H12, H. Qed.

Lemma markers_kept_saveState (state : WorkflowState) (w : World) :
  markers_kept w (after (saveState state) w).
Proof.
  intros file H. unfold after. rewrite saveState_eq. cbn. rewrite existsIn_mkdir. exact H.
Qed.

Lemma markers_kept_createSignal (name : string) (w : World) :
  markers_kept w (after (createSignal name) w).
Proof.
  intros file Hfile. unfold after.
  destruct (createSignal_any name w) as (l & files & Hmk & Hrun). rewrite Hrun.
  cbn [snd wSignalsDir with_signalsDir].
  rewrite <- existsIn_mkdir, Hmk in Hfile. cbn in *.
  apply bool_decide_eq_true. apply bool_decide_eq_true in Hfile.
  apply lookup_insert_is_Some'. auto.
Qed.

Lemma loadState_after_saveState (state : WorkflowState) (w : World) :
  loadState (after (saveState state) w)
    = (Ret (set_lastUpdated (wNow w) state), after (saveState state) w).
Proof.
  unfold after. rewrite saveState_eq. apply loadState_serialized. reflexivity.
Qed.

Lemma saveState_run (state : WorkflowState) (w : World) :
  saveState state w = (Ret tt, after (saveState state) w).
Proof. unfold after. rewrite saveState_eq. reflexivity. Qed.

Lemma createSignal_run (name : string) (w : World) :
  createSignal name w = (Ret tt, after (createSignal name) w).
Proof.
  unfold after. destruct (createSignal_any name w) as (l & files & _ & Hrun).
  rewrite Hrun. reflexivity.
Qed.

Lemma handleDispatchReview_eq (vc : VersionControl) (config : Config)
      (state : WorkflowState) (w : World) :
  let state' :=
    set_phase reviewing
      (if auto_commit config && bool_decide (phase state = implementing)
       then commitCounted vc state else state) in
  handleDispatchReview vc config state w =
    (Ret state',
     after (saveState state')
           (with_timeline (wTimeline w ++ [mkEvent "phase_change" "Phase changed to: reviewing"])
              (with_dispatched (wDispatched w ++ [(reviewer, false)]) w))).
Proof.
  cbv zeta. unfold handleDispatchReview, dispatchReviewer, logPhaseChange, commitCounted.
  unfold bind at 1 2, modify. cbv beta iota.
  erewrite bind_ret_step by apply saveState_run. reflexivity.
Qed.

(** X13: [handleDispatchReview] persists phase [reviewing] whatever the
    commit did; it keeps the iteration, every marker and the review
    inputs, and takes over the commit count only after a successful
    automatic commit made in phase [implementing]. *)
Theorem handleDispatchReview_effect (vc : VersionControl) (config : Config)
        (state : WorkflowState) (w : World) :
  exists (state' : WorkflowState) (w' : World),
    handleDispatchReview vc config state w = (Ret state', w') /\
    loadState w' = (Ret (set_lastUpdated (wNow w) state'), w') /\
    phase state' = reviewing /\
    iteration state' = iteration state /\
    commitCount state'
      = (if auto_commit config && bool_decide (phase state = implementing)
            && commitSuccess vc
         then commitCountNow vc else commitCount state) /\
    markers_kept w w' /\
    review_inputs_kept w w'.
Proof.
  eexists _, _. split; [apply handleDispatchReview_eq|].
  split; [rewrite loadState_after_saveState; reflexivity|].
  split; [reflexivity|]. split.
  { unfold commitCounted.
    destruct (auto_commit config && bool_decide (phase state = implementing));
      destruct (commitSuccess vc); reflexivity. }
  split.
  { unfold commitCounted.
    destruct (auto_commit config && bool_decide (phase state = implementing));
      destruct (commitSuccess vc); reflexivity. }
  unfold after. rewrite saveState_eq. cbn.
  split.
  - intros file H. cbn. rewrite existsIn_mkdir. exact H.
  - split; [reflexivity|]. split; [reflexivity|]. cbn. apply readSignals_mkdir.
Qed.

Lemma handleDispatchCompound_eq (config : Config) (state : WorkflowState) (w : World)
      (r : ReviewStatus) :
  getReviewStatus w = (Ret r, w) ->
  handleDispatchCompound config state w =
    if bool_decide (r = PASS) || bool_decide (r = PASS_WITH_WARNINGS)
    then (Ret (set_phase compounding state),
          after (saveState (set_phase compounding state))
                (after (logPhaseChange compounding) (after (createSignal "compound") w)))
    else (Ret state, w).
Proof.
  intros Hr. unfold handleDispatchCompound.
  erewrite bind_ret_step by exact Hr.
  destruct r; repeat case_bool_decide; try congruence; cbn [andb orb];
    try reflexivity;
    (erewrite bind_ret_step by apply createSignal_run;
     unfold logPhaseChange; unfold bind at 1, modify; cbv beta iota;
     erewrite bind_ret_step by apply saveState_run; reflexivity).
Qed.

Lemma createSignal_frame (name : string) (w : World) :
  after (createSignal name) w
    = with_signalsDir (wSignalsDir (after (createSignal name) w)) w.
Proof.
  unfold after. destruct (createSignal_any name w) as (l & files & _ & Hrun).
  rewrite Hrun. reflexivity.
Qed.

Lemma createSignal_marker (name : string) (w : World) :
  Fs.existsIn (name +:+ ".done") (wSignalsDir (after (createSignal name) w)) = true.
Proof.
  unfold after. destruct (createSignal_any name w) as (l & files & _ & Hrun).
  rewrite Hrun. cbn. apply bool_decide_eq_true. rewrite lookup_insert_eq. eauto.
Qed.

(** X14: [handleDispatchCompound] acts only on a passed review.  With
    outcome PASS or PASS_WITH_WARNINGS it writes the compound marker,
    persists phase [compounding] and keeps the iteration and all markers;
    with any other outcome it returns the state it was given and writes
    nothing. *)
Theorem handleDispatchCompound_gate (config : Config) (state : WorkflowState) (w : World) :
  (result getReviewStatus w = Ret PASS \/
   result getReviewStatus w = Ret PASS_WITH_WARNINGS ->
   exists (state' : WorkflowState) (w' : World),
     handleDispatchCompound config state w = (Ret state', w') /\
     state' = set_phase compounding state /\
     loadState w' = (Ret (set_lastUpdated (wNow w) state'), w') /\
     Fs.existsIn "compound.done" (wSignalsDir w') = true /\
     markers_kept w w')
  /\
  (result getReviewStatus w <> Ret PASS ->
   result getReviewStatus w <> Ret PASS_WITH_WARNINGS ->
   handleDispatchCompound config state w = (Ret state, w)).
Proof.
  destruct (getReviewStatus_pure w) as [r Hr].
  unfold result. rewrite Hr. cbn [fst].
  rewrite (handleDispatchCompound_eq config state w r Hr). split.
  - intros Hpass.
    assert (Hb : bool_decide (r = PASS) || bool_decide (r = PASS_WITH_WARNINGS) = true).
    { destruct Hpass as [[= ->]|[= ->]]; reflexivity. }
    rewrite Hb. eexists _, _. split; [reflexivity|]. split; [reflexivity|]. split; [|split].
    + rewrite loadState_after_saveState. cbn [wNow after logPhaseChange].
      rewrite createSignal_frame. reflexivity.
    + unfold after at 1. rewrite saveState_eq. cbn [snd wSignalsDir].
      rewrite existsIn_mkdir. apply (createSignal_marker "compound").
    + eapply markers_kept_trans; [apply (markers_kept_createSignal "compound")|].
      eapply markers_kept_trans; [|apply markers_kept_saveState].
      intros file H. exact H.
  - intros H1 H2.
    rewrite bool_decide_false by congruence.
    rewrite bool_decide_false by congruence. reflexivity.
Qed.

Lemma handleDispatchCompound_gate_witness :
  (exists (state' : WorkflowState) (w' : World),
     handleDispatchCompound (mkConfig true "feature/") (stateAt reviewing 1)
       (withReview "STATUS: PASS" ["plan"; "backend"; "frontend"; "tests"; "review"]
                   emptyWorld) = (Ret state', w') /\
     phase state' = compounding /\
     Fs.existsIn "compound.done" (wSignalsDir w') = true) /\
  handleDispatchCompound (mkConfig true "feature/") (stateAt reviewing 1) failedReviewWorld
    = (Ret (stateAt reviewing 1), failedReviewWorld).
Proof.
  split.
  - destruct (handleDispatchCompound_gate (mkConfig true "feature/") (stateAt reviewing 1)
                (withReview "STATUS: PASS" ["plan"; "backend"; "frontend"; "tests"; "review"]
                            emptyWorld)) as [Hpass _].
    destruct Hpass as (state' & w' & Hrun & -> & _ & Hmarker & _).
    + left. vm_compute. reflexivity.
    + eexists _, w'. split; [exact Hrun|]. split; [reflexivity|exact Hmarker].
  - destruct (handleDispatchCompound_gate (mkConfig true "feature/") (stateAt reviewing 1)
                failedReviewWorld) as [_ Hrefuse].
    apply Hrefuse; vm_compute; discriminate.
Defined.

Lemma readSignals_after_saveState (state : WorkflowState) (w : World) :
  readSignals (wSignalsDir (after (saveState state) w)) = readSignals (wSignalsDir w).
Proof. unfold after. rewrite saveState_eq. cbn. apply readSignals_mkdir. Qed.

Lemma handleCreatePR_eq (vc : VersionControl) (config : Config)
      (state : WorkflowState) (w : World) :
  handleCreatePR vc config state w =
    if truthy (signals state) "compound" && pullRequestSuccess vc
    then (Ret (set_phase complete state),
          after (saveState (set_phase complete state)) (after (createSignal "pr") w))
    else (Ret state, w).
Proof.
  unfold handleCreatePR.
  destruct (truthy (signals state) "compound"); cbn [negb andb]; [|reflexivity].
  destruct (pullRequestSuccess vc); [|reflexivity].
  erewrite bind_ret_step by apply createSignal_run.
  erewrite bind_ret_step by apply saveState_run. reflexivity.
Qed.

(** X15: [handleCreatePR] needs the compound signal in the state it is
    given and a successful pull request.  Then it writes the pr marker and
    persists phase [complete], and the phase derived from the live signals
    is [complete] as well (where the directory can be listed).  Without
    the signal, or when the pull request fails, nothing is written. *)
Theorem handleCreatePR_gate (vc : VersionControl) (config : Config)
        (state : WorkflowState) (w : World) :
  (truthy (signals state) "compound" = true -> pullRequestSuccess vc = true ->
   exists (state' : WorkflowState) (w' : World),
     handleCreatePR vc config state w = (Ret state', w') /\
     state' = set_phase complete state /\
     loadState w' = (Ret (set_lastUpdated (wNow w) state'), w') /\
     Fs.existsIn "pr.done" (wSignalsDir w') = true /\
     markers_kept w w' /\
     ((forall files, wSignalsDir w <> Dir false files) ->
      determinePhase (readSignals (wSignalsDir w')) w' = (Ret complete, w')))
  /\
  (truthy (signals state) "compound" = false \/ pullRequestSuccess vc = false ->
   handleCreatePR vc config state w = (Ret state, w)).
Proof.
  rewrite handleCreatePR_eq. split.
  - intros -> ->. cbn [andb]. eexists _, _. split; [reflexivity|]. split; [reflexivity|].
    split; [|split; [|split]].
    + rewrite loadState_after_saveState. rewrite createSignal_frame. reflexivity.
    + unfold after at 1. rewrite saveState_eq. cbn [snd wSignalsDir].
      rewrite existsIn_mkdir. apply (createSignal_marker "pr").
    + eapply markers_kept_trans; [apply (markers_kept_createSignal "pr")|].
      apply markers_kept_saveState.
    + intros Hlive. apply determinePhase_terminal.
      rewrite readSignals_after_saveState.
      destruct (createSignal_read_back "pr" w Hlive eq_refl) as (w1 & Hrun & Hpr).
      unfold after. rewrite Hrun. cbn [snd].
      apply orb_true_iff. right. unfold truthy. rewrite Hpr. reflexivity.
  - intros [->| ->]; [reflexivity|]. rewrite andb_false_r. reflexivity.
Qed.

Lemma handleCreatePR_gate_witness :
  (exists (state' : WorkflowState) (w' : World),
     handleCreatePR (mkVersionControl "Login form" (Some "feature/login") true 3 true)
                    (mkConfig true "feature/")
                    (set_signals racingSignals (stateAt compounding 1)) racingWorld
       = (Ret state', w') /\
     phase state' = complete /\
     determinePhase (readSignals (wSignalsDir w')) w' = (Ret complete, w')) /\
  handleCreatePR (mkVersionControl "Login form" (Some "feature/login") true 3 false)
                 (mkConfig true "feature/")
                 (set_signals racingSignals (stateAt compounding 1)) racingWorld
    = (Ret (set_signals racingSignals (stateAt compounding 1)), racingWorld).
Proof.
  split.
  - destruct (handleCreatePR_gate
                (mkVersionControl "Login form" (Some "feature/login") true 3 true)
                (mkConfig true "feature/")
                (set_signals racingSignals (stateAt compounding 1)) racingWorld)
      as [Hok _].
    destruct Hok as (state' & w' & Hrun & -> & _ & _ & _ & Hphase);
      [vm_compute; reflexivity|reflexivity|].
    eexists _, w'. split; [exact Hrun|]. split; [reflexivity|].
    apply Hphase. intros files. vm_compute. discriminate.
  - destruct (handleCreatePR_gate
                (mkVersionControl "Login form" (Some "feature/login") true 3 false)
                (mkConfig true "feature/")
                (set_signals racingSignals (stateAt compounding 1)) racingWorld)
      as [_ Hno].
    apply Hno. right. reflexivity.
Defined.

(** ** Approving the plan, and the manual checkpoint *)

Lemma handlePlanApproved_eq (vc : VersionControl) (config : Config)
      (state : WorkflowState) (w : World) (branch : string) :
  wPlanFile w = true ->
  featureBranch vc = Some branch ->
  let w1 :=
    with_dispatched
      (wDispatched w ++ [(backend, false); (frontend, false); (tests, false)])
      (with_timeline
         (wTimeline w ++ [mkEvent "session_start" ("Session started: " +:+ planTitle vc)])
         (after (createSignal "plan") w)) in
  let named := set_branchName (Some branch) (set_featureName (Some (planTitle vc)) state) in
  let state' :=
    set_signals (readSignals (wSignalsDir w1))
      (set_phase implementing
         (if auto_commit config then commitCounted vc named else named)) in
  handlePlanApproved vc config state w = (Ret state', after (saveState state') w1).
Proof.
  intros Hplan Hbranch. cbv zeta.
  unfold handlePlanApproved. unfold bind at 1, gets. cbv beta iota.
  rewrite Hplan, Hbranch. cbn [negb].
  erewrite bind_ret_step by apply createSignal_run.
  unfold addTimelineEvent, dispatchAllWorkers. unfold bind at 1 2, modify. cbv beta iota.
  erewrite bind_ret_step by apply getSignals_eq.
  erewrite bind_ret_step by apply saveState_run.
  cbn [wDispatched wTimeline with_timeline with_dispatched].
  rewrite (createSignal_frame "plan" w).
  cbn [wDispatched wTimeline with_signalsDir].
  unfold commitCounted. reflexivity.
Qed.

(** X16: [handlePlanApproved] does nothing without [PLAN.md], and writes
    nothing when the branch cannot be created.  Otherwise it writes the
    plan marker and persists phase [implementing] with the branch, the
    feature name and the signals as they are after the marker was
    written; no marker is lost and the iteration is kept. *)
Theorem handlePlanApproved_gate (vc : VersionControl) (config : Config)
        (state : WorkflowState) (w : World) :
  (wPlanFile w = false -> handlePlanApproved vc config state w = (Ret state, w)) /\
  (wPlanFile w = true -> featureBranch vc = None ->
   handlePlanApproved vc config state w
     = (Ret (set_featureName (Some (planTitle vc)) state), w)) /\
  (forall branch : string,
     wPlanFile w = true -> featureBranch vc = Some branch ->
     exists (state' : WorkflowState) (w' : World),
       handlePlanApproved vc config state w = (Ret state', w') /\
       phase state' = implementing /\
       featureName state' = Some (planTitle vc) /\
       branchName state' = Some branch /\
       iteration state' = iteration state /\
       signals state' = readSignals (wSignalsDir w') /\
       loadState w' = (Ret (set_lastUpdated (wNow w) state'), w') /\
       Fs.existsIn "plan.done" (wSignalsDir w') = true /\
       markers_kept w w' /\
       ((forall files, wSignalsDir w <> Dir false files) ->
        truthy (signals state') "plan" = true)).
Proof.
  split; [|split].
  - intros Hplan. unfold handlePlanApproved. unfold bind at 1, gets. cbv beta iota.
    rewrite Hplan. reflexivity.
  - intros Hplan Hbranch. unfold handlePlanApproved. unfold bind at 1, gets. cbv beta iota.
    rewrite Hplan, Hbranch. reflexivity.
  - intros branch Hplan Hbranch.
    eexists _, _. split; [apply (handlePlanApproved_eq vc config state w branch Hplan Hbranch)|].
    cbv zeta.
    assert (Hcount : forall named : WorkflowState,
               let st := if auto_commit config then commitCounted vc named else named in
               featureName st = featureName named /\ branchName st = branchName named /\
               iteration st = iteration named).
    { intros named. unfold commitCounted.
      destruct (auto_commit config); destruct (commitSuccess vc); cbn; auto. }
    specialize (Hcount (set_branchName (Some branch)
                          (set_featureName (Some (planTitle vc)) state))).
    cbv zeta in Hcount. destruct Hcount as (Hf & Hb & Hi).
    split; [reflexivity|].
    split; [cbn [featureName set_signals set_phase]; rewrite Hf; reflexivity|].
    split; [cbn [branchName set_signals set_phase]; rewrite Hb; reflexivity|].
    split; [cbn [iteration set_signals set_phase]; rewrite Hi; reflexivity|].
    split.
    { cbn [signals set_signals]. rewrite readSignals_after_saveState. reflexivity. }
    split.
    { rewrite loadState_after_saveState. cbn [wNow with_dispatched with_timeline].
      rewrite (createSignal_frame "plan" w). reflexivity. }
    split.
    { unfold after at 1. rewrite saveState_eq. cbn [snd wSignalsDir with_dispatched with_timeline].
      rewrite existsIn_mkdir. apply (createSignal_marker "plan"). }
    split.
    { eapply markers_kept_trans; [apply (markers_kept_createSignal "plan")|].
      eapply markers_kept_trans; [|apply markers_kept_saveState].
      intros file H. exact H. }
    intros Hlive. cbn [signals set_signals wSignalsDir with_dispatched with_timeline].
    destruct (createSignal_read_back "plan" w Hlive eq_refl) as (w1 & Hrun & Hp).
    unfold after. rewrite Hrun. cbn [snd]. unfold truthy. rewrite Hp. reflexivity.
Qed.

Lemma handlePlanApproved_gate_witness :
  handlePlanApproved branchCreated (mkConfig true "feature/") (stateAt planning 1) emptyWorld
    = (Ret (stateAt planning 1), emptyWorld) /\
  handlePlanApproved branchRefused (mkConfig true "feature/") (stateAt planning 1)
                     plannedWorld
    = (Ret (set_featureName (Some "Login form") (stateAt planning 1)), plannedWorld) /\
  exists (state' : WorkflowState) (w' : World),
    handlePlanApproved branchCreated (mkConfig true "feature/") (stateAt planning 1)
                       plannedWorld = (Ret state', w') /\
    phase state' = implementing /\
    branchName state' = Some "feature/login-form" /\
    truthy (signals state') "plan" = true.
Proof.
  split; [|split].
  - apply (handlePlanApproved_gate branchCreated (mkConfig true "feature/")
             (stateAt planning 1) emptyWorld). reflexivity.
  - apply (handlePlanApproved_gate branchRefused (mkConfig true "feature/")
             (stateAt planning 1) plannedWorld); reflexivity.
  - destruct (handlePlanApproved_gate branchCreated (mkConfig true "feature/")
                (stateAt planning 1) plannedWorld) as (_ & _ & Hok).
    destruct (Hok "feature/login-form" eq_refl eq_refl)
      as (state' & w' & Hrun & Hphase & _ & Hbranch & _ & _ & _ & _ & _ & Hsig).
    exists state', w'. split; [exact Hrun|]. split; [exact Hphase|].
    split; [exact Hbranch|]. apply Hsig. intros files. discriminate.
Defined.

(** X17: [handleManualCommit] refuses in phase [init] and writes nothing.
    In every other phase it persists the state, also when the commit
    failed: phase and iteration are kept, the commit count is taken over
    only from a successful commit, and no marker or review input moves. *)
Theorem handleManualCommit_effect (vc : VersionControl) (config : Config)
        (state : WorkflowState) (w : World) :
  (phase state = init -> handleManualCommit vc config state w = (Ret state, w)) /\
  (phase state <> init ->
   exists (state' : WorkflowState) (w' : World),
     handleManualCommit vc config state w = (Ret state', w') /\
     state' = commitCounted vc state /\
     phase state' = phase state /\
     iteration state' = iteration state /\
     loadState w' = (Ret (set_lastUpdated (wNow w) state'), w') /\
     markers_kept w w' /\
     review_inputs_kept w w').
Proof.
  unfold handleManualCommit. split.
  - intros Hinit. rewrite bool_decide_true by assumption. reflexivity.
  - intros Hphase. rewrite bool_decide_false by assumption.
    erewrite bind_ret_step by apply saveState_run.
    eexists _, _. split; [reflexivity|].
    split; [reflexivity|].
    split; [destruct (commitSuccess vc); reflexivity|].
    split; [destruct (commitSuccess vc); reflexivity|].
    split; [apply loadState_after_saveState|].
    split; [apply markers_kept_saveState|].
    unfold after. rewrite saveState_eq. cbn.
    split; [reflexivity|]. split; [reflexivity|]. apply readSignals_mkdir.
Qed.

Lemma handleManualCommit_effect_witness :
  handleManualCommit branchRefused (mkConfig true "feature/") (stateAt init 1) racingWorld
    = (Ret (stateAt init 1), racingWorld) /\
  exists (state' : WorkflowState) (w' : World),
    handleManualCommit branchRefused (mkConfig true "feature/") (stateAt refining 2)
                       racingWorld = (Ret state', w') /\
    state' = stateAt refining 2 /\
    loadState w' = (Ret state', w').
Proof.
  split.
  - apply (handleManualCommit_effect branchRefused (mkConfig true "feature/")
             (stateAt init 1) racingWorld). reflexivity.
  - destruct (handleManualCommit_effect branchRefused (mkConfig true "feature/")
                (stateAt refining 2) racingWorld) as [_ Hsave].
    destruct Hsave as (state' & w' & Hrun & -> & _ & _ & Hload & _); [discriminate|].
    eexists _, w'. split; [exact Hrun|]. split; [reflexivity|exact Hload].
Defined.

(** ** The key loop *)

Lemma handled_refused (st : WorkflowState) (w : World) (st' : WorkflowState) :
  handled st w (Ret st', w).
Proof. exists st', w. split; [reflexivity|]. left. reflexivity. Qed.

Lemma handled_saved (st st' : WorkflowState) (w wm : World) :
  markers_kept w wm -> wNow wm = wNow w ->
  iteration st <= iteration st' <= Z.max (iteration st) 3 ->
  handled st w (Ret st', after (saveState st') wm).
Proof.
  intros Hm Hnow Hit. exists st', (after (saveState st') wm).
  split; [reflexivity|]. right. exists wm. auto.
Qed.

Lemma handleDispatchRefine_handled (config : Config) (st : WorkflowState) (w : World) :
  handled st w (handleDispatchRefine config st w).
Proof.
  destruct (getReviewStatus_pure w) as [r Hr].
  unfold handleDispatchRefine. erewrite bind_ret_step by exact Hr.
  case_bool_decide; [apply handled_refused|].
  case_bool_decide; [apply handled_refused|].
  unfold dispatchAllWorkers, logPhaseChange. unfold bind at 1 2, modify. cbv beta iota.
  erewrite bind_ret_step by apply saveState_run.
  apply handled_saved; [intros ? Hfile; exact Hfile|reflexivity|]. cbn. lia.
Qed.

Lemma handleDispatchReview_handled (vc : VersionControl) (config : Config)
      (st : WorkflowState) (w : World) :
  handled st w (handleDispatchReview vc config st w).
Proof.
  rewrite handleDispatchReview_eq. cbv zeta.
  apply handled_saved; [intros ? Hfile; exact Hfile|reflexivity|].
  unfold commitCounted.
  destruct (auto_commit config && bool_decide (phase st = implementing));
    destruct (commitSuccess vc); cbn; lia.
Qed.

Lemma handleDispatchCompound_handled (config : Config) (st : WorkflowState) (w : World) :
  handled st w (handleDispatchCompound config st w).
Proof.
  destruct (getReviewStatus_pure w) as [r Hr].
  rewrite (handleDispatchCompound_eq config st w r Hr).
  destruct (bool_decide (r = PASS) || bool_decide (r = PASS_WITH_WARNINGS));
    [|apply handled_refused].
  apply handled_saved.
  - eapply markers_kept_trans; [apply (markers_kept_createSignal "compound")|].
    intros ? Hfile. exact Hfile.
  - cbn [after logPhaseChange]. rewrite createSignal_frame. reflexivity.
  - cbn. lia.
Qed.

Lemma handleCreatePR_handled (vc : VersionControl) (config : Config)
      (st : WorkflowState) (w : World) :
  handled st w (handleCreatePR vc config st w).
Proof.
  rewrite handleCreatePR_eq.
  destruct (truthy (signals st) "compound" && pullRequestSuccess vc);
    [|apply handled_refused].
  apply handled_saved.
  - apply (markers_kept_createSignal "pr").
  - rewrite createSignal_frame. reflexivity.
  - cbn. lia.
Qed.

Lemma handleManualCommit_handled (vc : VersionControl) (config : Config)
      (st : WorkflowState) (w : World) :
  handled st w (handleManualCommit vc config st w).
Proof.
  unfold handleManualCommit. case_bool_decide; [apply handled_refused|].
  erewrite bind_ret_step by apply saveState_run.
  apply handled_saved; [intros ? Hfile; exact Hfile|reflexivity|].
  destruct (commitSuccess vc); cbn; lia.
Qed.

Lemma handlePlanApproved_handled (vc : VersionControl) (config : Config)
      (st : WorkflowState) (w : World) :
  handled st w (handlePlanApproved vc config st w).
Proof.
  unfold handlePlanApproved. unfold bind at 1, gets. cbv beta iota.
  destruct (wPlanFile w); cbn [negb]; [|apply handled_refused].
  destruct (featureBranch vc) as [branch|]; [|apply handled_refused].
  erewrite bind_ret_step by apply createSignal_run.
  unfold addTimelineEvent, dispatchAllWorkers. unfold bind at 1 2, modify. cbv beta iota.
  erewrite bind_ret_step by apply getSignals_eq.
  erewrite bind_ret_step by apply saveState_run.
  apply handled_saved.
  - eapply markers_kept_trans; [apply (markers_kept_createSignal "plan")|].
    intros ? Hfile. exact Hfile.
  - cbn [wNow with_dispatched with_timeline]. rewrite createSignal_frame. reflexivity.
  - destruct (auto_commit config); destruct (commitSuccess vc); cbn; lia.
Qed.

(** One turn of the loop, from the record [s] that [loadState] gives. *)
Lemma keypress_handled (vc : VersionControl) (config : Config) (cmd : Command) (w : World)
      (s : WorkflowState) :
  loadState w = (Ret s, w) ->
  handled s w (keypress vc config cmd w).
Proof.
  intros Hload. unfold keypress.
  erewrite bind_ret_step by exact Hload.
  erewrite bind_ret_step by apply getSignals_eq.
  assert (Hsame : forall out,
             handled (set_signals (readSignals (wSignalsDir w)) s) w out -> handled s w out).
  { intros out H. exact H. }
  apply Hsame. destruct cmd.
  - destruct (_ || _); [apply handlePlanApproved_handled|apply handled_refused].
  - destruct (_ || _); [apply handleDispatchReview_handled|apply handled_refused].
  - apply handleDispatchRefine_handled.
  - apply handleDispatchCompound_handled.
  - apply handleCreatePR_handled.
  - apply handleManualCommit_handled.
  - erewrite bind_ret_step by exact Hload.
    erewrite bind_ret_step by apply getSignals_eq.
    apply handled_refused.
Qed.

(** What a handled command means for the next turn. *)
Lemma handled_next (s : WorkflowState) (w : World) (out : Outcome WorkflowState * World) :
  loadState w = (Ret s, w) ->
  handled s w out ->
  exists (st' : WorkflowState) (w' : World) (s' : WorkflowState),
    out = (Ret st', w') /\
    markers_kept w w' /\
    loadState w' = (Ret s', w') /\
    iteration s <= iteration s' <= Z.max (iteration s) 3.
Proof.
  intros Hload (st' & w' & -> & [->|(wm & -> & Hm & Hnow & Hit)]).
  - exists st', w, s. split; [reflexivity|]. split; [apply markers_kept_refl|].
    split; [exact Hload|]. lia.
  - exists st', (after (saveState st') wm), (set_lastUpdated (wNow wm) st').
    split; [reflexivity|]. split.
    + eapply markers_kept_trans; [exact Hm|apply markers_kept_saveState].
    + split; [apply loadState_after_saveState|]. cbn. exact Hit.
Qed.

Lemma keypresses_spec (config : Config) (turns : list (VersionControl * Command)) :
  forall w : World,
    exists (s s' : WorkflowState) (w' : World),
      loadState w = (Ret s, w) /\
      keypresses config turns w = (Ret tt, w') /\
      markers_kept w w' /\
      loadState w' = (Ret s', w') /\
      iteration s <= iteration s' <= Z.max (iteration s) 3.
Proof.
  induction turns as [|[vc cmd] turns IH]; intros w.
  - destruct (loadState_pure w) as [s Hs]. exists s, s, w.
    split; [exact Hs|]. split; [reflexivity|]. split; [apply markers_kept_refl|].
    split; [exact Hs|]. lia.
  - destruct (loadState_pure w) as [s Hs].
    destruct (handled_next s w _ Hs (keypress_handled vc config cmd w s Hs))
      as (st1 & w1 & s1 & Hrun1 & Hm1 & Hload1 & Hit1).
    destruct (IH w1) as (s1' & s2 & w2 & Hload1' & Hrun2 & Hm2 & Hload2 & Hit2).
    rewrite Hload1 in Hload1'. injection Hload1' as <-.
    exists s, s2, w2. split; [exact Hs|]. split.
    + cbn [keypresses]. erewrite bind_ret_step by exact Hrun1. exact Hrun2.
    + split; [eapply markers_kept_trans; eassumption|]. split; [exact Hload2|]. lia.
Qed.

(** X18: no sequence of commands throws, and none removes a marker:
    every file of the signals directory is still there after the last
    command, whatever the collaborator answered along the way. *)
Theorem keypresses_keep_markers (config : Config)
        (turns : list (VersionControl * Command)) (w : World) :
  exists w' : World,
    keypresses config turns w = (Ret tt, w') /\
    markers_kept w w'.
Proof.
  destruct (keypresses_spec config turns w) as (s & s' & w' & _ & Hrun & Hm & _).
  exists w'. auto.
Qed.

(** X19: over any sequence of the seven commands of [Command] (plan,
    review, refine, compound, pull request, checkpoint, refresh) the
    persisted iteration never decreases, and it never passes 3 unless it
    started above 3.  The keys for a new feature and for clearing the
    session are not among them: they reset the iteration. *)
Theorem keypresses_iteration_bounded (config : Config)
        (turns : list (VersionControl * Command)) (w : World) :
  exists (s s' : WorkflowState) (w' : World),
    loadState w = (Ret s, w) /\
    keypresses config turns w = (Ret tt, w') /\
    loadState w' = (Ret s', w') /\
    iteration s <= iteration s' <= Z.max (iteration s) 3.
Proof.
  destruct (keypresses_spec config turns w) as (s & s' & w' & Hs & Hrun & _ & Hs' & Hit).
  exists s, s', w'. auto.
Qed.

Lemma getReviewStatus_frame (w w' : World) :
  wReviewFile w' = wReviewFile w ->
  readSignals (wSignalsDir w') = readSignals (wSignalsDir w) ->
  result getReviewStatus w' = result getReviewStatus w.
Proof.
  intros Hrev Hsig. unfold result. rewrite !getReviewStatus_eq, Hrev, Hsig. reflexivity.
Qed.

(** One refine key while the review says FAIL. *)
Lemma keypress_refine (vc : VersionControl) (config : Config) (w : World)
      (s : WorkflowState) :
  loadState w = (Ret s, w) ->
  result getReviewStatus w = Ret FAIL ->
  exists (st' : WorkflowState) (w' : World) (s' : WorkflowState),
    keypress vc config DispatchRefine w = (Ret st', w') /\
    loadState w' = (Ret s', w') /\
    iteration s' = (if iteration s <? 3 then iteration s + 1 else iteration s) /\
    result getReviewStatus w' = Ret FAIL.
Proof.
  intros Hload Hfail.
  assert (Hr : getReviewStatus w = (Ret FAIL, w))
    by (rewrite getReviewStatus_result, Hfail; reflexivity).
  unfold keypress.
  erewrite bind_ret_step by exact Hload.
  erewrite bind_ret_step by apply getSignals_eq.
  unfold handleDispatchRefine.
  erewrite bind_ret_step by exact Hr.
  rewrite bool_decide_false by (intros H; apply H; reflexivity).
  cbn [iteration set_signals].
  destruct (Z.ltb_spec (iteration s) 3) as [Hlt|Hge].
  - rewrite bool_decide_false by lia.
    unfold dispatchAllWorkers, logPhaseChange. unfold bind at 1 2, modify. cbv beta iota.
    erewrite bind_ret_step by apply saveState_run.
    eexists _, _, _. split; [reflexivity|].
    split; [apply loadState_after_saveState|]. split; [reflexivity|].
    rewrite <- Hfail. apply getReviewStatus_frame.
    + unfold after. rewrite saveState_eq. reflexivity.
    + rewrite readSignals_after_saveState. reflexivity.
  - rewrite bool_decide_true by lia.
    eexists _, w, s. split; [reflexivity|]. auto.
Qed.

(** X20: the refine loop is bounded.  While the review says FAIL, [n]
    refine requests in a row take a persisted iteration [i <= 3] to
    [min 3 (i + n)]: each request below 3 adds one, and from 3 on every
    request is refused. *)
Theorem refine_requests_saturate (n : nat) (vc : VersionControl) (config : Config)
        (w : World) (s : WorkflowState) :
  loadState w = (Ret s, w) ->
  result getReviewStatus w = Ret FAIL ->
  iteration s <= 3 ->
  exists (w' : World) (s' : WorkflowState),
    keypresses config (replicate n (vc, DispatchRefine)) w = (Ret tt, w') /\
    loadState w' = (Ret s', w') /\
    iteration s' = Z.min 3 (iteration s + Z.of_nat n).
Proof.
  revert w s. induction n as [|n IH]; intros w s Hload Hfail Hle.
  - exists w, s. split; [reflexivity|]. split; [exact Hload|]. lia.
  - destruct (keypress_refine vc config w s Hload Hfail)
      as (st1 & w1 & s1 & Hrun1 & Hload1 & Hit1 & Hfail1).
    destruct (IH w1 s1 Hload1 Hfail1) as (w' & s' & Hrun & Hload' & Hit').
    { destruct (Z.ltb_spec (iteration s) 3); lia. }
    exists w', s'. split; [|split; [exact Hload'|]].
    + cbn [replicate keypresses]. erewrite bind_ret_step by exact Hrun1. exact Hrun.
    + rewrite Hit', Hit1. destruct (Z.ltb_spec (iteration s) 3); lia.
Qed.

Lemma refine_requests_saturate_witness :
  exists (w' : World) (s' : WorkflowState),
    keypresses (mkConfig true "feature/")
               (replicate 5 (mkVersionControl "Login form" None false 0 false, DispatchRefine))
               (with_stateFile (File (Serialized (stateAt reviewing 1))) failedReviewWorld)
      = (Ret tt, w') /\
    loadState w' = (Ret s', w') /\
    iteration s' = Z.min 3 (1 + Z.of_nat 5).
Proof.
  apply (refine_requests_saturate 5 (mkVersionControl "Login form" None false 0 false)
           (mkConfig true "feature/")
           (with_stateFile (File (Serialized (stateAt reviewing 1))) failedReviewWorld)
           (stateAt reviewing 1)).
  - reflexivity.
  - vm_compute. reflexivity.
  - cbn. lia.
Defined.

(** ** Branch slugs *)

Lemma isDash_dash : Git.isDash Git.dash = true.
Proof. reflexivity. Qed.

Lemma isDash_eq (c : Ascii.ascii) : Git.isDash c = true -> c = Git.dash.
Proof. unfold Git.isDash. intros H. apply Ascii.eqb_eq in H. exact H. Qed.

Lemma isSlugChar_not_dash (c : Ascii.ascii) :
  Git.isSlugChar c = true -> Git.isDash c = false.
Proof.
  intros H. destruct (Git.isDash c) eqn:E; [|reflexivity].
  apply isDash_eq in E. subst c. vm_compute in H. discriminate.
Qed.

Lemma startsWith_dash (s : string) : JsString.startsWith s "-" = headDash s.
Proof.
  destruct s as [|c s]; [reflexivity|]. cbn. unfold Git.isDash.
  rewrite (Ascii.eqb_sym c). change Git.dash with (Ascii.ascii_of_nat 45).
  destruct (Ascii.eqb _ c); reflexivity.
Qed.

Lemma endsWith_dash (s : string) : JsString.endsWith s "-" = lastDash s.
Proof.
  induction s as [|c s IH]; [reflexivity|].
  change (JsString.endsWith (String c s) "-")
    with (String.eqb (String c s) "-" || JsString.endsWith s "-").
  rewrite IH. destruct s as [|c2 s].
  - cbn. unfold Git.isDash. change Git.dash with (Ascii.ascii_of_nat 45).
    destruct (Ascii.eqb c _); reflexivity.
  - cbn [lastDash]. replace (String.eqb (String c (String c2 s)) "-") with false;
      [reflexivity|].
    cbn. destruct (Ascii.eqb c _); reflexivity.
Qed.

Lemma includes_double_dash (s : string) :
  JsString.includes s "--" = negb (noDoubleDash s).
Proof.
  induction s as [|c s IH]; [reflexivity|].
  change (JsString.includes (String c s) "--")
    with (JsString.startsWith (String c s) "--" || JsString.includes s "--").
  rewrite IH. cbn [noDoubleDash]. rewrite negb_andb, negb_involutive. f_equal.
  cbn. unfold Git.isDash. rewrite (Ascii.eqb_sym c).
  change Git.dash with (Ascii.ascii_of_nat 45).
  destruct (Ascii.eqb _ c); [|reflexivity].
  destruct s as [|c2 s]; [reflexivity|]. cbn. unfold Git.isDash.
  rewrite (Ascii.eqb_sym c2). change Git.dash with (Ascii.ascii_of_nat 45).
  destruct (Ascii.eqb _ c2); reflexivity.
Qed.

Lemma collapse_alphabet (s : string) :
  forall inRun, Forall slugAlphabet (String.list_ascii_of_string (Git.collapse inRun s)).
Proof.
  induction s as [|c s IH]; intros inRun; cbn; [constructor|].
  destruct (Git.isSlugChar c) eqn:Hc.
  - cbn. constructor; [left; exact Hc|apply IH].
  - destruct inRun; [apply IH|]. cbn. constructor; [right; reflexivity|apply IH].
Qed.

Lemma collapse_shape (s : string) :
  noDoubleDash (Git.collapse false s) = true /\
  noDoubleDash (Git.collapse true s) = true /\
  headDash (Git.collapse true s) = false.
Proof.
  induction s as [|c s (IHf & IHt & IHh)]; [auto|].
  cbn [Git.collapse]. destruct (Git.isSlugChar c) eqn:Hc.
  - pose proof (isSlugChar_not_dash c Hc) as Hd.
    cbn [noDoubleDash headDash]. rewrite Hd, IHf. auto.
  - cbn [noDoubleDash headDash]. rewrite isDash_dash, IHh, IHt. auto.
Qed.

Lemma stripLeading_shape (s : string) :
  noDoubleDash s = true ->
  noDoubleDash (Git.stripLeading s) = true /\ headDash (Git.stripLeading s) = false.
Proof.
  destruct s as [|c s]; [auto|]. cbn [Git.stripLeading noDoubleDash].
  destruct (Git.isDash c) eqn:Hc; cbn [andb negb].
  - intros H. apply andb_true_iff in H as [Hh Hn].
    apply negb_true_iff in Hh. auto.
  - intros H. split; [cbn; rewrite Hc; exact H|cbn; exact Hc].
Qed.

Lemma stripTrailing_alphabet (s : string) :
  Forall slugAlphabet (String.list_ascii_of_string s) ->
  Forall slugAlphabet (String.list_ascii_of_string (Git.stripTrailing s)).
Proof.
  induction s as [|c s IH]; [auto|]. intros H. cbn in H. apply Forall_cons in H as [Hc Hs].
  destruct s as [|c2 s].
  - cbn. destruct (Git.isDash c); cbn; auto.
  - change (Git.stripTrailing (String c (String c2 s)))
      with (String c (Git.stripTrailing (String c2 s))).
    cbn [String.list_ascii_of_string]. constructor; auto.
Qed.

Lemma stripTrailing_shape (s : string) :
  noDoubleDash s = true ->
  noDoubleDash (Git.stripTrailing s) = true /\
  lastDash (Git.stripTrailing s) = false /\
  (headDash s = false -> headDash (Git.stripTrailing s) = false).
Proof.
  induction s as [|c s IH]; [auto|]. intros H.
  cbn [noDoubleDash] in H. apply andb_true_iff in H as [Hh Hn].
  apply negb_true_iff in Hh. specialize (IH Hn) as (IHn & IHl & IHh).
  destruct s as [|c2 s].
  - cbn. destruct (Git.isDash c) eqn:Hc; cbn; rewrite ?Hc; auto.
  - change (Git.stripTrailing (String c (String c2 s)))
      with (String c (Git.stripTrailing (String c2 s))).
    split; [|split].
    + cbn [noDoubleDash]. rewrite IHn, andb_true_r. apply negb_true_iff.
      destruct (Git.isDash c) eqn:Hc; [|reflexivity]. cbn [andb] in *.
      apply IHh. exact Hh.
    + destruct (Git.stripTrailing (String c2 s)) as [|c3 s3] eqn:Hst.
      * cbn. (* the rest was a single dash *)
        destruct s as [|c4 s4].
        -- cbn in Hst. destruct (Git.isDash c2) eqn:Hc2; [|discriminate].
           cbn in Hh. rewrite Hc2, andb_true_r in Hh. exact Hh.
        -- discriminate.
      * exact IHl.
    + cbn. auto.
Qed.

Lemma take_alphabet (n : nat) (s : string) :
  Forall slugAlphabet (String.list_ascii_of_string s) ->
  Forall slugAlphabet (String.list_ascii_of_string (Git.take n s)).
Proof.
  revert s. induction n as [|n IH]; intros [|c s] H; cbn; try constructor.
  - cbn in H. apply Forall_cons in H as [Hc _]. exact Hc.
  - cbn in H. apply Forall_cons in H as [_ Hs]. apply IH. exact Hs.
Qed.

Lemma take_length (n : nat) (s : string) : (String.length (Git.take n s) <= n)%nat.
Proof.
  revert s. induction n as [|n IH]; intros [|c s]; cbn; try lia.
  specialize (IH s). lia.
Qed.

Lemma take_short (n : nat) (s : string) :
  (String.length (Git.take n s) < n)%nat -> Git.take n s = s.
Proof.
  revert s. induction n as [|n IH]; intros [|c s]; cbn; try lia; [reflexivity|].
  intros H. f_equal. apply IH. lia.
Qed.

Lemma take_shape (n : nat) (s : string) :
  noDoubleDash s = true ->
  noDoubleDash (Git.take n s) = true /\
  (headDash s = false -> headDash (Git.take n s) = false).
Proof.
  revert s. induction n as [|n IH]; intros [|c s] H; cbn; auto.
  cbn [noDoubleDash] in H. apply andb_true_iff in H as [Hh Hn].
  destruct (IH s Hn) as [IHn IHh]. split; [|auto].
  rewrite IHn, andb_true_r. apply negb_true_iff. apply negb_true_iff in Hh.
  destruct (Git.isDash c); [|reflexivity]. cbn [andb] in *.
  destruct n, s; cbn in *; auto.
Qed.

(** X21: a slug is short and safe: at most 40 characters, each of them a
    lower-case letter, a digit or a dash, whatever the feature name is. *)
Theorem generateSlug_alphabet (name : string) :
  (String.length (Git.generateSlug name) <= 40)%nat /\
  Forall (fun c => Git.isSlugChar c = true \/ c = Git.dash)
         (String.list_ascii_of_string (Git.generateSlug name)).
Proof.
  split; [apply take_length|].
  apply take_alphabet, stripTrailing_alphabet.
  pose proof (collapse_alphabet (Git.toLowerCase name) false) as H.
  destruct (Git.collapse false (Git.toLowerCase name)) as [|c s]; [constructor|].
  cbn [Git.stripLeading]. destruct (Git.isDash c); [|exact H].
  cbn in H. apply Forall_cons in H as [_ H]. exact H.
Qed.

(** X22: a slug never begins with a dash and never has two dashes in a
    row; it ends with a dash only when the cut at 40 characters fell right
    after one. *)
Theorem generateSlug_dashes (name : string) :
  JsString.startsWith (Git.generateSlug name) "-" = false /\
  JsString.includes (Git.generateSlug name) "--" = false /\
  (JsString.endsWith (Git.generateSlug name) "-" = true ->
   String.length (Git.generateSlug name) = 40%nat).
Proof.
  unfold Git.generateSlug.
  destruct (collapse_shape (Git.toLowerCase name)) as (Hc & _ & _).
  destruct (stripLeading_shape _ Hc) as (Hl & Hlh).
  destruct (stripTrailing_shape _ Hl) as (Ht & Htl & Hth).
  specialize (Hth Hlh).
  destruct (take_shape 40 _ Ht) as (Hk & Hkh).
  rewrite startsWith_dash, includes_double_dash, endsWith_dash.
  split; [auto|]. split; [rewrite Hk; reflexivity|].
  intros Hend.
  pose proof (take_length 40
                (Git.stripTrailing (Git.stripLeading (Git.collapse false (Git.toLowerCase name)))))
    as Hlen.
  destruct (decide (String.length
                      (Git.take 40 (Git.stripTrailing
                                      (Git.stripLeading
                                         (Git.collapse false (Git.toLowerCase name)))))
                    = 40%nat)) as [Heq|Hne]; [exact Heq|].
  rewrite take_short in Hend by lia. congruence.
Qed.

Lemma generateSlug_dashes_witness :
  JsString.endsWith
    (Git.generateSlug "aaaaaaaaaaaaaaaaaaaaaaaaaaaaaaaaaaaaaaa bcd") "-" = true /\
  String.length (Git.generateSlug "aaaaaaaaaaaaaaaaaaaaaaaaaaaaaaaaaaaaaaa bcd") = 40%nat.
Proof.
  split; [vm_compute; reflexivity|].
  apply (generateSlug_dashes "aaaaaaaaaaaaaaaaaaaaaaaaaaaaaaaaaaaaaaa bcd").
  vm_compute. reflexivity.
Defined.

(** ** Configuration *)





(** ** Project detection *)

Lemma detectByFiles_results (pr : Detect.Project) (fw : string) :
  Detect.detectByFiles pr = Ret fw -> fw ∈ ["rust"; "go"; "rails"; "unknown"].
Proof.
  unfold Detect.detectByFiles.
  destruct (Detect.cargoToml pr); [intros [= <-]; set_solver|].
  destruct (Detect.goMod pr); [intros [= <-]; set_solver|].
  destruct (Detect.gemfile pr) as [| |text]; cbn.
  - intros [= <-]. set_solver.
  - discriminate.
  - destruct (JsString.includes text "rails"); intros [= <-]; set_solver.
Qed.

(** X24: without a [package.json] that parses to an object, only the
    file-based detection runs: the result is rust, go, rails or unknown,
    and [requirements.txt] is not looked at, so that a Python project is
    never reported as django, flask or fastapi. *)
Theorem detectFramework_without_package (pr : Detect.Project) (fw : string) :
  Detect.loadPackageJson pr = None ->
  Detect.detectFramework pr = Ret fw ->
  fw ∈ ["rust"; "go"; "rails"; "unknown"].
Proof.
  intros Hpkg. unfold Detect.detectFramework. rewrite Hpkg. apply detectByFiles_results.
Qed.

Lemma detectFramework_without_package_witness :
  Detect.detectFramework (Detect.mkProject Absent (File "django==5.0") false false Absent)
    = Ret "unknown" /\
  "unknown" ∈ ["rust"; "go"; "rails"; "unknown"].
Proof.
  split; [reflexivity|].
  apply (detectFramework_without_package
           (Detect.mkProject Absent (File "django==5.0") false false Absent) "unknown");
    reflexivity.
Defined.

(** X25: [detectFramework] reads [requirements.txt] and [Gemfile] outside
    any [try].  It returns a framework whenever both files are readable or
    absent; with a [package.json] that names no framework package and a
    [requirements.txt] that exists but cannot be read, it throws. *)
Theorem detectFramework_returns (pr : Detect.Project) :
  (Detect.requirementsTxt pr <> Unreadable ->
   Detect.gemfile pr <> Unreadable ->
   exists fw : string, Detect.detectFramework pr = Ret fw) /\
  (forall p : Detect.PackageJson,
     Detect.loadPackageJson pr = Some p ->
     (forall dep, dep ∈ frameworkDependencies ->
                  Detect.hasDependency (Some p) dep = false) ->
     Detect.requirementsTxt pr = Unreadable ->
     Detect.detectFramework pr = Throw EACCES).
Proof.
  split.
  - intros Hreq Hgem.
    assert (Hfiles : exists fw, Detect.detectByFiles pr = Ret fw).
    { unfold Detect.detectByFiles.
      destruct (Detect.cargoToml pr); [eauto|].
      destruct (Detect.goMod pr); [eauto|].
      destruct (Detect.gemfile pr) as [| |text]; cbn; [eauto|contradiction|].
      destruct (JsString.includes text "rails"); eauto. }
    unfold Detect.detectFramework.
    destruct (Detect.loadPackageJson pr) as [p|]; [|exact Hfiles].
    destruct (Detect.requirementsTxt pr) as [| |req]; cbn [Fs.existsNode Fs.readNode];
      [|contradiction|];
      repeat match goal with
             | |- context [if ?b then _ else _] => destruct b; [solve [eauto]|]
             end;
      exact Hfiles.
  - intros p Hload Hdeps Hreq. unfold Detect.detectFramework. rewrite Hload, Hreq.
    unfold frameworkDependencies in Hdeps.
    rewrite !Hdeps by set_solver. reflexivity.
Qed.

Lemma detectFramework_returns_witness :
  (exists fw : string, Detect.detectFramework djangoProject = Ret fw) /\
  Detect.detectFramework
    (Detect.mkProject (Detect.packageJsonFile djangoProject) Unreadable false false Absent)
    = Throw EACCES.
Proof.
  split.
  - destruct (detectFramework_returns djangoProject) as [Hret _].
    apply Hret; discriminate.
  - destruct (detectFramework_returns
                (Detect.mkProject (Detect.packageJsonFile djangoProject)
                                  Unreadable false false Absent)) as [_ Hthrow].
    apply (Hthrow (Detect.mkPackageJson (Some {[ "tailwindcss" := "^3.4.0" ]}) None None));
      [reflexivity| |reflexivity].
    intros dep Hdep. unfold frameworkDependencies in Hdep.
    repeat (apply elem_of_cons in Hdep as [->|Hdep]; [vm_compute; reflexivity|]).
    apply elem_of_nil in Hdep. contradiction.
Defined.

(** X26: a test command is found exactly when [package.json] parses to an
    object: the last resort is [bun test], and without the package no
    command is proposed at all. *)
Theorem detectCommands_test (pr : Detect.Project) :
  Detect.test (Detect.detectCommands pr) = None <-> Detect.loadPackageJson pr = None.
Proof.
  unfold Detect.detectCommands. cbn [Detect.test].
  destruct (Detect.loadPackageJson pr) as [p|] eqn:Hpkg; [|split; reflexivity].
  split; [|discriminate].
  assert (Hex : Fs.existsNode (Detect.packageJsonFile pr) = true).
  { unfold Detect.loadPackageJson in Hpkg.
    destruct (Fs.existsNode (Detect.packageJsonFile pr)); [reflexivity|discriminate]. }
  unfold Detect.detectTestCommand. rewrite Hex.
  destruct (Detect.truthyString (Detect.script p "test")) eqn:Ht.
  - destruct (Detect.script p "test"); [discriminate|]. cbn in Ht. discriminate.
  - repeat match goal with
           | |- context [if ?b then _ else _] => destruct b; [discriminate|]
           end.
    discriminate.
Qed.

Lemma hasDependency_addDependency (p : Detect.PackageJson) (name version dep : string) :
  name <> dep ->
  Detect.hasDependency (Some (addDependency name version p)) dep
    = Detect.hasDependency (Some p) dep.
Proof.
  intros Hne. unfold Detect.hasDependency, addDependency. cbn.
  rewrite lookup_insert_ne by assumption.
  destruct (Detect.dependencies p); cbn; [reflexivity|].
  rewrite lookup_empty. reflexivity.
Qed.

(** X27: a dependency that is none of the seven framework packages does
    not change the framework detected. *)
Theorem detectFramework_unrelated_dependency
        (pr : Detect.Project) (p : Detect.PackageJson) (name version : string) :
  Detect.packageJsonFile pr = File (Detect.ParsedObject p) ->
  name ∉ frameworkDependencies ->
  Detect.detectFramework (withPackage (addDependency name version p) pr)
    = Detect.detectFramework pr.
Proof.
  intros Hfile Hname. unfold frameworkDependencies in Hname.
  assert (Hload : Detect.loadPackageJson pr = Some p).
  { unfold Detect.loadPackageJson. rewrite Hfile. reflexivity. }
  unfold Detect.detectFramework. rewrite Hload.
  change (Detect.loadPackageJson (withPackage (addDependency name version p) pr))
    with (Some (addDependency name version p)).
  cbv zeta iota.
  rewrite !hasDependency_addDependency by set_solver.
  reflexivity.
Qed.

Lemma detectFramework_unrelated_dependency_witness :
  Detect.detectFramework
    (withPackage (addDependency "lodash" "^4.17.21"
                    (Detect.mkPackageJson (Some {[ "tailwindcss" := "^3.4.0" ]}) None None))
                 djangoProject)
    = Detect.detectFramework djangoProject.
Proof.
  apply (detectFramework_unrelated_dependency djangoProject
           (Detect.mkPackageJson (Some {[ "tailwindcss" := "^3.4.0" ]}) None None)
           "lodash" "^4.17.21").
  - reflexivity.
  - unfold frameworkDependencies. intros H.
    repeat (apply elem_of_cons in H as [H|H]; [discriminate|]).
    apply elem_of_nil in H. exact H.
Defined.

(** ** The timeline *)

Lemma slice_from_suffix {A} (start : Z) (l : list A) :
  exists older : list A, l = (older ++ slice_from start l)%list.
Proof.
  unfold slice_from. eexists. symmetry. apply take_drop.
Qed.

(** X28: [getRecentEvents(n)] for a positive [n] returns the last [n]
    events, oldest first (all of them when there are fewer); for [n = 0]
    it returns the whole timeline, not the empty list; a log that is
    missing or does not parse reads as empty. *)
Theorem getRecentEvents_slice (limit : Z) (file : Node Timeline.TimelineText) :
  (0 < limit ->
   length (Timeline.getRecentEvents limit file)
     = Z.to_nat (Z.min limit (Z.of_nat (length (Timeline.loadTimeline file)))) /\
   exists older : list TimelineEvent,
     Timeline.loadTimeline file = (older ++ Timeline.getRecentEvents limit file)%list)
  /\
  (limit = 0 -> Timeline.getRecentEvents limit file = Timeline.loadTimeline file)
  /\
  ((file = Absent \/ file = Unreadable \/ exists raw, file = File (Timeline.Garbage raw)) ->
   Timeline.getRecentEvents limit file = []).
Proof.
  unfold Timeline.getRecentEvents. split; [|split].
  - intros Hpos. split; [|apply slice_from_suffix].
    unfold slice_from. rewrite length_drop.
    destruct (Z.ltb_spec (- limit) 0); lia.
  - intros ->. unfold slice_from. cbn [Z.opp Z.ltb Z.compare].
    rewrite Z.min_l by lia. reflexivity.
  - intros H. replace (Timeline.loadTimeline file) with (@nil TimelineEvent).
    + unfold slice_from. apply drop_nil.
    + destruct H as [->|[->|[raw ->]]]; reflexivity.
Qed.

Lemma getRecentEvents_slice_witness :
  (length (Timeline.getRecentEvents 2 (File (Timeline.Events threeEvents)))
     = Z.to_nat (Z.min 2 (Z.of_nat
                            (length (Timeline.loadTimeline
                                       (File (Timeline.Events threeEvents)))))) /\
   exists older : list TimelineEvent,
     Timeline.loadTimeline (File (Timeline.Events threeEvents))
       = (older ++ Timeline.getRecentEvents 2 (File (Timeline.Events threeEvents)))%list) /\
  Timeline.getRecentEvents 0 (File (Timeline.Events threeEvents))
    = Timeline.loadTimeline (File (Timeline.Events threeEvents)) /\
  Timeline.getRecentEvents 2 (File (Timeline.Garbage "[{")) = [].
Proof.
  split; [|split].
  - apply (getRecentEvents_slice 2 (File (Timeline.Events threeEvents))). lia.
  - apply (getRecentEvents_slice 0 (File (Timeline.Events threeEvents))). reflexivity.
  - apply (getRecentEvents_slice 2 (File (Timeline.Garbage "[{"))).
    right. right. exists "[{". reflexivity.
Defined.


